(** * Refind HIFI search: orchestration, date normalisation, aggregation

    A shallow embedding of the core of the multi-marketplace search tool
    ([HIFI_search.py], [utils.py], [search_utils.py], [base.py]) together
    with the properties its specification states about it.

    Conventions of the embedding.
    - A Python [str] is a [string] whose characters are the code points
      U+0000..U+00FF; the character classes below ([isspace], [isdecimal],
      [isword], [lower_char]) are Python's on that range.
    - A [dict] whose iteration order the code observes is an association
      list in insertion order ([dict_set], [dict_get]); a [set] is a [gset].
    - A function that may raise returns a [result]; [datetime.now()] is the
      argument [now] of the function that reads it.
    - The diagnostics printed on [sys.stderr] are returned as a list. *)

From Stdlib Require Import ZArith QArith Lqa Ascii String List Bool Lia OrdersEx.
From stdpp Require Import base decidable option list gmap strings sorting.

Local Open Scope string_scope.
Local Open Scope Z_scope.
Local Open Scope list_scope.

(** ** Python strings *)

Module PyStr.

Definition code (c : ascii) : N := N_of_ascii c.

Definition between (lo hi : N) (c : ascii) : bool :=
  ((lo <=? code c) && (code c <=? hi))%N.

(** [str.isspace] on one character, also the class [\s]. *)
Definition isspace (c : ascii) : bool :=
  between 9 13 c || between 28 32 c || (code c =? 133)%N || (code c =? 160)%N.

(** The class [\d]: the decimal digits. *)
Definition isdecimal (c : ascii) : bool := between 48 57 c.

Definition isupper_ascii (c : ascii) : bool := between 65 90 c.
Definition islower_ascii (c : ascii) : bool := between 97 122 c.
Definition isalpha_ascii (c : ascii) : bool := isupper_ascii c || islower_ascii c.

(** The class [\w]: alphanumeric characters and the underscore. *)
Definition isword (c : ascii) : bool :=
  isalpha_ascii c || isdecimal c || (code c =? 95)%N
  || (code c =? 170)%N || (code c =? 178)%N || (code c =? 179)%N
  || (code c =? 181)%N || (code c =? 185)%N || (code c =? 186)%N
  || between 188 190 c
  || between 192 214 c || between 216 246 c || between 248 255 c.

(** [str.lower] on one character. *)
Definition lower_char (c : ascii) : ascii :=
  if isupper_ascii c || (between 192 222 c && negb (code c =? 215)%N)
  then ascii_of_N (code c + 32)
  else c.

Fixpoint lower (s : string) : string :=
  match s with
  | EmptyString => EmptyString
  | String c r => String (lower_char c) (lower r)
  end.

Fixpoint lstrip (s : string) : string :=
  match s with
  | EmptyString => EmptyString
  | String c r => if isspace c then lstrip r else s
  end.

Fixpoint rstrip (s : string) : string :=
  match s with
  | EmptyString => EmptyString
  | String c r =>
      match rstrip r with
      | EmptyString => if isspace c then EmptyString else String c EmptyString
      | r' => String c r'
      end
  end.

(** [s.strip()] *)
Definition strip (s : string) : string := rstrip (lstrip s).

(** [s.startswith(p)] *)
Fixpoint startswith (p s : string) : bool :=
  match p, s with
  | EmptyString, _ => true
  | String a p', String b s' => Ascii.eqb a b && startswith p' s'
  | String _ _, EmptyString => false
  end.

(** [sub in s] *)
Fixpoint contains (sub s : string) : bool :=
  startswith sub s ||
  match s with
  | EmptyString => false
  | String _ r => contains sub r
  end.

(** [s.replace(old, new)] for a non-empty [old]: occurrences are replaced
    from the left and do not overlap; [skip] counts the characters of the
    occurrence just replaced that are still to be dropped. *)
Fixpoint replace_from (skip : nat) (old new s : string) : string :=
  match s with
  | EmptyString => EmptyString
  | String c r =>
      match skip with
      | S k => replace_from k old new r
      | O =>
          if startswith old s
          then new +:+ replace_from (String.length old - 1) old new r
          else String c (replace_from O old new r)
      end
  end.

Definition replace (old new s : string) : string := replace_from O old new s.

(** Truthiness of a string: [bool(s)]. *)
Definition truthy (s : string) : bool :=
  match s with EmptyString => false | _ => true end.

(** The number that a run of decimal digits denotes. *)
Fixpoint decimal_from (acc : Z) (s : string) : Z :=
  match s with
  | EmptyString => acc
  | String c r => decimal_from (10 * acc + (Z.of_N (code c) - 48)) r
  end.

Definition decimal (s : string) : Z := decimal_from 0 s.

(** [s[i:j]] for [0 <= i <= j]. *)
Fixpoint drop (n : nat) (s : string) : string :=
  match n, s with
  | O, _ => s
  | S k, String _ r => drop k r
  | S _, EmptyString => EmptyString
  end.

Fixpoint take (n : nat) (s : string) : string :=
  match n, s with
  | S k, String c r => String c (take k r)
  | _, _ => EmptyString
  end.

Definition slice (i j : nat) (s : string) : string := take (j - i) (drop i s).

(** [s[i]] when [i] is in range. *)
Fixpoint char_at (i : nat) (s : string) : option ascii :=
  match s, i with
  | EmptyString, _ => None
  | String c _, O => Some c
  | String _ r, S k => char_at k r
  end.

(** Zero-padded decimal rendering, the format specs [02d] and [04d] on a
    non-negative integer. *)
Definition digit (d : Z) : ascii := ascii_of_N (Z.to_N (d + 48)).

Fixpoint digits_from (fuel : nat) (n : Z) (acc : string) : string :=
  match fuel with
  | O => acc
  | S f =>
      let acc' := String (digit (n mod 10)) acc in
      if n / 10 =? 0 then acc' else digits_from f (n / 10) acc'
  end.

Definition str_of_nonneg (n : Z) : string :=
  digits_from (S (Z.to_nat (Z.log2 n))) n EmptyString.

(** [str(n)] for an integer. *)
Definition str_of_int (n : Z) : string :=
  if n <? 0 then String "-" (str_of_nonneg (- n)) else str_of_nonneg n.

Fixpoint zeros (k : nat) : string :=
  match k with O => EmptyString | S k' => String "0" (zeros k') end.

Definition zfill (width : nat) (n : Z) : string :=
  let d := str_of_nonneg n in
  zeros (width - String.length d) +:+ d.

End PyStr.

(** A character given by its code point, for literals outside ASCII. *)
Definition chr (n : nat) : ascii := ascii_of_nat n.

(** ** Query expansion ([search_utils.py]) *)

(** The word för-stär-kare, with U+00F6 and U+00E4. *)
Definition forstarkare : string :=
  "f" +:+ String (chr 246) ("rst" +:+ String (chr 228) "rkare").

Definition SYNONYMS_items : list (string * list string) :=
  [ ("amp", ["amplifier"; forstarkare]);
    ("amplifier", ["amp"; forstarkare]);
    (forstarkare, ["amp"; "amplifier"]);
    ("turntable", ["record player"; "skivspelare"]);
    ("record", ["record player"; "vinyl"]);
    ("hifi", ["audio"; "audio equipment"]) ].

Definition SYNONYMS : gmap string (list string) := list_to_map SYNONYMS_items.

(** [x in l] for a list of strings. *)
Definition str_in (x : string) (l : list string) : bool :=
  existsb (String.eqb x) l.

(** The loop [for syn in synonyms: if syn not in variants: variants.append(syn)]. *)
Fixpoint append_new (variants synonyms : list string) : list string :=
  match synonyms with
  | [] => variants
  | syn :: rest =>
      if str_in syn variants then append_new variants rest
      else append_new (variants ++ [syn]) rest
  end.

Definition expand_search_term (term : string) : list string :=
  let normalized := PyStr.lower (PyStr.strip term) in
  let variants := [term] in
  if negb (PyStr.truthy normalized) then variants
  else append_new variants (default [] (SYNONYMS !! normalized)).

(** ** Regular expressions ([re])

    A backtracking matcher with Python's semantics: alternatives are tried
    left to right, repetitions are greedy, [search] returns the leftmost
    match.  A flag [re.I] is written into the character predicates of the
    pattern ([lit_i], [alpha]). *)

Module Re.

Inductive regex : Type :=
| Eps
| Chr (p : ascii -> bool)                        (* one character of a class *)
| Seq (a b : regex)
| Alt (a b : regex)                              (* a|b *)
| Rep (lo : nat) (hi : option nat) (r : regex)   (* r{lo,hi}, greedy *)
| Grp (i : nat) (r : regex)                      (* capturing group number i *)
| WordB                                          (* \b *)
| Bos                                            (* ^ *)
| Eos.                                           (* $ *)

(** Group spans, most recent first. *)
Definition caps := list (nat * (nat * nat)).

Definition word_at (s : string) (i : nat) : bool :=
  match PyStr.char_at i s with Some c => PyStr.isword c | None => false end.

Definition at_boundary (s : string) (i : nat) : bool :=
  xorb (match i with O => false | S j => word_at s j end) (word_at s i).

Definition at_end (s : string) (i : nat) : bool :=
  (i =? String.length s)%nat
  || ((S i =? String.length s)%nat
      && match PyStr.char_at i s with
         | Some c => Ascii.eqb c (chr 10)
         | None => false
         end).

Definition orelse {A} (x : option A) (y : option A) : option A :=
  match x with Some _ => x | None => y end.

(** [run r s i c k]: match [r] in [s] from position [i] with captures [c],
    then continue with [k]; [None] asks the caller to backtrack. *)
Fixpoint run (r : regex) (s : string) (i : nat) (c : caps)
         (k : nat -> caps -> option (nat * caps)) : option (nat * caps) :=
  match r with
  | Eps => k i c
  | Chr p =>
      match PyStr.char_at i s with
      | Some x => if p x then k (S i) c else None
      | None => None
      end
  | Seq a b => run a s i c (fun j c' => run b s j c' k)
  | Alt a b => orelse (run a s i c k) (run b s i c k)
  | Rep lo hi r' =>
      (fix loop (fuel n i : nat) (c : caps) {struct fuel} : option (nat * caps) :=
         let stop := if (lo <=? n)%nat then k i c else None in
         match fuel with
         | O => stop
         | S fuel' =>
             if match hi with Some h => (h <=? n)%nat | None => false end
             then stop
             else orelse
                    (run r' s i c
                       (fun j c' =>
                          if (j =? i)%nat then None else loop fuel' (S n) j c'))
                    stop
         end) (S (String.length s)) O i c
  | Grp g r' => run r' s i c (fun j c' => k j ((g, (i, j)) :: c'))
  | WordB => if at_boundary s i then k i c else None
  | Bos => match i with O => k i c | S _ => None end
  | Eos => if at_end s i then k i c else None
  end.

(** A match object: the subject, the span of the match and of its groups. *)
Record Match := { subject : string; m_start : nat; m_end : nat; m_caps : caps }.

Definition match_at (r : regex) (s : string) (i : nat) : option Match :=
  match run r s i [] (fun j c => Some (j, c)) with
  | Some (j, c) => Some {| subject := s; m_start := i; m_end := j; m_caps := c |}
  | None => None
  end.

(** [re.match(r, s)] *)
Definition rmatch (r : regex) (s : string) : option Match := match_at r s O.

Fixpoint search_from (r : regex) (s : string) (fuel i : nat) : option Match :=
  match match_at r s i with
  | Some m => Some m
  | None =>
      match fuel with
      | O => None
      | S f => search_from r s f (S i)
      end
  end.

(** [re.search(r, s)]: the starts 0 .. len(s) are tried in turn. *)
Definition search (r : regex) (s : string) : option Match :=
  search_from r s (String.length s) O.

Fixpoint assoc (g : nat) (c : caps) : option (nat * nat) :=
  match c with
  | [] => None
  | (g', sp) :: c' => if (g =? g')%nat then Some sp else assoc g c'
  end.

(** [m.group(g)]; [None] when the group took no part in the match. *)
Definition group (m : Match) (g : nat) : option string :=
  match assoc g (m_caps m) with
  | Some (i, j) => Some (PyStr.slice i j (subject m))
  | None => None
  end.

(** A group that the pattern always binds. *)
Definition group_str (m : Match) (g : nat) : string := default "" (group m g).

(** *** Pattern combinators *)

Fixpoint seq (l : list regex) : regex :=
  match l with
  | [] => Eps
  | [r] => r
  | r :: l' => Seq r (seq l')
  end.

Definition star (r : regex) : regex := Rep 0 None r.
Definition plus (r : regex) : regex := Rep 1 None r.
Definition opt (r : regex) : regex := Rep 0 (Some 1%nat) r.
Definition rep (lo hi : nat) (r : regex) : regex := Rep lo (Some hi) r.
Definition exactly (n : nat) (r : regex) : regex := Rep n (Some n) r.

Definition d : regex := Chr PyStr.isdecimal.             (* \d *)
Definition s : regex := Chr PyStr.isspace.               (* \s *)
Definition ch (c : ascii) : regex := Chr (Ascii.eqb c).
(** One character, ignoring case: for an ASCII letter [c] the characters
    that [re.I] lets it match in U+0000..U+00FF are its two cases. *)
Definition ch_i (c : ascii) : regex :=
  Chr (fun x => Ascii.eqb (PyStr.lower_char x) (PyStr.lower_char c)).
Definition upper : regex := Chr PyStr.isupper_ascii.     (* [A-Z] *)
Definition lowerc : regex := Chr PyStr.islower_ascii.    (* [a-z] *)
Definition alpha : regex := Chr PyStr.isalpha_ascii.     (* [A-Za-z], [a-z] under re.I *)
Definition sep : regex :=                                (* [/-] *)
  Chr (fun x => Ascii.eqb x "/" || Ascii.eqb x "-").

Fixpoint lit (w : string) : regex :=
  match w with
  | EmptyString => Eps
  | String c EmptyString => ch c
  | String c w' => Seq (ch c) (lit w')
  end.

Fixpoint lit_i (w : string) : regex :=
  match w with
  | EmptyString => Eps
  | String c EmptyString => ch_i c
  | String c w' => Seq (ch_i c) (lit_i w')
  end.

End Re.

(** ** Exceptions *)

(** A raised exception: the name of its class, the text of [str(e)], and
    whether the class derives from [Exception] (so that [except Exception]
    catches it) or only from [BaseException] ([KeyboardInterrupt],
    [SystemExit], [asyncio.CancelledError]). *)
Record exn := { exn_type : string; exn_message : string; is_Exception : bool }.

Definition ValueError (msg : string) : exn :=
  {| exn_type := "ValueError"; exn_message := msg; is_Exception := true |}.
Definition OverflowError (msg : string) : exn :=
  {| exn_type := "OverflowError"; exn_message := msg; is_Exception := true |}.
Definition KeyboardInterrupt : exn :=
  {| exn_type := "KeyboardInterrupt"; exn_message := ""; is_Exception := false |}.

Inductive result (A : Type) : Type :=
| Ok (a : A)
| Raise (e : exn).
Arguments Ok {A} a.
Arguments Raise {A} e.

(** Sequencing: [x ← c; k] runs [c] and, unless it raised, continues with [k]. *)
#[global] Instance result_ret : MRet result := @Ok.
#[global] Instance result_bind : MBind result := fun A B f x =>
  match x with
  | Ok a => f a
  | Raise e => Raise e
  end.

(** [try: body except ValueError: handler] *)
Definition except_ValueError {A} (body : result A) (handler : result A) : result A :=
  match body with
  | Raise e => if String.eqb (exn_type e) "ValueError" then handler else Raise e
  | ok => ok
  end.

(** [int(s)] on a run of decimal digits.  The interpreter refuses a text of
    more than [sys.get_int_max_str_digits()] digits, 4300 unless changed. *)
Definition MAX_STR_DIGITS : nat := 4300.

Definition int (s : string) : result Z :=
  if (MAX_STR_DIGITS <? String.length s)%nat
  then Raise (ValueError
                ("Exceeds the limit (4300 digits) for integer string conversion: "
                 +:+ "value has " +:+ PyStr.str_of_nonneg (Z.of_nat (String.length s))
                 +:+ " digits; use sys.set_int_max_str_digits() to increase the limit"))
  else Ok (PyStr.decimal s).

(** ** [datetime] and [timedelta] *)

Module Datetime.

Record datetime := mk {
  year : Z; month : Z; day : Z;
  hour : Z; minute : Z; second : Z; microsecond : Z }.

Definition MINYEAR : Z := 1.
Definition MAXYEAR : Z := 9999.
Definition MAXORDINAL : Z := 3652059.

Definition is_leap (y : Z) : bool :=
  (y mod 4 =? 0) && (negb (y mod 100 =? 0) || (y mod 400 =? 0)).

Definition days_in_month (y m : Z) : Z :=
  if m =? 2 then (if is_leap y then 29 else 28)
  else if (m =? 4) || (m =? 6) || (m =? 9) || (m =? 11) then 30
  else 31.

(** Days in the year before the first day of month [m]. *)
Definition days_before_month (y m : Z) : Z :=
  nth (Z.to_nat m) [0; 0; 31; 59; 90; 120; 151; 181; 212; 243; 273; 304; 334] 0
  + (if (2 <? m) && is_leap y then 1 else 0).

Definition days_before_year (y : Z) : Z :=
  let p := y - 1 in p * 365 + p / 4 - p / 100 + p / 400.

(** [date.toordinal]: 0001-01-01 is day 1. *)
Definition ymd2ord (y m d : Z) : Z :=
  days_before_year y + days_before_month y m + d.

(** The constructor [datetime(year, month, day)] with its range checks. *)
Definition datetime_new (y m d : Z) : result datetime :=
  if negb ((MINYEAR <=? y) && (y <=? MAXYEAR))
  then Raise (ValueError "year is out of range")
  else if negb ((1 <=? m) && (m <=? 12))
  then Raise (ValueError "month must be in 1..12")
  else if negb ((1 <=? d) && (d <=? days_in_month y m))
  then Raise (ValueError "day is out of range for month")
  else Ok (mk y m d 0 0 0 0).

(** The month of day-of-year [n] (0-based) and the day within it. *)
Fixpoint month_of (fuel : nat) (y m n : Z) : Z * Z :=
  match fuel with
  | O => (m, n + 1)
  | S f =>
      if n <? days_in_month y m then (m, n + 1)
      else month_of f y (m + 1) (n - days_in_month y m)
  end.

(** [date.fromordinal]: the 400-, 100-, 4- and 1-year cycles. *)
Definition ord2ymd (ordinal : Z) : Z * Z * Z :=
  let n := ordinal - 1 in
  let n400 := n / 146097 in
  let n := n mod 146097 in
  let n100 := n / 36524 in
  let n := n mod 36524 in
  let n4 := n / 1461 in
  let n := n mod 1461 in
  let n1 := n / 365 in
  let n := n mod 365 in
  let y := n400 * 400 + 1 + n100 * 100 + n4 * 4 + n1 in
  if (n1 =? 4) || (n100 =? 4) then (y - 1, 12, 31)
  else let '(m, d) := month_of 11 y 1 n in (y, m, d).

Definition US_PER_SECOND : Z := 1000000.
Definition US_PER_DAY : Z := 86400 * US_PER_SECOND.

(** A [timedelta] is its length in microseconds.  The constructor
    normalises to days, seconds and microseconds: the days must fit a C
    [int], and then be of magnitude 999999999 at most. *)
Definition timedelta_us (us : Z) : result Z :=
  let days := us / US_PER_DAY in
  if (days <? - 2147483648) || (2147483647 <? days)
  then Raise (OverflowError "Python int too large to convert to C int")
  else if 999999999 <? Z.abs days
  then Raise (OverflowError ("days=" +:+ PyStr.str_of_int days
                             +:+ "; must have magnitude <= 999999999"))
  else Ok us.

Definition timedelta_days (n : Z) : result Z := timedelta_us (n * US_PER_DAY).
Definition timedelta_hours (n : Z) : result Z := timedelta_us (n * 3600 * US_PER_SECOND).
Definition timedelta_weeks (n : Z) : result Z := timedelta_us (n * 7 * US_PER_DAY).

(** Microseconds since the start of day 0 of the proleptic calendar. *)
Definition to_us (t : datetime) : Z :=
  ((ymd2ord (year t) (month t) (day t) * 86400
    + hour t * 3600 + minute t * 60 + second t) * US_PER_SECOND)
  + microsecond t.

(** [t - delta] *)
Definition sub (t : datetime) (delta : Z) : result datetime :=
  let us := to_us t - delta in
  let days := us / US_PER_DAY in
  let rest := us mod US_PER_DAY in
  if (0 <? days) && (days <=? MAXORDINAL)
  then
    let '(y, m, d) := ord2ymd days in
    let secs := rest / US_PER_SECOND in
    Ok (mk y m d (secs / 3600) ((secs mod 3600) / 60) (secs mod 60)
           (rest mod US_PER_SECOND))
  else Raise (OverflowError "date value out of range").

(** [t.replace(hour=0, minute=0, second=0, microsecond=0)] *)
Definition midnight (t : datetime) : datetime :=
  mk (year t) (month t) (day t) 0 0 0 0.

Definition fields (t : datetime) : list Z :=
  [year t; month t; day t; hour t; minute t; second t; microsecond t].

(** Comparison of two sequences of integers, as of tuples. *)
Fixpoint cmp (a b : list Z) : comparison :=
  match a, b with
  | [], [] => Eq
  | [], _ :: _ => Lt
  | _ :: _, [] => Gt
  | x :: a', y :: b' =>
      match x ?= y with
      | Eq => cmp a' b'
      | c => c
      end
  end.

(** [a > b] and [a >= b] *)
Definition gt (a b : datetime) : bool :=
  match cmp (fields a) (fields b) with Gt => true | _ => false end.
Definition ge (a b : datetime) : bool :=
  match cmp (fields a) (fields b) with Lt => false | _ => true end.

(** [t.strftime('%Y-%m-%d')]; the C library's [%Y] does not pad the year. *)
Definition strftime_ymd (t : datetime) : string :=
  PyStr.str_of_nonneg (year t) +:+ "-" +:+ PyStr.zfill 2 (month t)
    +:+ "-" +:+ PyStr.zfill 2 (day t).

End Datetime.

Abbreviation datetime := Datetime.datetime.

(** ** Control flow of a function body

    A statement of a function body either returns a value or falls through
    to the next statement; either may raise. *)

Inductive flow (A : Type) : Type :=
| Return (a : A)
| Next.
Arguments Return {A} a.
Arguments Next {A}.

(** The statements in order, and the value returned when all fall through. *)
Fixpoint run_body {A} (stmts : list (result (flow A))) (final : A) : result A :=
  match stmts with
  | [] => Ok final
  | st :: rest =>
      match st with
      | Raise e => Raise e
      | Ok (Return a) => Ok a
      | Ok Next => run_body rest final
      end
  end.

(** [try: body except (T1, T2, ...): pass] *)
Definition try_pass {A} (types : list string) (body : result (flow A)) : result (flow A) :=
  match body with
  | Raise e => if str_in (exn_type e) types then Ok Next else Raise e
  | ok => ok
  end.

(** [a or b] on optional integers: [a] when it is truthy. *)
Definition py_or (a b : option Z) : option Z :=
  match a with
  | Some x => if x =? 0 then b else a
  | None => b
  end.

(** The month number when [month] is truthy. *)
Definition truthy_month (month : option Z) : option Z := py_or month None.

(** ** [parse_date] ([HIFI_search.py]) *)

Module ParseDate.
Import Re.

(** [igår], with U+00E5. *)
Definition igar : string := "ig" +:+ String (chr 229) "r".

(** [(\d+)\s+(day|days?)\s+ago] and its siblings, under [re.I]. *)
Definition ago_pattern (unit : string) : regex :=
  seq [Grp 1 (plus d); plus s;
       Grp 2 (Alt (lit_i unit) (Seq (lit_i unit) (opt (ch_i "s"))));
       plus s; lit_i "ago"].

(** [(\d{4})-(\d{2})-(\d{2})] *)
Definition iso_pattern : regex :=
  seq [Grp 1 (exactly 4 d); ch "-"; Grp 2 (exactly 2 d); ch "-"; Grp 3 (exactly 2 d)].

(** [([A-Z][a-z]{2})\s+(\d{1,2}),\s+(\d{4})] *)
Definition month_first_pattern : regex :=
  seq [Grp 1 (Seq upper (exactly 2 lowerc)); plus s; Grp 2 (rep 1 2 d);
       ch ","; plus s; Grp 3 (exactly 4 d)].

(** [(\d{1,2})\s+([a-z]{3})\.?\s*(?:,?\s*(\d{4}))?] under [re.I] *)
Definition date_pattern : regex :=
  seq [Grp 1 (rep 1 2 d); plus s; Grp 2 (exactly 3 alpha); opt (ch "."); star s;
       opt (seq [opt (ch ","); star s; Grp 3 (exactly 4 d)])].

(** [(\d{1,2})[/-](\d{1,2})[/-](\d{2,4})] *)
Definition slash_pattern : regex :=
  seq [Grp 1 (rep 1 2 d); sep; Grp 2 (rep 1 2 d); sep; Grp 3 (rep 2 4 d)].

Definition swedish_months : gmap string Z :=
  list_to_map
    [("jan", 1); ("feb", 2); ("mar", 3); ("apr", 4); ("maj", 5); ("jun", 6);
     ("jul", 7); ("aug", 8); ("sep", 9); ("okt", 10); ("nov", 11); ("dec", 12)].

Definition english_months : gmap string Z :=
  list_to_map
    [("jan", 1); ("feb", 2); ("mar", 3); ("apr", 4); ("may", 5); ("jun", 6);
     ("jul", 7); ("aug", 8); ("sep", 9); ("oct", 10); ("nov", 11); ("dec", 12)].

Definition relative (now : datetime) (delta : result Z) (truncate : bool)
  : result (flow (option datetime)) :=
  dl ← delta;
  t ← Datetime.sub now dl;
  Ok (Return (Some (if truncate then Datetime.midnight t else t))).

Definition parse_date (now : datetime) (date_str : option string)
  : result (option datetime) :=
  match date_str with
  | None => Ok None
  | Some raw =>
    if negb (PyStr.truthy raw) then Ok None else
    let date_str := PyStr.strip raw in
    let low := PyStr.lower date_str in
    run_body [
      (* Relative dates *)
      (if PyStr.contains "just now" low || PyStr.contains "nu" low
       then Ok (Return (Some now)) else Ok Next);
      (if PyStr.contains "idag" low || PyStr.contains "today" low
       then Ok (Return (Some (Datetime.midnight now))) else Ok Next);
      (if PyStr.contains igar low || PyStr.contains "yesterday" low
       then relative now (Datetime.timedelta_days 1) true else Ok Next);
      match search (ago_pattern "day") date_str with
      | Some m =>
          relative now (n ← int (group_str m 1); Datetime.timedelta_days n) true
      | None => Ok Next
      end;
      match search (ago_pattern "hour") date_str with
      | Some m =>
          relative now (n ← int (group_str m 1); Datetime.timedelta_hours n) false
      | None => Ok Next
      end;
      match search (ago_pattern "week") date_str with
      | Some m =>
          relative now (n ← int (group_str m 1); Datetime.timedelta_weeks n) true
      | None => Ok Next
      end;
      (* ISO format *)
      match search iso_pattern date_str with
      | Some m =>
          try_pass ["ValueError"]
            (year ← int (group_str m 1);
             month ← int (group_str m 2);
             day ← int (group_str m 3);
             t ← Datetime.datetime_new year month day;
             Ok (Return (Some t)))
      | None => Ok Next
      end;
      (* Month first *)
      match search month_first_pattern date_str with
      | Some m =>
          try_pass ["ValueError"; "AttributeError"]
            (let month_str := PyStr.lower (group_str m 1) in
             day ← int (group_str m 2);
             year ← int (group_str m 3);
             match truthy_month (py_or (english_months !! month_str)
                                       (swedish_months !! month_str)) with
             | Some month =>
                 t ← Datetime.datetime_new year month day; Ok (Return (Some t))
             | None => Ok Next
             end)
      | None => Ok Next
      end;
      (* Day first *)
      match search date_pattern date_str with
      | Some m =>
          try_pass ["ValueError"; "AttributeError"]
            (day ← int (group_str m 1);
             let month_str := PyStr.take 3 (PyStr.lower (group_str m 2)) in
             let year_str := group m 3 in
             match truthy_month (py_or (swedish_months !! month_str)
                                       (english_months !! month_str)) with
             | Some month =>
                 match year_str with
                 | Some ys =>
                     year ← int ys;
                     t ← Datetime.datetime_new year month day;
                     Ok (Return (Some t))
                 | None =>
                     let year := Datetime.year now in
                     t0 ← Datetime.datetime_new year month day;
                     let year := if Datetime.gt t0 now
                                 then Datetime.year now - 1 else year in
                     t ← Datetime.datetime_new year month day;
                     Ok (Return (Some t))
                 end
             | None => Ok Next
             end)
      | None => Ok Next
      end;
      (* DD/MM/YYYY or DD-MM-YYYY *)
      match search slash_pattern date_str with
      | Some m =>
          try_pass ["ValueError"]
            (day ← int (group_str m 1);
             month ← int (group_str m 2);
             year ← int (group_str m 3);
             let year := if year <? 100 then year + 2000 else year in
             t ← Datetime.datetime_new year month day;
             Ok (Return (Some t)))
      | None => Ok Next
      end
    ] None
  end.

End ParseDate.

Definition parse_date := ParseDate.parse_date.

(** ** [normalize_date] ([utils.py]) *)

Module Utils.
Import Re.

Definition RELATIVE_KEYWORDS : list (string * string) :=
  [("idag", "today"); (ParseDate.igar, "yesterday");
   ("just nu", "just now"); ("justnow", "just now")].

Definition SWEDISH_MONTHS : gmap string Z :=
  list_to_map
    [("jan", 1); ("januari", 1); ("feb", 2); ("februari", 2); ("mar", 3); ("mars", 3);
     ("apr", 4); ("april", 4); ("maj", 5); ("jun", 6); ("juni", 6);
     ("jul", 7); ("juli", 7); ("aug", 8); ("augusti", 8);
     ("sep", 9); ("sept", 9); ("september", 9); ("okt", 10); ("oktober", 10);
     ("nov", 11); ("november", 11); ("dec", 12); ("december", 12)].

Definition ENGLISH_MONTHS : gmap string Z :=
  list_to_map
    [("jan", 1); ("january", 1); ("feb", 2); ("february", 2); ("mar", 3); ("march", 3);
     ("apr", 4); ("april", 4); ("may", 5); ("jun", 6); ("june", 6);
     ("jul", 7); ("july", 7); ("aug", 8); ("august", 8);
     ("sep", 9); ("sept", 9); ("september", 9); ("oct", 10); ("october", 10);
     ("nov", 11); ("november", 11); ("dec", 12); ("december", 12)].

(** [{**SWEDISH_MONTHS, **ENGLISH_MONTHS}]: the later entries win. *)
Definition MONTH_MAP : gmap string Z := ENGLISH_MONTHS ∪ SWEDISH_MONTHS.

(** [(\d+)\s+(day|days)\s+ago] and its siblings. *)
Definition ago_pattern (unit : string) : regex :=
  seq [Grp 1 (plus d); plus s; Grp 2 (Alt (lit unit) (lit (unit +:+ "s")));
       plus s; lit "ago"].

(** [^\d{1,2}:\d{2}$] *)
Definition time_pattern : regex := seq [Bos; rep 1 2 d; ch ":"; exactly 2 d; Eos].

(** [\b(\d{4})-(\d{2})-(\d{2})\b] *)
Definition ISO_PATTERN : regex :=
  seq [WordB; Grp 1 (exactly 4 d); ch "-"; Grp 2 (exactly 2 d); ch "-";
       Grp 3 (exactly 2 d); WordB].

(** [\b(\d{1,2})[/-](\d{1,2})[/-](\d{2,4})\b] *)
Definition SLASH_PATTERN : regex :=
  seq [WordB; Grp 1 (rep 1 2 d); sep; Grp 2 (rep 1 2 d); sep; Grp 3 (rep 2 4 d); WordB].

(** [\b([A-Za-z]{3,9})\s+(\d{1,2}),?\s*(\d{2,4})?\b] *)
Definition MONTH_FIRST_PATTERN : regex :=
  seq [WordB; Grp 1 (rep 3 9 alpha); plus s; Grp 2 (rep 1 2 d); opt (ch ",");
       star s; opt (Grp 3 (rep 2 4 d)); WordB].

(** [\b(\d{1,2})\s+([A-Za-z]{3,9})\s*(\d{2,4})?\b] *)
Definition DAY_FIRST_PATTERN : regex :=
  seq [WordB; Grp 1 (rep 1 2 d); plus s; Grp 2 (rep 3 9 alpha); star s;
       opt (Grp 3 (rep 2 4 d)); WordB].

(** [f"{y:04d}-{m:02d}-{d:02d}"] *)
Definition fmt_ymd (y m d : Z) : string :=
  PyStr.zfill 4 y +:+ "-" +:+ PyStr.zfill 2 m +:+ "-" +:+ PyStr.zfill 2 d.

Definition relative (now : datetime) (delta : result Z) : result (flow (option string)) :=
  dl ← delta;
  t ← Datetime.sub now dl;
  Ok (Return (Some (Datetime.strftime_ymd t))).

(** The shared body of the month-first and day-first branches. *)
Definition textual (now : datetime) (month_str : string) (day : Z) (year : option string)
  : result (flow (option string)) :=
  match truthy_month (MONTH_MAP !! PyStr.take 3 month_str) with
  | Some month =>
      match year with
      | Some ys =>
          year_val ← int ys;
          Ok (Return (Some (fmt_ymd year_val month day)))
      | None =>
          let year_val := Datetime.year now in
          t0 ← Datetime.datetime_new year_val month day;
          let year_val := if Datetime.gt t0 now then year_val - 1 else year_val in
          Ok (Return (Some (fmt_ymd year_val month day)))
      end
  | None => Ok Next
  end.

Definition normalize_date (now : datetime) (date_str : option string)
  : result (option string) :=
  match date_str with
  | None => Ok None
  | Some raw =>
    if negb (PyStr.truthy raw) then Ok None else
    let text := PyStr.lower (PyStr.strip raw) in
    if negb (PyStr.truthy text) then Ok None else
    let text :=
      fold_left (fun text kr => PyStr.replace (fst kr) (snd kr) text)
                RELATIVE_KEYWORDS text in
    let today := Ok (Return (Some (Datetime.strftime_ymd now))) in
    run_body [
      (if PyStr.contains "just now" text || PyStr.contains "just nu" text
       then today else Ok Next);
      (if PyStr.contains "today" text then today else Ok Next);
      (if PyStr.contains "yesterday" text
       then relative now (Datetime.timedelta_days 1) else Ok Next);
      match search (ago_pattern "day") text with
      | Some m => relative now (n ← int (group_str m 1); Datetime.timedelta_days n)
      | None => Ok Next
      end;
      match search (ago_pattern "hour") text with
      | Some m => relative now (n ← int (group_str m 1); Datetime.timedelta_hours n)
      | None => Ok Next
      end;
      match search (ago_pattern "week") text with
      | Some m => relative now (n ← int (group_str m 1); Datetime.timedelta_weeks n)
      | None => Ok Next
      end;
      (* Time of day only *)
      match rmatch time_pattern text with
      | Some _ => today
      | None => Ok Next
      end;
      (* ISO format *)
      match search ISO_PATTERN text with
      | Some m =>
          Ok (Return (Some (group_str m 1 +:+ "-" +:+ group_str m 2
                              +:+ "-" +:+ group_str m 3)))
      | None => Ok Next
      end;
      (* Slash or dash format *)
      match search SLASH_PATTERN text with
      | Some m =>
          day ← int (group_str m 1);
          month ← int (group_str m 2);
          year ← int (group_str m 3);
          let year := if year <? 100 then year + 2000 else year in
          Ok (Return (Some (fmt_ymd year month day)))
      | None => Ok Next
      end;
      (* Month first *)
      match search MONTH_FIRST_PATTERN text with
      | Some m =>
          day ← int (group_str m 2);
          textual now (PyStr.lower (group_str m 1)) day (group m 3)
      | None => Ok Next
      end;
      (* Day first *)
      match search DAY_FIRST_PATTERN text with
      | Some m =>
          day ← int (group_str m 1);
          textual now (PyStr.lower (group_str m 2)) day (group m 3)
      | None => Ok Next
      end
    ] None
  end.

End Utils.

Definition normalize_date := Utils.normalize_date.

(** ** Listings ([base.py]) *)

(** A value stored in [raw_data]. *)
Inductive pyvalue : Type :=
| PyNone
| PyStr (s : string)
| PyInt (n : Z).

(** A [float]: the number it denotes and the text [str] gives for it. *)
Record pyfloat := { float_value : Q; float_str : string }.

Record ListingResult := {
  title : string;
  description : option string;
  price : option pyfloat;
  url : string;
  image_url : option string;
  posted_date : option string;
  location : option string;
  raw_data : gmap string pyvalue }.

(** Truthiness of an optional string: neither [None] nor empty. *)
Definition truthy_opt (s : option string) : bool :=
  match s with Some x => PyStr.truthy x | None => false end.

(** ** Ordered dictionaries

    [dict] keeps insertion order; assigning to a key that is present keeps
    its place. *)

Definition dict (V : Type) : Type := list (string * V).

Fixpoint dict_get {V} (k : string) (d : dict V) : option V :=
  match d with
  | [] => None
  | (k', v) :: d' => if String.eqb k k' then Some v else dict_get k d'
  end.

(** [d[k] = v] *)
Fixpoint dict_set {V} (k : string) (v : V) (d : dict V) : dict V :=
  match d with
  | [] => [(k, v)]
  | (k', v') :: d' =>
      if String.eqb k k' then (k', v) :: d' else (k', v') :: dict_set k v d'
  end.

Definition keys {V} (d : dict V) : list string := map fst d.

(** ** The orchestrator ([AudioSearch]) *)

(** What awaiting [scraper.search(query)] comes to: a list of listings, an
    exception, or no completion before the waiter's deadline. *)
Inductive outcome : Type :=
| Returns (listings : list ListingResult)
| Raises (e : exn)
| Hangs.

Record Scraper := { name : string; search : string -> outcome }.

(** The state of a task when [asyncio.wait_for(task, timeout=60.0)] ends. *)
Inductive awaited : Type :=
| Done (listings : list ListingResult)
| Failed (e : exn)
| Pending.

Inductive debug_line : Type :=
| DStarting (query : string)          (* Starting search for query: '{query}' *)
| DEnabled (names : list string)      (* Enabled scrapers: [...] *)
| DCreating (name : string)           (* Creating search task for {name} *)
| DWaiting (name : string)            (* Waiting for {name} results... *)
| DReturned (name : string) (n : nat) (* {name} returned {n} results *)
| DExpanding (term : string) (variants : list string).

(** A line on [sys.stderr]. *)
Inductive event : Type :=
| EmptyQueryWarning
    (* Warning: Empty search query provided *)
| TimeoutWarning (provider : string)
    (* Timeout: {name} search timed out after 60 seconds *)
| SearchError (provider kind message : string)
    (* Error searching {scraper.name}: {error_type}: {e} *)
| TaskError (provider kind message : string)
    (* Error in {name}: {error_type}: {e} *)
| Traceback (e : exn)
| Debug (line : debug_line).

(** [debug_print]: silent unless debugging is enabled. *)
Definition log_debug (debug : bool) (line : debug_line) : list event :=
  if debug then [Debug line] else [].

(** [_search_scraper]: one provider behind its own exception boundary. *)
Definition _search_scraper (scraper : Scraper) (query : string) : list event * awaited :=
  if negb (PyStr.truthy query) || negb (PyStr.truthy (PyStr.strip query))
  then ([], Done [])
  else
    match search scraper query with
    | Returns l => ([], Done l)
    | Hangs => ([], Pending)
    | Raises e =>
        if String.eqb (exn_type e) "KeyboardInterrupt" then ([], Failed e)
        else if is_Exception e
        then ([SearchError (name scraper) (exn_type e) (exn_message e)], Done [])
        else ([], Failed e)
    end.

Definition results_t : Type := dict (list ListingResult).

(** The loop [for name, task in tasks] of [search_all]; a task's own lines
    are taken at the point where it is awaited. *)
Fixpoint await_all (debug : bool) (tasks : list (string * (list event * awaited)))
         (results : results_t) : list event * result results_t :=
  match tasks with
  | [] => ([], Ok results)
  | (name, (task_events, state)) :: rest =>
      let waiting := log_debug debug (DWaiting name) ++ task_events in
      let continue (evs : list event) (results : results_t) :=
        let '(evs', r) := await_all debug rest results in
        (waiting ++ evs ++ evs', r) in
      match state with
      | Done scraper_results =>
          continue (log_debug debug (DReturned name (length scraper_results)))
                   (dict_set name scraper_results results)
      | Pending =>
          continue [TimeoutWarning name] (dict_set name [] results)
      | Failed e =>
          if String.eqb (exn_type e) "TimeoutError"
          then continue [TimeoutWarning name] (dict_set name [] results)
          else if is_Exception e
          then continue [TaskError name (exn_type e) (exn_message e); Traceback e]
                        (dict_set name [] results)
          else (waiting, Raise e)
      end
  end.

Definition search_all (debug : bool) (scrapers : list Scraper) (query : string)
  : list event * result results_t :=
  let results : results_t := [] in
  if negb (PyStr.truthy query) || negb (PyStr.truthy (PyStr.strip query))
  then ([EmptyQueryWarning], Ok results)
  else
    let start :=
      log_debug debug (DStarting query)
      ++ log_debug debug (DEnabled (map name scrapers)) in
    let tasks :=
      map (fun scraper => (name scraper, _search_scraper scraper (PyStr.strip query)))
          scrapers in
    let creating := flat_map (fun scraper => log_debug debug (DCreating (name scraper)))
                             scrapers in
    let '(evs, r) := await_all debug tasks results in
    (start ++ creating ++ evs, r).

(** ** The aggregation loop ([main]) *)

(** [str(x)] for an optional value. *)
Definition str_opt {A} (show : A -> string) (x : option A) : string :=
  match x with Some a => show a | None => "None" end.

(** [listing.url or f"{listing.title}|{listing.price}|{listing.location}"] *)
Definition signature (listing : ListingResult) : string :=
  if PyStr.truthy (url listing) then url listing
  else title listing +:+ "|" +:+ str_opt float_str (price listing)
       +:+ "|" +:+ str_opt id (location listing).

(** The state of one aggregation session. *)
Record session := {
  aggregated_results : results_t;
  seen_signatures : gset string }.

Definition new_session : session :=
  {| aggregated_results := []; seen_signatures := ∅ |}.

(** [aggregated_results.setdefault(site, [])]: the dictionary afterwards. *)
Definition setdefault_bucket (site : string) (agg : results_t) : results_t :=
  match dict_get site agg with
  | Some _ => agg
  | None => dict_set site [] agg
  end.

(** [bucket.append(listing)] on the bucket of [site], which is the list
    held by the dictionary. *)
Definition bucket_append (site : string) (listing : ListingResult) (agg : results_t)
  : results_t :=
  dict_set site (default [] (dict_get site agg) ++ [listing]) agg.

(** The body of [for listing in listings]. *)
Definition add_listing (site : string) (st : session) (listing : ListingResult) : session :=
  let sig := signature listing in
  if decide (sig ∈ seen_signatures st) then st
  else {| aggregated_results := bucket_append site listing (aggregated_results st);
          seen_signatures := {[sig]} ∪ seen_signatures st |}.

(** The body of [for site, listings in results.items()]. *)
Definition add_site (st : session) (entry : string * list ListingResult) : session :=
  let '(site, listings) := entry in
  let st := {| aggregated_results := setdefault_bucket site (aggregated_results st);
               seen_signatures := seen_signatures st |} in
  fold_left (add_listing site) listings st.

(** The body of [for variant in variants], given what [search_all] returned. *)
Definition add_results (st : session) (results : results_t) : session :=
  fold_left add_site results st.

(** A session fed the results of its variants in turn. *)
Definition aggregate_from (st : session) (per_variant : list results_t) : session :=
  fold_left add_results per_variant st.

Definition aggregate (per_variant : list results_t) : session :=
  aggregate_from new_session per_variant.

(** The loop over the variants with the orchestrator in it. *)
Fixpoint aggregate_variants (debug : bool) (scrapers : list Scraper)
         (variants : list string) (st : session) : list event * result session :=
  match variants with
  | [] => ([], Ok st)
  | variant :: rest =>
      match search_all debug scrapers variant with
      | (evs, Raise e) => (evs, Raise e)
      | (evs, Ok results) =>
          let '(evs', r) := aggregate_variants debug scrapers rest (add_results st results) in
          (evs ++ evs', r)
      end
  end.

Definition aggregate_term (debug : bool) (scrapers : list Scraper) (search_term : string)
  : list event * result results_t :=
  let variants := expand_search_term search_term in
  let expanding :=
    if (1 <? length variants)%nat
    then log_debug debug (DExpanding search_term variants) else [] in
  let '(evs, r) := aggregate_variants debug scrapers variants new_session in
  (expanding ++ evs, st ← r; Ok (aggregated_results st)).

(** Every retained listing with the provider it is filed under. *)
Definition all_listings (results : results_t) : list (string * ListingResult) :=
  flat_map (fun entry => map (pair (fst entry)) (snd entry)) results.

(** [sum(len(r) for r in results.values())] *)
Definition total_results (results : results_t) : nat :=
  list_sum (map (fun entry => length (snd entry)) results).

(** ** The recency filter ([filter_by_days]) *)

(** The body of [for listing in listings]: is the listing appended? *)
Definition keep_listing (now cutoff_date : datetime) (listing : ListingResult)
  : result bool :=
  if negb (truthy_opt (posted_date listing)) then Ok true
  else
    listing_date ← parse_date now (posted_date listing);
    match listing_date with
    | None => Ok true
    | Some listing_date => Ok (Datetime.ge listing_date cutoff_date)
    end.

Fixpoint filter_listings (now cutoff_date : datetime) (listings : list ListingResult)
  : result (list ListingResult) :=
  match listings with
  | [] => Ok []
  | listing :: rest =>
      keep ← keep_listing now cutoff_date listing;
      filtered ← filter_listings now cutoff_date rest;
      Ok (if keep : bool then listing :: filtered else filtered)
  end.

Fixpoint filter_entries (now cutoff_date : datetime) (entries : results_t)
         (filtered_results : results_t) : result results_t :=
  match entries with
  | [] => Ok filtered_results
  | (scraper_name, listings) :: rest =>
      filtered_listings ← filter_listings now cutoff_date listings;
      filter_entries now cutoff_date rest
                     (dict_set scraper_name filtered_listings filtered_results)
  end.

Definition filter_by_days (now : datetime) (results : results_t) (days_back : Z)
  : result results_t :=
  if days_back <=? 0 then Ok results
  else
    delta ← Datetime.timedelta_days days_back;
    cutoff_date ← Datetime.sub now delta;
    filter_entries now cutoff_date results [].

(** ** Sorting ([format_results]) *)

(** A float that may be infinite. *)
Inductive xfloat : Type :=
| NegInf
| Fin (q : Q)
| PosInf.

(** The tuples [get_sort_key] returns. *)
Inductive sort_key : Type :=
| KeyDate (date_key : xfloat) (source_name : string)   (* (0, date_key, name) *)
| KeySite (scraper_name : string)                      (* (1, name) *)
| KeyPrice (price : xfloat).                           (* (2, price) *)

(** The choices of [--sort]. *)
Inductive sort_field : Type := ByDate | BySite | ByPrice.

Definition AttributeError (msg : string) : exn :=
  {| exn_type := "AttributeError"; exn_message := msg; is_Exception := true |}.

(** The name a listing is filed by when sorting by date: for HiFiShark the
    [source_site] of its [raw_data] when that is truthy.  A source site that
    is not a string has no [lower]. *)
Definition source_name_lower (scraper_name : string) (listing : ListingResult)
  : result string :=
  if String.eqb scraper_name "HiFiShark" && bool_decide (raw_data listing ≠ ∅)
  then
    match raw_data listing !! "source_site" with
    | Some (PyStr source_site) =>
        if PyStr.truthy source_site then Ok (PyStr.lower source_site)
        else Ok (PyStr.lower scraper_name)
    | Some (PyInt n) =>
        if n =? 0 then Ok (PyStr.lower scraper_name)
        else Raise (AttributeError "'int' object has no attribute 'lower'")
    | Some PyNone | None => Ok (PyStr.lower scraper_name)
    end
  else Ok (PyStr.lower scraper_name).

(** [timestamp] stands for [datetime.timestamp], which reads the local time
    zone: the float it returns, or [None] when it raises [OSError]. *)
Definition get_sort_key (timestamp : datetime -> option Q) (now : datetime)
           (sort_by : sort_field) (item : string * ListingResult) : result sort_key :=
  let '(scraper_name, listing) := item in
  match sort_by with
  | ByDate =>
      parsed_date ← (if truthy_opt (posted_date listing)
                     then parse_date now (posted_date listing) else Ok None);
      let date_key :=
        match parsed_date with
        | Some parsed_date =>
            match timestamp parsed_date with
            | Some t => Fin (- t)%Q
            | None => NegInf
            end
        | None => PosInf
        end in
      source ← source_name_lower scraper_name listing;
      Ok (KeyDate date_key source)
  | BySite => Ok (KeySite (PyStr.lower scraper_name))
  | ByPrice =>
      match price listing with
      | None => Ok (KeyPrice PosInf)
      | Some p => Ok (KeyPrice (Fin (float_value p)))
      end
  end.

Definition xfloat_compare (a b : xfloat) : comparison :=
  match a, b with
  | NegInf, NegInf => Eq
  | NegInf, _ => Lt
  | Fin _, NegInf => Gt
  | Fin p, Fin q => (p ?= q)%Q
  | Fin _, PosInf => Lt
  | PosInf, PosInf => Eq
  | PosInf, _ => Gt
  end.

(** [a < b], [a == b] on strings: by code points, the first difference
    deciding. *)
Definition str_compare (a b : string) : comparison := String_as_OT.compare a b.

Definition tag (k : sort_key) : Z :=
  match k with KeyDate _ _ => 0 | KeySite _ => 1 | KeyPrice _ => 2 end.

(** Comparison of two key tuples: the first component that differs decides. *)
Definition key_compare (a b : sort_key) : comparison :=
  match a, b with
  | KeyDate d1 s1, KeyDate d2 s2 =>
      match xfloat_compare d1 d2 with
      | Eq => str_compare s1 s2
      | c => c
      end
  | KeySite s1, KeySite s2 => str_compare s1 s2
  | KeyPrice p1, KeyPrice p2 => xfloat_compare p1 p2
  | _, _ => tag a ?= tag b
  end.

(** [a < b] on keys. *)
Definition key_lt (a b : sort_key) : bool :=
  match key_compare a b with Lt => true | _ => false end.

(** One step of a stable sort: [x], which stood before all of [l], goes
    before the first element whose key is not smaller than its own. *)
Fixpoint insert_keyed {A} (x : sort_key * A) (l : list (sort_key * A))
  : list (sort_key * A) :=
  match l with
  | [] => [x]
  | y :: l' => if key_lt (fst y) (fst x) then y :: insert_keyed x l' else x :: l
  end.

Definition sort_keyed {A} (l : list (sort_key * A)) : list (sort_key * A) :=
  fold_right insert_keyed [] l.

(** The key of every item, in order; the first exception ends it. *)
Fixpoint keys_of {A} (key : A -> result sort_key) (l : list A)
  : result (list (sort_key * A)) :=
  match l with
  | [] => Ok []
  | x :: l' =>
      k ← key x;
      ks ← keys_of key l';
      Ok ((k, x) :: ks)
  end.

(** [all_listings.sort(key=get_sort_key)] *)
Definition sort_listings (timestamp : datetime -> option Q) (now : datetime)
           (sort_by : sort_field) (items : list (string * ListingResult))
  : result (list (string * ListingResult)) :=
  keyed ← keys_of (get_sort_key timestamp now sort_by) items;
  Ok (map snd (sort_keyed keyed)).

(** ** Notions used by the statements below *)

(** [s.isspace()] or [s == ""]: every character is white space. *)
Fixpoint all_space (s : string) : bool :=
  match s with
  | EmptyString => true
  | String c r => PyStr.isspace c && all_space r
  end.

(** What a provider's outcome leaves in the returned mapping. *)
Definition entry_of (o : outcome) : list ListingResult :=
  match o with Returns l => l | Raises _ | Hangs => [] end.

(** The diagnostics a provider's outcome gives rise to. *)
Definition fault_events (provider : string) (o : outcome) : list event :=
  match o with
  | Returns _ => []
  | Raises e => [SearchError provider (exn_type e) (exn_message e)]
  | Hangs => [TimeoutWarning provider]
  end.


(** An outcome other than an exception outside [Exception]. *)
Definition ordinary (o : outcome) : Prop :=
  match o with
  | Raises e => is_Exception e = true /\ exn_type e <> "KeyboardInterrupt"
  | Returns _ | Hangs => True
  end.

(** The lines awaiting one provider adds to the output. *)
Definition trace (debug : bool) (query : string) (scraper : Scraper) : list event :=
  log_debug debug (DWaiting (name scraper))
  ++ fault_events (name scraper) (search scraper query)
  ++ match search scraper query with
     | Returns l => log_debug debug (DReturned (name scraper) (length l))
     | Raises _ => log_debug debug (DReturned (name scraper) 0)
     | Hangs => []
     end.

(** The signatures of the retained listings, all buckets together. *)
Definition retained_signatures (st : session) : list string :=
  map (fun item => signature (snd item)) (all_listings (aggregated_results st)).

(** The invariant of a session: no signature is retained twice, and every
    retained signature has been marked as seen. *)
Definition session_ok (st : session) : Prop :=
  NoDup (retained_signatures st)
  /\ forall sig, In sig (retained_signatures st) -> sig ∈ seen_signatures st.


(** A session has absorbed [results] when every provider of [results] has
    its bucket and every listing of [results] has its signature seen. *)
Definition absorbed (st : session) (results : results_t) : Prop :=
  forall site listings, In (site, listings) results ->
    In site (keys (aggregated_results st))
    /\ forall x, In x listings -> signature x ∈ seen_signatures st.

(** A later state of a session: nothing seen is forgotten, no bucket lost. *)
Definition grows (st st' : session) : Prop :=
  seen_signatures st ⊆ seen_signatures st'
  /\ forall site, In site (keys (aggregated_results st)) ->
                  In site (keys (aggregated_results st')).

(** How two comparisons in a row combine, neither being [Gt]. *)
Definition then_cmp (x y : comparison) : comparison :=
  match x, y with
  | Eq, Eq => Eq
  | Gt, _ | _, Gt => Gt
  | _, _ => Lt
  end.

(** [a <= b] on keys. *)
Definition key_le (a b : sort_key) : Prop := key_compare a b <> Gt.

(** In a sorted list no element has a smaller key than one before it. *)
Definition keys_sorted {A} (l : list (sort_key * A)) : Prop :=
  StronglySorted (fun a b => key_le (fst a) (fst b)) l.



(** The cutoff of the recency filter: [datetime.now() - timedelta(days=N)]. *)
Definition cutoff_of (now : datetime) (days_back : Z) : result datetime :=
  delta ← Datetime.timedelta_days days_back;
  Datetime.sub now delta.

(** The retention rule in the words of the specification: no posted date,
    or a posted date that does not parse, or a parsed date on or after the
    cutoff. *)
Definition retained (now cutoff : datetime) (listing : ListingResult) : Prop :=
  truthy_opt (posted_date listing) = false
  \/ parse_date now (posted_date listing) = Ok None
  \/ exists d, parse_date now (posted_date listing) = Ok (Some d)
               /\ Datetime.ge d cutoff = true.

Definition retained_b (now cutoff : datetime) (listing : ListingResult) : bool :=
  negb (truthy_opt (posted_date listing))
  || match parse_date now (posted_date listing) with
     | Ok None => true
     | Ok (Some d) => Datetime.ge d cutoff
     | Raise _ => false
     end.

(** The parser does not raise on the listing's posted date. *)
Definition parses (now : datetime) (listing : ListingResult) : Prop :=
  truthy_opt (posted_date listing) = true ->
  exists r, parse_date now (posted_date listing) = Ok r.

(** ** Sample data *)

Definition now0 : datetime := Datetime.mk 2025 11 3 14 30 5 123.

(** A clock before 29 February of a leap year. *)
Definition now_leap : datetime := Datetime.mk 2024 2 1 9 0 0 0.

(** Clocks on the first of March of a leap year and of a common year, and
    half an hour into a new year. *)
Definition now_march_leap : datetime := Datetime.mk 2024 3 1 23 59 59 999999.
Definition now_march : datetime := Datetime.mk 2025 3 1 8 15 0 0.
Definition now_new_year : datetime := Datetime.mk 2025 1 1 0 30 0 0.

(** [datetime.timestamp] when the local time zone is UTC. *)
Definition utc_timestamp (t : datetime) : option Q :=
  Some (Qmake (Datetime.to_us t - Datetime.to_us (Datetime.mk 1970 1 1 0 0 0 0)) 1000000).

Definition listing (title url : string) (posted : option string) (raw : gmap string pyvalue)
  : ListingResult :=
  {| title := title; description := None;
     price := Some {| float_value := 1000; float_str := "1000.0" |};
     url := url; image_url := None; posted_date := posted; location := None;
     raw_data := raw |}.

Definition hegel_today : ListingResult :=
  listing "Hegel H90" "https://www.blocket.se/annons/1" (Some "Idag") ∅.
Definition hegel_copy : ListingResult :=
  listing "Hegel H90" "https://www.blocket.se/annons/1" (Some ParseDate.igar)
          {[ "source_site" := PyStr "Blocket.se" ]}.
Definition nad_old : ListingResult :=
  listing "NAD 3020" "https://www.tradera.com/item/2" (Some "2024-10-15") ∅.
Definition rega_undated : ListingResult :=
  listing "Rega Planar 3" "https://www.hifishark.com/3" None ∅.
Definition quad_ancient : ListingResult :=
  listing "Quad 303" "" (Some "800000 days ago") ∅.

Definition blocket : Scraper :=
  {| name := "Blocket"; search := fun _ => Returns [hegel_today; rega_undated] |}.
Definition tradera : Scraper :=
  {| name := "Tradera";
     search := fun _ => Raises {| exn_type := "ConnectionError";
                                  exn_message := "connection refused";
                                  is_Exception := true |} |}.
Definition hifishark : Scraper := {| name := "HiFiShark"; search := fun _ => Hangs |}.

Definition sample_scrapers : list Scraper := [blocket; tradera; hifishark].

Definition sample_results : results_t :=
  [("Blocket", [rega_undated; hegel_today; nad_old]); ("HiFiShark", [hegel_copy])].

Definition sample_cutoff : datetime := Datetime.mk 2025 10 27 14 30 5 123.

(** ** More of Python's strings *)

(** [s.split()] reading from the left: the word being read and the words
    after it. *)
Fixpoint split_from (s : string) : string * list string :=
  match s with
  | EmptyString => (EmptyString, [])
  | String c r =>
      let '(w, ws) := split_from r in
      if PyStr.isspace c
      then (EmptyString, if PyStr.truthy w then w :: ws else ws)
      else (String c w, ws)
  end.

(** [s.split()]: the maximal runs of characters that are not white space. *)
Definition str_split (s : string) : list string :=
  let '(w, ws) := split_from s in
  if PyStr.truthy w then w :: ws else ws.

(** [sep.join(words)] *)
Fixpoint str_join (sep : string) (words : list string) : string :=
  match words with
  | [] => EmptyString
  | [w] => w
  | w :: rest => w +:+ sep +:+ str_join sep rest
  end.

(** ** The choice of providers ([AudioSearch.__init__])

    A scraper object is identified by its key in [all_scrapers]: the
    dictionary holds one object per key, and [in] on a list or a set of
    scrapers compares objects. *)

Definition all_scrapers : list string :=
  ["Blocket"; "Tradera"; "Facebook Marketplace"; "HifiTorget"; "HiFiShark";
   "Reference Audio"; "Ljudmakarn"; "HiFi-Punkten"; "Rehifi"; "AudioPerformance";
   "HiFi Experience"; "AudioConcept"; "Lasses HiFi"; "Akkelis Audio"; "HiFi Puls"].

Definition match_site_name (user_input scraper_name : string) : bool :=
  let user_lower := PyStr.lower user_input in
  let scraper_lower := PyStr.lower scraper_name in
  String.eqb user_lower scraper_lower || str_in user_lower (str_split scraper_lower).

(** Warning: Unrecognized site '{site}' (available: ...) *)
Inductive init_warning : Type :=
| UnrecognizedSite (site : string).

(** The loop [for site in include_sites] over a roster of keys. *)
Fixpoint include_loop (roster : list string) (include_sites : list string)
         (scrapers : list string) : list string * list init_warning :=
  match include_sites with
  | [] => (scrapers, [])
  | site :: rest =>
      match find (fun name => match_site_name site name && negb (str_in name scrapers))
                 roster with
      | Some name => include_loop roster rest (scrapers ++ [name])
      | None =>
          let '(scrapers', warnings) := include_loop roster rest scrapers in
          (scrapers', UnrecognizedSite site :: warnings)
      end
  end.

(** The loop [for site in exclude_sites]: the excluded set and the warnings. *)
Fixpoint exclude_loop (roster : list string) (exclude_sites : list string)
         (excluded_scrapers : gset string) : gset string * list init_warning :=
  match exclude_sites with
  | [] => (excluded_scrapers, [])
  | site :: rest =>
      match find (match_site_name site) roster with
      | Some name => exclude_loop roster rest ({[name]} ∪ excluded_scrapers)
      | None =>
          let '(excluded, warnings) := exclude_loop roster rest excluded_scrapers in
          (excluded, UnrecognizedSite site :: warnings)
      end
  end.

(** Truthiness of an optional list: neither [None] nor empty. *)
Definition truthy_list {A} (l : option (list A)) : bool :=
  match l with Some (_ :: _) => true | _ => false end.

(** [self.scrapers] after [__init__], and the warnings printed. *)
Definition select_scrapers (roster : list string)
           (include_sites exclude_sites : option (list string))
  : list string * list init_warning :=
  if truthy_list include_sites
  then include_loop roster (default [] include_sites) []
  else if truthy_list exclude_sites
  then
    let '(excluded, warnings) := exclude_loop roster (default [] exclude_sites) ∅ in
    (List.filter (fun name => negb (bool_decide (name ∈ excluded))) roster, warnings)
  else (roster, []).

Definition AudioSearch_init (include_sites exclude_sites : option (list string))
  : list string * list init_warning :=
  select_scrapers all_scrapers include_sites exclude_sites.

(** The site names of the help text of [main], each with the key of the
    scraper it stands for. *)
Definition documented_sites : list (string * string) :=
  [("Blocket", "Blocket"); ("Tradera", "Tradera"); ("Facebook", "Facebook Marketplace");
   ("HifiTorget", "HifiTorget"); ("HiFiShark", "HiFiShark");
   ("Reference Audio", "Reference Audio"); ("Ljudmakarn", "Ljudmakarn");
   ("HiFi-Punkten", "HiFi-Punkten"); ("Rehifi", "Rehifi");
   ("AudioPerformance", "AudioPerformance"); ("HiFi Puls", "HiFi Puls");
   ("HiFi Experience", "HiFi Experience"); ("AudioConcept", "AudioConcept");
   ("Lasses HiFi", "Lasses HiFi"); ("Akkelis Audio", "Akkelis Audio")].

(** The sites of a list that match no key of the roster. *)
Definition unmatched (roster sites : list string) : list string :=
  List.filter (fun site => negb (existsb (match_site_name site) roster)) sites.

(** ** Notions for the sort *)

(** Has the keyed item a key equal to [k0]? *)
Definition same_key {A} (k0 : sort_key) (x : sort_key * A) : bool :=
  match key_compare (fst x) k0 with Eq => true | _ => false end.

(** Is the listing filed under [site], letter case apart? *)
Definition of_site (site : string) (item : string * ListingResult) : bool :=
  String.eqb (PyStr.lower (fst item)) (PyStr.lower site).

(** ** Notions for the aggregation *)

(** The bucket of a provider in a mapping, empty when it has none. *)
Definition bucket (site : string) (agg : results_t) : list ListingResult :=
  default [] (dict_get site agg).

(** Everything the providers returned in a session, in the order in which
    the loops of [main] visit it. *)
Definition returned (per_variant : list results_t) : list (string * ListingResult) :=
  flat_map all_listings per_variant.

(** The items that are the first with their signature, given the
    signatures seen before. *)
Fixpoint dedup_from (seen : gset string) (items : list (string * ListingResult))
  : list (string * ListingResult) :=
  match items with
  | [] => []
  | item :: rest =>
      if decide (signature (snd item) ∈ seen) then dedup_from seen rest
      else item :: dedup_from ({[signature (snd item)]} ∪ seen) rest
  end.

Definition first_seen (items : list (string * ListingResult))
  : list (string * ListingResult) :=
  dedup_from ∅ items.

(** The listings filed under [site] among [items], in order. *)
Definition listings_of (site : string) (items : list (string * ListingResult))
  : list ListingResult :=
  map snd (List.filter (fun item => String.eqb (fst item) site) items).

Definition signatures_of (items : list (string * ListingResult)) : gset string :=
  list_to_set (map (fun item => signature (snd item)) items).

(** A list of keys with one more, unless it is there already. *)
Definition add_key (ks : list string) (k : string) : list string :=
  if str_in k ks then ks else ks ++ [k].

(** The keys in the order of their first occurrence. *)
Definition first_keys (ks : list string) : list string := fold_left add_key ks [].

(** A session holds nothing but items of [items], and has seen no
    signature but those of the listings it holds. *)
Definition session_within (items : list (string * ListingResult)) (st : session) : Prop :=
  (forall item, In item (all_listings (aggregated_results st)) -> In item items)
  /\ (forall sig, sig ∈ seen_signatures st -> In sig (retained_signatures st)).

(** The mapping a dispatch of [query] returns when no provider's outcome
    aborts it: every provider with what its own outcome leaves. *)
Definition dispatched (scrapers : list Scraper) (query : string) : results_t :=
  map (fun s => (name s, entry_of (search s (PyStr.strip query)))) scrapers.

(** Is the line one of [debug_print]? *)
Definition is_debug (ev : event) : bool :=
  match ev with Debug _ => true | _ => false end.

(** ** The table of [format_results]

    The cells of the table are sequences of code points of any kind [A];
    the ellipsis U+2026 that [truncate] appends is the parameter [ellipsis]. *)

(** [value[:k]]: a negative [k] counts from the end. *)
Definition slice_to {A} (k : Z) (value : list A) : list A :=
  if 0 <=? k then take (Z.to_nat k) value
  else take (length value - Z.to_nat (- k)) value.

Definition len {A} (value : list A) : Z := Z.of_nat (length value).

Definition truncate {A} (ellipsis : A) (value : list A) (max_width : Z) : list A :=
  if len value <=? max_width then value
  else if max_width <=? 1 then slice_to max_width value
  else slice_to (max_width - 1) value ++ [ellipsis].

(** [max(len(value) for value in values)] over a list that is not empty. *)
Definition longest {A} (first : list A) (others : list (list A)) : Z :=
  fold_left (fun m value => Z.max m (len value)) others (len first).

(** [col_widths[key]] for a column with its label, its cap and the cells of
    its rows. *)
Definition column_width {A} (label : list A) (cap : Z) (cells : list (list A)) : Z :=
  let longest :=
    match cells with
    | [] => longest label []
    | first :: others => longest first others
    end in
  Z.max (len label) (Z.min longest cap).

(** [" ".join(value.split())] *)
Definition collapse (value : string) : string := str_join " " (str_split value).

(** The inner function [sanitize] of [format_results]. *)
Definition sanitize (now : datetime) (value : option string) : result string :=
  if negb (truthy_opt value) then Ok "-"
  else
    normalized ← normalize_date now value;
    if truthy_opt normalized then Ok (default "" normalized)
    else Ok (collapse (default "" value)).

(** No character of the string is white space. *)
Fixpoint no_space (s : string) : bool :=
  match s with
  | EmptyString => true
  | String c r => negb (PyStr.isspace c) && no_space r
  end.

(** A word: not empty, and without white space. *)
Definition is_word (w : string) : Prop := w <> "" /\ no_space w = true.

(** ** The scrapers' base class ([base.py]) *)

(** [BaseScraper._normalize_url] for a scraper with the given [base_url]. *)
Definition _normalize_url (base_url url : string) : string :=
  if PyStr.startswith "http" url then url
  else if PyStr.startswith "/" url then base_url +:+ url
  else base_url +:+ "/" +:+ url.

(** The characters of [s] that satisfy [keep], in order. *)
Fixpoint str_filter (keep : ascii -> bool) (s : string) : string :=
  match s with
  | EmptyString => EmptyString
  | String c r => if keep c then String c (str_filter keep r) else str_filter keep r
  end.

(** The class [[\d,.]]. *)
Definition price_char (c : ascii) : bool :=
  PyStr.isdecimal c || Ascii.eqb c "," || Ascii.eqb c ".".

(** [re.sub(r'[^\d,.]', '', s)] *)
Definition re_sub_not_price (s : string) : string := str_filter price_char s.

(** [s.rindex(c)] for a character [c]: the position of its last occurrence,
    [ValueError] if there is none. *)
Fixpoint rfind (c : ascii) (s : string) : option nat :=
  match s with
  | EmptyString => None
  | String a r =>
      match rfind c r with
      | Some i => Some (S i)
      | None => if Ascii.eqb a c then Some O else None
      end
  end.

Definition rindex (c : ascii) (s : string) : result nat :=
  match rfind c s with
  | Some i => Ok i
  | None => Raise (ValueError "substring not found")
  end.

(** [s.split(c)] for a character [c]: the pieces between its occurrences,
    empty ones included. *)
Fixpoint split_on (c : ascii) (s : string) : list string :=
  match s with
  | EmptyString => [EmptyString]
  | String a r =>
      if Ascii.eqb a c then EmptyString :: split_on c r
      else match split_on c r with
           | w :: ws => String a w :: ws
           | [] => [String a EmptyString]
           end
  end.

(** The text that [_extract_price] hands to [float]. *)
Definition price_literal (text : string) : result string :=
  let cleaned := re_sub_not_price (PyStr.replace " " "" text) in
  if PyStr.contains "," cleaned && PyStr.contains "." cleaned then
    last_comma ← rindex "," cleaned;
    last_dot ← rindex "." cleaned;
    if (last_dot <? last_comma)%nat
    then Ok (PyStr.replace "," "." (PyStr.replace "." "" cleaned))
    else Ok (PyStr.replace "," "" cleaned)
  else if PyStr.contains "," cleaned then
    let parts := split_on "," cleaned in
    if (length parts =? 2)%nat && (String.length (nth 1 parts "") =? 2)%nat
    then Ok (PyStr.replace "," "." cleaned)
    else Ok (PyStr.replace "," "" cleaned)
  else Ok cleaned.

(** [BaseScraper._extract_price]; [float] is Python's conversion of a text
    to a float, [None] standing for its [ValueError]. *)
Definition _extract_price {F} (float : string -> option F) (text : string)
  : result (option F) :=
  cleaned ← price_literal text;
  Ok (float cleaned).

(** The digits of a text. *)
Definition digits_of (s : string) : string := str_filter PyStr.isdecimal s.

(** Every character of the string satisfies [p]. *)
Fixpoint str_forall (p : ascii -> bool) (s : string) : bool :=
  match s with
  | EmptyString => true
  | String c r => p c && str_forall p r
  end.

(** *** [_fetch_page] *)

(** What one [session.get] does: it returns a response with a status code
    and a body, or raises [requests.exceptions.Timeout], another
    [requests.RequestException], or an exception of another kind. *)
Inductive attempt : Type :=
| Responded (status_code : Z) (content : string)
| TimedOut (message : string)
| RequestFailed (message : string)
| Crashed (e : exn).

(** [response.raise_for_status()] raises [HTTPError] for the client and
    server error codes. *)
Definition is_http_error (status_code : Z) : bool :=
  (400 <=? status_code) && (status_code <? 600).

Inductive fetch_debug : Type :=
| DAttempt (number : Z) (retries : Z) (url : string)
| DStatus (status_code : Z)
| DTimeoutRetry (number : Z)
| DHTTPError (status_code : Z)
| DRequestRetry (number : Z) (message : string).

Inductive fetch_error : Type :=
| ETimeout (message : string)
| EHTTP (status_code : Z)
| ERequest (message : string).

(** What [_fetch_page] does, in order. *)
Inductive fetch_event : Type :=
| RateLimit
| Get (url : string) (timeout : Z)
| Sleep (seconds : Z)
| FetchDebug (line : fetch_debug)
| FetchError (url : string) (retries : Z) (detail : fetch_error).

(** [debug_print] of [debug_utils.py]. *)
Definition debug_print (debug_enabled : bool) (line : fetch_debug) : list fetch_event :=
  if debug_enabled then [FetchDebug line] else [].

(** The parsed page: [BeautifulSoup(response.content, 'html.parser')]. *)
Inductive soup : Type :=
| BeautifulSoup (content : string).

(** The loop [for attempt in range(retries)], at [attempt] with [todo]
    rounds left; [session_get k] is what the [k]-th request of the call
    does. *)
Fixpoint fetch_loop (debug_enabled : bool) (session_get : nat -> attempt)
         (url : string) (retries : Z) (todo : nat) (attempt : nat)
  : list fetch_event * result (option soup) :=
  match todo with
  | O => ([], Ok None)
  | S todo' =>
      let request_timeout := 30 in
      let retry_delay := 1 in
      let number := Z.of_nat attempt + 1 in
      let last := Z.of_nat attempt =? retries - 1 in
      let started :=
        [RateLimit] ++ debug_print debug_enabled (DAttempt number retries url)
        ++ [Get url request_timeout] in
      let retry (evs : list fetch_event) :=
        let '(evs', r) :=
          fetch_loop debug_enabled session_get url retries todo' (S attempt) in
        (started ++ evs ++ [Sleep (retry_delay * number)] ++ evs', r) in
      match session_get attempt with
      | Responded status_code content =>
          let status := debug_print debug_enabled (DStatus status_code) in
          if is_http_error status_code then
            let warned := debug_print debug_enabled (DHTTPError status_code) in
            if last then
              if status_code =? 410
              then (started ++ status ++ warned, Ok None)
              else (started ++ status ++ warned
                    ++ [FetchError url retries (EHTTP status_code)], Ok None)
            else retry (status ++ warned)
          else (started ++ status, Ok (Some (BeautifulSoup content)))
      | TimedOut message =>
          if last
          then (started ++ [FetchError url retries (ETimeout message)], Ok None)
          else retry (debug_print debug_enabled (DTimeoutRetry number))
      | RequestFailed message =>
          if last
          then (started ++ [FetchError url retries (ERequest message)], Ok None)
          else retry (debug_print debug_enabled (DRequestRetry number message))
      | Crashed e => (started, Raise e)
      end
  end.

(** [BaseScraper._fetch_page] *)
Definition _fetch_page (debug_enabled : bool) (session_get : nat -> attempt)
           (url : string) (retries : option Z)
  : list fetch_event * result (option soup) :=
  let retries := match retries with None => 3 | Some n => n end in
  fetch_loop debug_enabled session_get url retries (Z.to_nat retries) O.

(** The request succeeds: a response outside the error codes. *)
Definition succeeds (a : attempt) : bool :=
  match a with
  | Responded status_code _ => negb (is_http_error status_code)
  | _ => false
  end.

Definition crashes (a : attempt) : bool :=
  match a with Crashed _ => true | _ => false end.

(** The requests sent, the pauses between them and the error lines. *)
Definition requests_of (evs : list fetch_event) : list string :=
  omap (fun ev => match ev with Get url _ => Some url | _ => None end) evs.

Definition sleeps_of (evs : list fetch_event) : list Z :=
  omap (fun ev => match ev with Sleep seconds => Some seconds | _ => None end) evs.

Definition errors_of (evs : list fetch_event) : list fetch_error :=
  omap (fun ev => match ev with FetchError _ _ detail => Some detail | _ => None end) evs.

(** The error line that a failed last attempt leaves, if any. *)
Definition last_error (a : attempt) : list fetch_error :=
  match a with
  | Responded status_code _ =>
      if status_code =? 410 then [] else [EHTTP status_code]
  | TimedOut message => [ETimeout message]
  | RequestFailed message => [ERequest message]
  | Crashed _ => []
  end.

(** The pauses after the first [k] failed attempts: 1, 2, ..., [k] seconds. *)
Definition backoff (k : nat) : list Z := map (fun i => Z.of_nat i + 1) (seq 0 k).

(** ** One search term ([main] and [format_results]) *)

Fixpoint spaces (k : nat) : string :=
  match k with O => EmptyString | S k' => String " " (spaces k') end.

(** The format spec [3d] on a non-negative integer. *)
Definition fmt_3d (n : Z) : string :=
  let d := PyStr.str_of_nonneg n in
  spaces (3 - String.length d) +:+ d.

(** [str(v)] and [bool(v)] for a value of [raw_data]. *)
Definition str_of_pyvalue (v : pyvalue) : string :=
  match v with
  | PyNone => "None"
  | PyStr s => s
  | PyInt n => PyStr.str_of_int n
  end.

Definition pyvalue_truthy (v : pyvalue) : bool :=
  match v with
  | PyNone => false
  | PyStr s => PyStr.truthy s
  | PyInt n => negb (n =? 0)
  end.

(** The [source] of a row, before [sanitize]. *)
Definition source_cell (scraper_name : string) (listing : ListingResult) : string :=
  if String.eqb scraper_name "HiFiShark" && bool_decide (raw_data listing ≠ ∅)
  then
    match raw_data listing !! "source_site" with
    | Some source_site =>
        if pyvalue_truthy source_site
        then scraper_name +:+ " (" +:+ str_of_pyvalue source_site +:+ ")"
        else scraper_name
    | None => scraper_name
    end
  else scraper_name.

(** A row of the table.  The price is kept as the listing has it: its text,
    the float under the format spec [,.0f], is not modelled. *)
Record row := {
  row_idx : Z;
  row_title : string;
  row_title_url : string;
  row_date : string;
  row_price : option pyfloat;
  row_location : string;
  row_source : string }.

(** The body of [for idx, (scraper_name, listing) in enumerate(all_listings, 1)]. *)
Definition build_row (now : datetime) (idx : Z) (item : string * ListingResult)
  : result row :=
  let '(scraper_name, listing) := item in
  let stripped := PyStr.strip (title listing) in
  let title_text := if PyStr.truthy stripped then stripped else "Untitled listing" in
  let source := source_cell scraper_name listing in
  let plain_title := fmt_3d idx +:+ ". " +:+ title_text in
  date ← sanitize now (posted_date listing);
  location ← sanitize now (location listing);
  source ← sanitize now (Some source);
  Ok {| row_idx := idx; row_title := plain_title; row_title_url := url listing;
        row_date := date; row_price := price listing; row_location := location;
        row_source := source |}.

Fixpoint build_rows (now : datetime) (idx : Z) (items : list (string * ListingResult))
  : result (list row) :=
  match items with
  | [] => Ok []
  | item :: rest =>
      r ← build_row now idx item;
      rs ← build_rows now (idx + 1) rest;
      Ok (r :: rs)
  end.

(** What [format_results] shows: the line "No results found", or the sorted
    listings with their rows and the total of the last line. *)
Inductive report : Type :=
| NoResults
| Table (listings : list (string * ListingResult)) (rows : list row) (total : nat).

Definition format_results (timestamp : datetime -> option Q) (now : datetime)
           (results : results_t) (sort_by : sort_field) : result report :=
  let total := total_results results in
  if (total =? 0)%nat then Ok NoResults
  else
    all ← sort_listings timestamp now sort_by (all_listings results);
    rows ← build_rows now 1 all;
    Ok (Table all rows total).

(** How the body of [for search_term in args.search_terms] ends: with a
    report, or with the line "Error processing search term" for an exception
    that the handler catches. *)
Inductive term_outcome : Type :=
| Reported (r : report)
| TermError (e : exn).

Definition process_term (timestamp : datetime -> option Q) (now : datetime)
           (debug : bool) (scrapers : list Scraper) (days_back : option Z)
           (sort_by : sort_field) (search_term : string)
  : list event * result term_outcome :=
  let '(evs, aggregated) := aggregate_term debug scrapers search_term in
  let body :=
    aggregated_results ← aggregated;
    aggregated_results ←
      match days_back with
      | Some n =>
          if negb (n =? 0) then filter_by_days now aggregated_results n
          else Ok aggregated_results
      | None => Ok aggregated_results
      end;
    format_results timestamp now aggregated_results sort_by in
  match body with
  | Ok r => (evs, Ok (Reported r))
  | Raise e =>
      if is_Exception e then (evs, Ok (TermError e)) else (evs, Raise e)
  end.

(** The listing is within the window [--days] asks for, if it asks for one. *)
Definition in_window (now : datetime) (days_back : option Z) (listing : ListingResult)
  : Prop :=
  match days_back with
  | Some n =>
      0 < n -> exists cutoff, cutoff_of now n = Ok cutoff /\ retained now cutoff listing
  | None => True
  end.

(** ** Storefront scrapers ([Scrapers/common.py]) *)

(** The words "Okänd produkt", with U+00E4. *)
Definition okand_produkt : string := "Ok" +:+ String (chr 228) "nd produkt".

(** What [_parse_listing] reads of an element [li.gallery-item]: the link
    [a.gallery-info-link] with its attributes, the stripped texts of the
    title, price, article number and stock status, and the first image. *)
Record link_tag := { link_href : option string; link_title : option string }.

Record img_tag := { img_data_src : option string; img_src : option string }.

Record gallery_item := {
  item_link : option link_tag;
  item_title : option string;
  item_price : option string;
  item_sku : option string;
  item_status : option string;
  item_image : option img_tag }.

(** What one request of a page does: it gives the items of the page, or
    raises. *)
Inductive page_outcome : Type :=
| PageItems (items : list gallery_item)
| PageRaises (e : exn).

(** [bool(x)] for an optional float. *)
Definition float_truthy (x : option pyfloat) : bool :=
  match x with
  | Some f => negb (Qeq_bool (float_value f) 0)
  | None => false
  end.

(** [a < b] on floats. *)
Definition float_lt (a b : option pyfloat) : bool :=
  match a, b with
  | Some x, Some y =>
      match (float_value x ?= float_value y)%Q with Lt => true | _ => false end
  | _, _ => false
  end.

Module Starweb.

(** [StarwebSearchScraper._parse_listing] for a scraper with the given
    [base_url]. *)
Definition _parse_listing (float : string -> option pyfloat) (base_url : string)
           (li : gallery_item) : result (option ListingResult) :=
  match item_link li with
  | None => Ok None
  | Some link =>
      let url := _normalize_url base_url (default "" (link_href link)) in
      let title :=
        match item_title li with
        | Some text => text
        | None =>
            if truthy_opt (link_title link) then default "" (link_title link)
            else okand_produkt
        end in
      let price_text := item_price li in
      let image_url :=
        match item_image li with
        | Some image =>
            if truthy_opt (img_data_src image) then img_data_src image
            else img_src image
        | None => None
        end in
      price ← (if truthy_opt price_text
               then _extract_price float (default "" price_text)
               else Ok None);
      Ok (Some {| title := title; description := item_sku li; price := price;
                  url := url; image_url := image_url; posted_date := None;
                  location := item_status li;
                  raw_data := {[ "source" := PyStr "starweb" ]} |})
  end.

(** The tests of the loop [for li in items] that do not depend on what was
    seen before: is the listing skipped? *)
Definition skipped (query_lower : string) (min_price max_price : option pyfloat)
           (listing : ListingResult) : bool :=
  negb (PyStr.contains query_lower (PyStr.lower (title listing)))
  || (float_truthy min_price && float_truthy (price listing)
      && float_lt (price listing) min_price)
  || (float_truthy max_price && float_truthy (price listing)
      && float_lt max_price (price listing)).

(** The body of [for li in items], on [results] and [seen_urls]. *)
Definition consider (float : string -> option pyfloat) (base_url query_lower : string)
           (min_price max_price : option pyfloat)
           (st : list ListingResult * gset string) (li : gallery_item)
  : result (list ListingResult * gset string) :=
  listing ← _parse_listing float base_url li;
  match listing with
  | None => Ok st
  | Some listing =>
      if skipped query_lower min_price max_price listing then Ok st
      else if bool_decide (url listing ∈ snd st) then Ok st
      else Ok (fst st ++ [listing], {[ url listing ]} ∪ snd st)
  end.

Fixpoint consider_all (float : string -> option pyfloat) (base_url query_lower : string)
         (min_price max_price : option pyfloat)
         (items : list gallery_item) (st : list ListingResult * gset string)
  : result (list ListingResult * gset string) :=
  match items with
  | [] => Ok st
  | li :: rest =>
      st' ← consider float base_url query_lower min_price max_price st li;
      consider_all float base_url query_lower min_price max_price rest st'
  end.

(** The loop [while True] at [page]; it ends by itself after page 5, and
    [rounds] bounds the rounds left: [None] when they are used up before
    the loop has ended.  The pages requested come with the result. *)
Fixpoint search_pages (float : string -> option pyfloat) (base_url : string)
         (fetch : Z -> page_outcome) (query_lower : string)
         (min_price max_price : option pyfloat)
         (rounds : nat) (page : Z) (st : list ListingResult * gset string)
  : list Z * option (result (list ListingResult)) :=
  match rounds with
  | O => ([], None)
  | S rounds' =>
      match fetch page with
      | PageRaises e => ([page], Some (Raise e))
      | PageItems [] => ([page], Some (Ok (fst st)))
      | PageItems items =>
          match consider_all float base_url query_lower min_price max_price
                             items st with
          | Raise e => ([page], Some (Raise e))
          | Ok st' =>
              let page' := page + 1 in
              if 5 <? page' then ([page], Some (Ok (fst st')))
              else
                let '(pages, r) :=
                  search_pages float base_url fetch query_lower min_price max_price
                               rounds' page' st' in
                (page :: pages, r)
          end
      end
  end.

(** [StarwebSearchScraper._search_sync]; [site query page] is what
    [_fetch_search_page(query, page)] and the selection of the items do. *)
Definition _search_sync (float : string -> option pyfloat) (base_url : string)
           (site : string -> Z -> page_outcome) (query : string)
           (min_price max_price : option pyfloat)
  : list Z * option (result (list ListingResult)) :=
  search_pages float base_url (site query) (PyStr.lower query) min_price max_price
               5 1 ([], ∅).

(** The listing an item stands for, if the loop takes it up at all. *)
Definition accepted (float : string -> option pyfloat) (base_url query_lower : string)
           (min_price max_price : option pyfloat) (li : gallery_item)
  : option ListingResult :=
  match _parse_listing float base_url li with
  | Ok (Some listing) =>
      if skipped query_lower min_price max_price listing then None else Some listing
  | _ => None
  end.

End Starweb.

(** The listings that are the first with their url, given the urls seen
    before, and the urls seen after them. *)
Fixpoint first_by_url (seen : gset string) (listings : list ListingResult)
  : list ListingResult :=
  match listings with
  | [] => []
  | listing :: rest =>
      if bool_decide (url listing ∈ seen) then first_by_url seen rest
      else listing :: first_by_url ({[ url listing ]} ∪ seen) rest
  end.

Fixpoint seen_by_url (seen : gset string) (listings : list ListingResult)
  : gset string :=
  match listings with
  | [] => seen
  | listing :: rest =>
      if bool_decide (url listing ∈ seen) then seen_by_url seen rest
      else seen_by_url ({[ url listing ]} ∪ seen) rest
  end.

(** The items of the first [k] pages. *)
Definition page_items (fetch : Z -> page_outcome) (page : Z) : list gallery_item :=
  match fetch page with
  | PageItems items => items
  | PageRaises _ => []
  end.

Definition pages_from (first : Z) (k : nat) : list Z :=
  map (fun j => first + Z.of_nat j) (seq 0 k).

Definition items_of_pages (fetch : Z -> page_outcome) (first : Z) (k : nat)
  : list gallery_item :=
  flat_map (page_items fetch) (pages_from first k).

(** ** Shutdown ([AudioSearch.close_all]) *)













(** ** More sample data *)

(** A site that times out, then answers 503, then serves the page. *)
Definition sample_get (k : nat) : attempt :=
  match k with
  | O => TimedOut "read timed out"
  | S O => Responded 503 "Service Unavailable"
  | _ => Responded 200 "<html></html>"
  end.

(** A site that is gone. *)
Definition gone_get (k : nat) : attempt := Responded 410 "Gone".

(** Python's [float] on the texts the samples give it: runs of digits. *)
Definition float_of_digits (text : string) : option pyfloat :=
  if PyStr.truthy text && str_forall PyStr.isdecimal text
  then Some {| float_value := inject_Z (PyStr.decimal text); float_str := text +:+ ".0" |}
  else None.

Definition gallery (href title price : string) : gallery_item :=
  {| item_link := Some {| link_href := Some href; link_title := None |};
     item_title := Some title; item_price := Some price; item_sku := None;
     item_status := Some "I lager"; item_image := None |}.

(** A storefront with one page: two offers of one amplifier under the same
    address, and a turntable. *)
Definition sample_site (query : string) (page : Z) : page_outcome :=
  if page =? 1
  then PageItems [gallery "/product/nad-3020" "NAD 3020" "1 500 kr";
                  gallery "/product/rega-p3" "Rega Planar 3" "4 000 kr";
                  gallery "/product/nad-3020" "NAD 3020 (demo)" "1 200 kr"]
  else PageItems [].



(** * Properties *)

(** ** Strings *)

Lemma truthy_false (s : string) : PyStr.truthy s = false <-> s = "".
Proof. destruct s; simpl; split; congruence. Qed.

Lemma lstrip_all_space (s : string) : all_space s = true -> PyStr.lstrip s = "".
Proof.
  induction s as [|c r IH]; simpl; [reflexivity|].
  intros [Hc Hr]%andb_true_iff. rewrite Hc. auto.
Qed.

Lemma strip_all_space (s : string) : all_space s = true -> PyStr.strip s = "".
Proof. intros H. unfold PyStr.strip. now rewrite lstrip_all_space. Qed.

Lemma rstrip_cons_nonspace (c : ascii) (r : string) :
  PyStr.isspace c = false -> exists r', PyStr.rstrip (String c r) = String c r'.
Proof.
  intros Hc. simpl. destruct (PyStr.rstrip r); rewrite ?Hc; eauto.
Qed.

Lemma rstrip_idem (s : string) : PyStr.rstrip (PyStr.rstrip s) = PyStr.rstrip s.
Proof.
  induction s as [|c r IH]; simpl; [reflexivity|].
  destruct (PyStr.rstrip r) as [|c' r'] eqn:Hr.
  - destruct (PyStr.isspace c) eqn:Hc; simpl; [reflexivity|]. now rewrite Hc.
  - change (PyStr.rstrip (String c (String c' r'))) with
      (match PyStr.rstrip (String c' r') with
       | EmptyString => if PyStr.isspace c then EmptyString else String c EmptyString
       | x => String c x
       end).
    rewrite IH. reflexivity.
Qed.

Lemma lstrip_head (s : string) :
  PyStr.lstrip s = "" \/
  exists c r, PyStr.lstrip s = String c r /\ PyStr.isspace c = false.
Proof.
  induction s as [|c r IH]; simpl; [now left|].
  destruct (PyStr.isspace c) eqn:Hc; [exact IH|]. right. eauto.
Qed.

(** Stripping a stripped string changes nothing. *)
Lemma strip_idem (s : string) : PyStr.strip (PyStr.strip s) = PyStr.strip s.
Proof.
  unfold PyStr.strip.
  destruct (lstrip_head s) as [H | (c & r & H & Hc)]; rewrite H.
  - reflexivity.
  - destruct (rstrip_cons_nonspace c r Hc) as [r' Hr']. rewrite Hr'.
    simpl PyStr.lstrip. rewrite Hc, <- Hr'. apply rstrip_idem.
Qed.

(** ** Query expansion *)

Lemma SYNONYMS_lookup (k : string) (syns : list string) :
  SYNONYMS !! k = Some syns -> In (k, syns) SYNONYMS_items.
Proof.
  intros H. apply list_elem_of_In. now apply elem_of_list_to_map_2.
Qed.

Lemma str_in_In (x : string) (l : list string) : str_in x l = true <-> In x l.
Proof.
  unfold str_in. rewrite existsb_exists. split.
  - intros (y & Hy & He). apply String.eqb_eq in He. now subst.
  - intros H. exists x. split; [assumption | apply String.eqb_refl].
Qed.

(** Appending synonyms that are new and distinct appends them all. *)
Lemma append_new_fresh (syns variants : list string) :
  NoDup (variants ++ syns) -> append_new variants syns = variants ++ syns.
Proof.
  revert variants. induction syns as [|syn rest IH]; intros variants Hnd; simpl.
  - now rewrite app_nil_r.
  - destruct (str_in syn variants) eqn:Hin.
    + apply str_in_In in Hin. apply NoDup_app in Hnd as (_ & Hdisj & _).
      exfalso. apply (Hdisj syn); [now apply list_elem_of_In | left].
    + rewrite IH; rewrite <- app_assoc; [reflexivity | exact Hnd].
Qed.

(** No entry of the table lists a synonym twice, and no term that
    normalises to a key of the table is among that key's synonyms. *)
Lemma SYNONYMS_fresh (term : string) (syns : list string) :
  SYNONYMS !! PyStr.lower (PyStr.strip term) = Some syns -> NoDup (term :: syns).
Proof.
  intros H%SYNONYMS_lookup.
  remember (PyStr.lower (PyStr.strip term)) as n eqn:Hn.
  assert (Hcase : forall s, In s syns -> PyStr.lower (PyStr.strip s) <> n).
  { unfold SYNONYMS_items in H. simpl in H.
    repeat (destruct H as [H | H]; [injection H as <- <-|]); try contradiction;
      intros s Hs; simpl in Hs;
      repeat (destruct Hs as [<- | Hs]; [vm_compute; discriminate|]);
      contradiction. }
  assert (Hnd : NoDup syns).
  { unfold SYNONYMS_items in H. simpl in H.
    repeat (destruct H as [H | H]; [injection H as <- <-|]); try contradiction;
      repeat (apply NoDup_cons; split;
              [rewrite list_elem_of_In; simpl; intros Hin;
               repeat (destruct Hin as [Hin | Hin]; [vm_compute in Hin; discriminate|]);
               contradiction|]);
      apply NoDup_nil; exact I. }
  apply NoDup_cons. split; [|exact Hnd].
  rewrite list_elem_of_In. intros Hin. apply (Hcase term Hin). now symmetry.
Qed.

(** C8. Query expansion is a function of its term alone.  For every term it
    returns the term itself first, followed by the synonyms the table lists
    for the stripped, lower-cased term, in the order of the table, and the
    result has no duplicates.  In particular the expansion of "amp" is
    "amp", "amplifier", "förstärkare", in that order. *)
Theorem expand_search_term_spec :
  (forall term : string,
      expand_search_term term
      = term :: default [] (SYNONYMS !! PyStr.lower (PyStr.strip term))
      /\ head (expand_search_term term) = Some term
      /\ NoDup (expand_search_term term))
  /\ expand_search_term "amp" = ["amp"; "amplifier"; forstarkare].
Proof.
  split; [|reflexivity].
  intros term.
  assert (Heq : expand_search_term term
                = term :: default [] (SYNONYMS !! PyStr.lower (PyStr.strip term))).
  { unfold expand_search_term.
    destruct (PyStr.truthy (PyStr.lower (PyStr.strip term))) eqn:Ht; simpl.
    - destruct (SYNONYMS !! PyStr.lower (PyStr.strip term)) as [syns|] eqn:Hs; simpl.
      + apply (append_new_fresh syns [term]). now apply SYNONYMS_fresh.
      + reflexivity.
    - apply truthy_false in Ht. rewrite Ht. reflexivity. }
  rewrite Heq. split; [reflexivity|]. split; [reflexivity|].
  destruct (SYNONYMS !! PyStr.lower (PyStr.strip term)) as [syns|] eqn:Hs; simpl.
  - now apply SYNONYMS_fresh.
  - apply NoDup_singleton.
Qed.

(** ** The orchestrator *)

Lemma not_stripped_empty (query : string) :
  PyStr.strip query <> "" ->
  negb (PyStr.truthy query) || negb (PyStr.truthy (PyStr.strip query)) = false.
Proof.
  intros H. destruct query as [|c r]; [now elim H|]. simpl PyStr.truthy at 1.
  destruct (PyStr.truthy (PyStr.strip (String c r))) eqn:Ht; [reflexivity|].
  now apply truthy_false in Ht.
Qed.

(** C10. For an empty or whitespace-only query the dispatch returns the
    empty mapping, with no entry for any provider, and its only output is
    the one warning; what the providers would have done plays no part. *)
Theorem search_all_empty_query (debug : bool) (scrapers : list Scraper) (query : string) :
  all_space query = true ->
  search_all debug scrapers query = ([EmptyQueryWarning], Ok []).
Proof.
  intros H. unfold search_all. rewrite (strip_all_space query H).
  now rewrite orb_true_r.
Qed.

Lemma dict_set_fresh {V} (k : string) (v : V) (d : dict V) :
  ~ In k (keys d) -> dict_set k v d = d ++ [(k, v)].
Proof.
  induction d as [|[k' v'] d IH]; simpl; intros H; [reflexivity|].
  destruct (String.eqb_spec k k') as [->|Hne]; [tauto|].
  rewrite IH; [reflexivity | tauto].
Qed.

Lemma dict_get_Some_In {V} (k : string) (v : V) (d : dict V) :
  dict_get k d = Some v -> In (k, v) d.
Proof.
  induction d as [|[k' v'] d IH]; simpl; [discriminate|].
  destruct (String.eqb_spec k k') as [->|Hne].
  - intros [= ->]. now left.
  - intros H. right. now apply IH.
Qed.






(** Awaiting the tasks in turn: each provider adds its own lines and its
    own entry, whatever the others did. *)
Lemma await_all_ordinary (debug : bool) (query : string) (scrapers : list Scraper)
      (results : results_t) :
  PyStr.strip query <> "" ->
  Forall (fun s => ordinary (search s (PyStr.strip query))) scrapers ->
  await_all debug
    (map (fun s => (name s, _search_scraper s (PyStr.strip query))) scrapers) results
  = (flat_map (trace debug (PyStr.strip query)) scrapers,
     Ok (fold_left (fun r s => dict_set (name s) (entry_of (search s (PyStr.strip query))) r)
                   scrapers results)).
Proof.
  intros Hq Hord. revert results.
  induction Hord as [|s l Hs Hl IH]; intros results; simpl; [reflexivity|].
  unfold _search_scraper at 1.
  rewrite not_stripped_empty by now rewrite strip_idem.
  unfold trace at 1.
  destruct (search s (PyStr.strip query)) as [ls|e|] eqn:Ho; simpl.
  - rewrite IH. now rewrite <- !app_assoc.
  - destruct Hs as [He Hk]. apply String.eqb_neq in Hk. rewrite Hk, He. simpl.
    rewrite IH. now rewrite <- !app_assoc.
  - rewrite IH. now rewrite <- !app_assoc.
Qed.

Lemma fold_dict_set_fresh {V} (f : Scraper -> V) (scrapers : list Scraper) (d : dict V) :
  NoDup (keys d ++ map name scrapers) ->
  fold_left (fun r s => dict_set (name s) (f s) r) scrapers d
  = d ++ map (fun s => (name s, f s)) scrapers.
Proof.
  revert d. induction scrapers as [|s l IH]; intros d Hnd; simpl.
  - now rewrite app_nil_r.
  - assert (Hs : ~ In (name s) (keys d)).
    { apply NoDup_app in Hnd as (_ & Hdisj & _). intros Hin.
      apply (Hdisj (name s)); [now apply list_elem_of_In | left]. }
    rewrite (dict_set_fresh _ _ _ Hs), IH.
    + now rewrite <- app_assoc.
    + unfold keys in *. rewrite map_app. simpl. now rewrite <- app_assoc.
Qed.


(** ** The aggregation loop *)

Lemma dict_get_is_Some {V} (k : string) (d : dict V) :
  In k (keys d) -> exists v, dict_get k d = Some v.
Proof.
  induction d as [|[k' v'] d IH]; simpl; [tauto|].
  destruct (String.eqb_spec k k') as [->|Hne]; [eauto|].
  intros [He | Hin]; [congruence | now apply IH].
Qed.

Lemma keys_dict_set {V} (k : string) (v : V) (d : dict V) :
  keys (dict_set k v d)
  = match dict_get k d with Some _ => keys d | None => keys d ++ [k] end.
Proof.
  induction d as [|[k' v'] d IH]; simpl; [reflexivity|].
  destruct (String.eqb_spec k k') as [->|Hne]; simpl; [reflexivity|].
  rewrite IH. now destruct (dict_get k d).
Qed.

Lemma keys_dict_set_incl {V} (k k0 : string) (v : V) (d : dict V) :
  In k0 (keys d) -> In k0 (keys (dict_set k v d)).
Proof.
  intros H. rewrite keys_dict_set. destruct (dict_get k d); [assumption|].
  apply in_or_app. now left.
Qed.

Lemma keys_dict_set_self {V} (k : string) (v : V) (d : dict V) :
  In k (keys (dict_set k v d)).
Proof.
  rewrite keys_dict_set. destruct (dict_get k d) eqn:H.
  - apply dict_get_Some_In in H. unfold keys. now apply (in_map fst) in H.
  - apply in_or_app. right. now left.
Qed.

(** Replacing a bucket by itself with one more listing adds that listing
    to the retained ones. *)
Lemma all_listings_dict_set (site : string) (x : ListingResult)
      (b : list ListingResult) (agg : results_t) :
  dict_get site agg = Some b ->
  all_listings (dict_set site (b ++ [x]) agg) ≡ₚ (site, x) :: all_listings agg.
Proof.
  induction agg as [|[k v] agg IH]; simpl; [discriminate|].
  destruct (String.eqb_spec site k) as [->|Hne].
  - intros [= ->]. unfold all_listings. simpl. rewrite map_app. simpl.
    rewrite <- app_assoc. simpl. symmetry. apply Permutation_middle.
  - intros H. unfold all_listings in *. simpl. rewrite (IH H).
    change ((site, x) :: flat_map (fun entry => map (pair entry.1) entry.2) agg)
      with ([(site, x)] ++ flat_map (fun entry => map (pair entry.1) entry.2) agg).
    rewrite Permutation_app_swap_app. reflexivity.
Qed.

Lemma all_listings_app (a b : results_t) :
  all_listings (a ++ b) = all_listings a ++ all_listings b.
Proof. unfold all_listings. apply flat_map_app. Qed.

Lemma all_listings_bucket_append (site : string) (x : ListingResult) (agg : results_t) :
  all_listings (bucket_append site x agg) ≡ₚ (site, x) :: all_listings agg.
Proof.
  unfold bucket_append. destruct (dict_get site agg) as [b|] eqn:H; simpl.
  - now apply all_listings_dict_set.
  - rewrite dict_set_fresh.
    + rewrite all_listings_app. unfold all_listings at 2. simpl.
      symmetry. apply Permutation_cons_append.
    + intros Hin. apply dict_get_is_Some in Hin as [v Hv]. congruence.
Qed.

Lemma all_listings_setdefault (site : string) (agg : results_t) :
  all_listings (setdefault_bucket site agg) = all_listings agg.
Proof.
  unfold setdefault_bucket. destruct (dict_get site agg) eqn:H; [reflexivity|].
  rewrite dict_set_fresh.
  - rewrite all_listings_app. unfold all_listings at 2. simpl. apply app_nil_r.
  - intros Hin. apply dict_get_is_Some in Hin as [v Hv]. congruence.
Qed.

Lemma session_ok_new : session_ok new_session.
Proof. split; [apply NoDup_nil; exact I | intros sig []]. Qed.

Lemma session_ok_add_listing (site : string) (st : session) (x : ListingResult) :
  session_ok st -> session_ok (add_listing site st x).
Proof.
  intros [Hnd Hseen]. unfold add_listing.
  destruct (decide (signature x ∈ seen_signatures st)) as [Hin|Hout]; [now split|].
  assert (Hp : retained_signatures
                 {| aggregated_results := bucket_append site x (aggregated_results st);
                    seen_signatures := {[signature x]} ∪ seen_signatures st |}
               ≡ₚ signature x :: retained_signatures st).
  { unfold retained_signatures. simpl.
    now rewrite all_listings_bucket_append. }
  split.
  - rewrite Hp. apply NoDup_cons. split; [|assumption].
    rewrite list_elem_of_In. intros Hin. apply Hout. now apply Hseen.
  - intros sig Hin. simpl.
    apply list_elem_of_In in Hin. rewrite Hp in Hin.
    apply elem_of_cons in Hin as [->|Hin]; [set_solver|].
    apply list_elem_of_In in Hin. apply Hseen in Hin. set_solver.
Qed.

Lemma session_ok_fold_add_listing (site : string) (l : list ListingResult) (st : session) :
  session_ok st -> session_ok (fold_left (add_listing site) l st).
Proof.
  revert st. induction l as [|x l IH]; intros st H; simpl; [assumption|].
  apply IH. now apply session_ok_add_listing.
Qed.

Lemma session_ok_add_site (st : session) (entry : string * list ListingResult) :
  session_ok st -> session_ok (add_site st entry).
Proof.
  destruct entry as [site l]. intros [Hnd Hseen]. unfold add_site.
  apply session_ok_fold_add_listing. unfold session_ok, retained_signatures. simpl.
  rewrite all_listings_setdefault. now split.
Qed.

Lemma session_ok_add_results (results : results_t) (st : session) :
  session_ok st -> session_ok (add_results st results).
Proof.
  unfold add_results. revert st.
  induction results as [|e r IH]; intros st H; simpl; [assumption|].
  apply IH. now apply session_ok_add_site.
Qed.

Lemma session_ok_aggregate_from (per_variant : list results_t) (st : session) :
  session_ok st -> session_ok (aggregate_from st per_variant).
Proof.
  unfold aggregate_from. revert st.
  induction per_variant as [|r rs IH]; intros st H; simpl; [assumption|].
  apply IH. now apply session_ok_add_results.
Qed.

(** A listing whose signature has been seen is dropped: the session is
    left as it was. *)
Lemma add_listing_seen (site : string) (st : session) (x : ListingResult) :
  signature x ∈ seen_signatures st -> add_listing site st x = st.
Proof.
  intros H. unfold add_listing. now destruct (decide _).
Qed.

(** C9. Deduplication is global across providers.  In the aggregate of any
    session, whatever the providers returned for its variants, no two
    retained listings have the same signature, under whichever provider
    names they are filed; and a listing with the signature of a listing
    already retained under some provider is dropped when it is returned
    again, under any provider. *)
Theorem dedup_across_providers (per_variant : list results_t) :
  NoDup (retained_signatures (aggregate per_variant))
  /\ forall (site : string) (x : ListingResult) (site' : string) (y : ListingResult),
       In (site, x) (all_listings (aggregated_results (aggregate per_variant))) ->
       signature y = signature x ->
       add_listing site' (aggregate per_variant) y = aggregate per_variant.
Proof.
  destruct (session_ok_aggregate_from per_variant new_session session_ok_new)
    as [Hnd Hseen].
  split; [exact Hnd|].
  intros site x site' y Hin Hsig. apply add_listing_seen. rewrite Hsig.
  apply Hseen. unfold retained_signatures.
  apply (in_map (fun item => signature (snd item))) in Hin. exact Hin.
Qed.

Lemma grows_refl (st : session) : grows st st.
Proof. split; [set_solver | auto]. Qed.

Lemma grows_trans (a b c : session) : grows a b -> grows b c -> grows a c.
Proof. intros [H1 H2] [H3 H4]. split; [set_solver | auto]. Qed.

Lemma grows_add_listing (site : string) (st : session) (x : ListingResult) :
  grows st (add_listing site st x).
Proof.
  unfold add_listing. destruct (decide _); [apply grows_refl|].
  split; simpl; [set_solver|]. intros k Hk. unfold bucket_append.
  now apply keys_dict_set_incl.
Qed.

Lemma grows_fold_add_listing (site : string) (l : list ListingResult) (st : session) :
  grows st (fold_left (add_listing site) l st).
Proof.
  revert st. induction l as [|x l IH]; intros st; simpl; [apply grows_refl|].
  eapply grows_trans; [apply grows_add_listing | apply IH].
Qed.

Lemma seen_fold_add_listing (site : string) (l : list ListingResult) (st : session) :
  forall x, In x l -> signature x ∈ seen_signatures (fold_left (add_listing site) l st).
Proof.
  revert st. induction l as [|y l IH]; intros st x; simpl; [tauto|].
  intros [->|Hin]; [|now apply IH].
  apply (grows_fold_add_listing site l (add_listing site st x)).
  unfold add_listing. destruct (decide _); [assumption | simpl; set_solver].
Qed.

Lemma grows_setdefault (site : string) (st : session) :
  grows st {| aggregated_results := setdefault_bucket site (aggregated_results st);
              seen_signatures := seen_signatures st |}.
Proof.
  split; simpl; [set_solver|]. intros k Hk. unfold setdefault_bucket.
  destruct (dict_get site (aggregated_results st)); [assumption|].
  now apply keys_dict_set_incl.
Qed.

Lemma grows_add_site (st : session) (entry : string * list ListingResult) :
  grows st (add_site st entry).
Proof.
  destruct entry as [site l]. unfold add_site.
  eapply grows_trans; [apply grows_setdefault | apply grows_fold_add_listing].
Qed.

Lemma grows_add_results (results : results_t) (st : session) :
  grows st (add_results st results).
Proof.
  unfold add_results. revert st.
  induction results as [|e r IH]; intros st; simpl; [apply grows_refl|].
  eapply grows_trans; [apply grows_add_site | apply IH].
Qed.

Lemma grows_aggregate_from (per_variant : list results_t) (st : session) :
  grows st (aggregate_from st per_variant).
Proof.
  unfold aggregate_from. revert st.
  induction per_variant as [|r rs IH]; intros st; simpl; [apply grows_refl|].
  eapply grows_trans; [apply grows_add_results | apply IH].
Qed.

Lemma absorbed_grows (st st' : session) (results : results_t) :
  grows st st' -> absorbed st results -> absorbed st' results.
Proof.
  intros [Hs Hk] Ha site l Hin. destruct (Ha site l Hin) as [H1 H2].
  split; [auto | intros x Hx; apply Hs; auto].
Qed.

(** Once its results have been added, a session has absorbed them. *)
Lemma absorbed_add_results (results : results_t) (st : session) :
  absorbed (add_results st results) results.
Proof.
  unfold add_results. revert st.
  induction results as [|[site l] r IH]; intros st site0 l0; simpl; [tauto|].
  intros [[= <- <-] | Hin].
  - apply (absorbed_grows (add_site st (site, l)) _ [(site, l)]).
    + apply (grows_add_results r).
    + intros site1 l1 [[= <- <-] | []]. unfold add_site. split.
      * apply grows_fold_add_listing. simpl. unfold setdefault_bucket.
        destruct (dict_get site (aggregated_results st)) eqn:H.
        -- apply dict_get_Some_In in H. now apply (in_map fst) in H.
        -- apply keys_dict_set_self.
      * apply seen_fold_add_listing.
    + now left.
  - now apply (IH (add_site st (site, l))).
Qed.

(** Results that a session has absorbed leave it unchanged. *)
Lemma add_results_absorbed (results : results_t) (st : session) :
  absorbed st results -> add_results st results = st.
Proof.
  unfold add_results.
  induction results as [|[site l] r IH]; intros Ha; cbn [fold_left]; [reflexivity|].
  assert (Hsite : add_site st (site, l) = st).
  { destruct (Ha site l (or_introl eq_refl)) as [Hk Hs]. unfold add_site.
    unfold setdefault_bucket. apply dict_get_is_Some in Hk as [b ->].
    destruct st as [agg seen]. simpl in *.
    clear -Hs. induction l as [|x l IHl]; simpl; [reflexivity|].
    rewrite add_listing_seen by (apply Hs; now left).
    apply IHl. intros y Hy. apply Hs. now right. }
  rewrite Hsite. apply IH. intros s ls Hin. apply Ha. now right.
Qed.

(** Feeding a session the same results once more changes nothing. *)
Lemma aggregate_from_again (per_variant : list results_t) (st : session) :
  aggregate_from (aggregate_from st per_variant) per_variant
  = aggregate_from st per_variant.
Proof.
  assert (Habs : forall rs st', Forall (absorbed st') rs -> aggregate_from st' rs = st').
  { unfold aggregate_from. induction rs as [|r rs IH]; intros st' Hf; simpl; [reflexivity|].
    apply Forall_cons in Hf as [Hr Hrs].
    rewrite (add_results_absorbed r st' Hr). now apply IH. }
  apply Habs. revert st. unfold aggregate_from.
  induction per_variant as [|r rs IH]; intros st; simpl; [constructor|].
  constructor; [|apply IH].
  eapply absorbed_grows; [apply (grows_aggregate_from rs)|].
  apply absorbed_add_results.
Qed.

(** C6. Deduplication by signature is idempotent.  For any results of the
    two variants, a session fed them twice ends with the aggregate, and so
    the number of retained listings, of the session fed them once; and a
    listing whose signature has been seen is always dropped. *)
Theorem dedup_idempotent (r1 r2 : results_t) :
  aggregate [r1; r2; r1; r2] = aggregate [r1; r2]
  /\ total_results (aggregated_results (aggregate [r1; r2; r1; r2]))
     = total_results (aggregated_results (aggregate [r1; r2]))
  /\ forall (st : session) (site : string) (x : ListingResult),
       signature x ∈ seen_signatures st ->
       aggregated_results (add_listing site st x) = aggregated_results st.
Proof.
  assert (H : aggregate [r1; r2; r1; r2] = aggregate [r1; r2]).
  { unfold aggregate.
    change [r1; r2; r1; r2] with ([r1; r2] ++ [r1; r2]).
    unfold aggregate_from at 1. rewrite fold_left_app.
    apply (aggregate_from_again [r1; r2] new_session). }
  split; [exact H|]. split; [now rewrite H|].
  intros st site x Hin. now rewrite add_listing_seen.
Qed.

(** ** The order of the sort keys *)

Lemma xfloat_compare_antisym (a b : xfloat) :
  xfloat_compare b a = CompOpp (xfloat_compare a b).
Proof.
  destruct a, b; simpl; try reflexivity. symmetry. apply Qcompare_antisym.
Qed.

Lemma xfloat_compare_trans (a b c : xfloat) :
  xfloat_compare a b <> Gt -> xfloat_compare b c <> Gt ->
  xfloat_compare a c = then_cmp (xfloat_compare a b) (xfloat_compare b c).
Proof.
  destruct a as [|p|], b as [|q|], c as [|r|]; simpl; try congruence;
    try (destruct (p ?= q)%Q; simpl; congruence);
    try (destruct (q ?= r)%Q; simpl; congruence).
  intros H1 H2.
  destruct (Qcompare_spec p q), (Qcompare_spec q r), (Qcompare_spec p r);
    simpl; try reflexivity; try congruence; exfalso; lra.
Qed.

Lemma str_compare_refl (a : string) : str_compare a a = Eq.
Proof.
  unfold str_compare. destruct (String_as_OT.compare_spec a a) as [_|H|H];
    [reflexivity | |]; now apply (StrictOrder_Irreflexive a) in H.
Qed.

Lemma str_compare_antisym (a b : string) :
  str_compare b a = CompOpp (str_compare a b).
Proof.
  unfold str_compare.
  destruct (String_as_OT.compare_spec a b) as [->|H|H]; simpl.
  - apply str_compare_refl.
  - destruct (String_as_OT.compare_spec b a) as [->|H'|H']; [| |reflexivity];
      exfalso; [now apply (StrictOrder_Irreflexive a) in H|].
    apply (StrictOrder_Irreflexive a). now transitivity b.
  - exact H.
Qed.

Lemma str_compare_trans (a b c : string) :
  str_compare a b <> Gt -> str_compare b c <> Gt ->
  str_compare a c = then_cmp (str_compare a b) (str_compare b c).
Proof.
  unfold str_compare.
  destruct (String_as_OT.compare_spec a b) as [->|H1|H1];
    destruct (String_as_OT.compare_spec b c) as [->|H2|H2]; simpl; try congruence;
    intros _ _;
    first [ apply str_compare_refl | assumption
          | change (String_as_OT.lt a c); now transitivity b ].
Qed.

Lemma key_compare_antisym (a b : sort_key) :
  key_compare b a = CompOpp (key_compare a b).
Proof.
  destruct a as [d1 s1|s1|p1], b as [d2 s2|s2|p2]; simpl; try reflexivity.
  - rewrite (xfloat_compare_antisym d1 d2).
    destruct (xfloat_compare d1 d2); simpl; try reflexivity.
    apply str_compare_antisym.
  - apply str_compare_antisym.
  - apply xfloat_compare_antisym.
Qed.

Lemma key_le_trans (a b c : sort_key) : key_le a b -> key_le b c -> key_le a c.
Proof.
  unfold key_le.
  destruct a as [d1 s1|s1|p1], b as [d2 s2|s2|p2], c as [d3 s3|s3|p3];
    simpl; try congruence;
    try (intros H1 H2; exfalso; (now apply H1) || (now apply H2)).
  - intros H1 H2.
    assert (Hd1 : xfloat_compare d1 d2 <> Gt)
      by (destruct (xfloat_compare d1 d2); congruence).
    assert (Hd2 : xfloat_compare d2 d3 <> Gt)
      by (destruct (xfloat_compare d2 d3); congruence).
    rewrite (xfloat_compare_trans d1 d2 d3 Hd1 Hd2).
    destruct (xfloat_compare d1 d2), (xfloat_compare d2 d3); simpl; try congruence.
    rewrite (str_compare_trans s1 s2 s3 H1 H2).
    destruct (str_compare s1 s2), (str_compare s2 s3); simpl; congruence.
  - intros H1 H2. rewrite (str_compare_trans s1 s2 s3 H1 H2).
    destruct (str_compare s1 s2), (str_compare s2 s3); simpl; congruence.
  - intros H1 H2. rewrite (xfloat_compare_trans p1 p2 p3 H1 H2).
    destruct (xfloat_compare p1 p2), (xfloat_compare p2 p3); simpl; congruence.
Qed.

Lemma key_lt_false (a b : sort_key) : key_lt b a = false <-> key_le a b.
Proof.
  unfold key_lt, key_le. rewrite (key_compare_antisym a b).
  destruct (key_compare a b); simpl; split; congruence.
Qed.

Lemma key_lt_le (a b : sort_key) : key_lt a b = true -> key_le a b.
Proof. unfold key_lt, key_le. destruct (key_compare a b); congruence. Qed.

(** ** The stable sort *)

Lemma insert_keyed_perm {A} (x : sort_key * A) (l : list (sort_key * A)) :
  insert_keyed x l ≡ₚ x :: l.
Proof.
  induction l as [|y l IH]; simpl; [reflexivity|].
  destruct (key_lt (fst y) (fst x)); [|reflexivity].
  rewrite IH. apply Permutation_swap.
Qed.

Lemma sort_keyed_perm {A} (l : list (sort_key * A)) : sort_keyed l ≡ₚ l.
Proof.
  induction l as [|x l IH]; simpl; [reflexivity|].
  rewrite insert_keyed_perm. now rewrite IH.
Qed.

Lemma insert_keyed_sorted {A} (x : sort_key * A) (l : list (sort_key * A)) :
  keys_sorted l -> keys_sorted (insert_keyed x l).
Proof.
  unfold keys_sorted. induction l as [|y l IH]; simpl; intros Hs.
  - constructor; constructor.
  - apply StronglySorted_inv in Hs as [Hl Hy].
    destruct (key_lt (fst y) (fst x)) eqn:Hlt.
    + constructor; [now apply IH|].
      rewrite insert_keyed_perm.
      constructor; [now apply key_lt_le | exact Hy].
    + apply key_lt_false in Hlt. constructor; [now constructor|].
      constructor; [exact Hlt|].
      eapply Forall_impl; [exact Hy|]. intros z Hz. simpl in Hz.
      now apply (key_le_trans _ (fst y)).
Qed.

Lemma sort_keyed_sorted {A} (l : list (sort_key * A)) : keys_sorted (sort_keyed l).
Proof.
  induction l as [|x l IH]; simpl; [constructor|]. now apply insert_keyed_sorted.
Qed.

Lemma StronglySorted_lookup {A} (R : A -> A -> Prop) (l : list A) (i j : nat) (a b : A) :
  StronglySorted R l -> (i < j)%nat -> l !! i = Some a -> l !! j = Some b -> R a b.
Proof.
  intros Hs. revert i j. induction Hs as [|x l Hs IH Hx]; intros i j Hij Hi Hj.
  - discriminate.
  - destruct j as [|j]; [lia|]. destruct i as [|i]; simpl in *.
    + injection Hi as <-. rewrite Forall_forall in Hx. apply Hx.
      now apply list_elem_of_lookup_2 in Hj.
    + apply (IH i j); [lia | assumption | assumption].
Qed.

Lemma keys_of_spec {A} (key : A -> result sort_key) (l : list A)
      (keyed : list (sort_key * A)) :
  keys_of key l = Ok keyed ->
  map snd keyed = l /\ Forall (fun kx => key (snd kx) = Ok (fst kx)) keyed.
Proof.
  revert keyed. induction l as [|x l IH]; simpl; intros keyed H.
  - injection H as <-. split; [reflexivity | constructor].
  - destruct (key x) as [k|e] eqn:Hk; [|discriminate]. simpl in H.
    destruct (keys_of key l) as [ks|e]; [|discriminate]. simpl in H.
    injection H as <-. destruct (IH ks eq_refl) as [Hm Hf].
    split; [simpl; now rewrite Hm | constructor; [exact Hk | exact Hf]].
Qed.







(** ** The recency filter *)

Lemma bind_Ok {A B} (a : A) (f : A -> result B) : (Ok a ≫= f) = f a.
Proof. reflexivity. Qed.

Lemma retained_b_spec (now cutoff : datetime) (listing : ListingResult) :
  parses now listing ->
  retained_b now cutoff listing = true <-> retained now cutoff listing.
Proof.
  intros Hp. unfold retained_b, retained.
  destruct (truthy_opt (posted_date listing)) eqn:Ht; simpl.
  - destruct (Hp Ht) as [r Hr]. rewrite Hr. destruct r as [d|].
    + split.
      * intros H. right. right. eauto.
      * intros [H | [H | (d' & [= <-] & H)]]; [discriminate | discriminate | exact H].
    + split; [intros _; right; now left | reflexivity].
  - split; [now left | reflexivity].
Qed.

Lemma keep_listing_spec (now cutoff : datetime) (listing : ListingResult) :
  parses now listing ->
  keep_listing now cutoff listing = Ok (retained_b now cutoff listing).
Proof.
  intros Hp. unfold keep_listing, retained_b.
  destruct (truthy_opt (posted_date listing)) eqn:Ht; simpl; [|reflexivity].
  destruct (Hp Ht) as [r ->]. simpl. now destruct r.
Qed.

Lemma filter_listings_spec (now cutoff : datetime) (listings : list ListingResult) :
  Forall (parses now) listings ->
  filter_listings now cutoff listings
  = Ok (List.filter (retained_b now cutoff) listings).
Proof.
  induction 1 as [|x l Hx Hl IH]; simpl; [reflexivity|].
  rewrite (keep_listing_spec _ _ _ Hx), IH. simpl.
  now destruct (retained_b now cutoff x).
Qed.

Lemma filter_entries_spec (now cutoff : datetime) (entries acc : results_t) :
  NoDup (keys acc ++ keys entries) ->
  Forall (fun entry => Forall (parses now) (snd entry)) entries ->
  filter_entries now cutoff entries acc
  = Ok (acc ++ map (fun entry =>
                      (fst entry, List.filter (retained_b now cutoff) (snd entry)))
                   entries).
Proof.
  intros Hnd Hp. revert acc Hnd.
  induction Hp as [|[site l] entries Hl Hp IH]; intros acc Hnd; simpl.
  - now rewrite app_nil_r.
  - simpl in Hl. rewrite (filter_listings_spec _ _ _ Hl). simpl.
    assert (Hs : ~ In site (keys acc)).
    { apply NoDup_app in Hnd as (_ & Hdisj & _). intros Hin.
      apply (Hdisj site); [now apply list_elem_of_In | left]. }
    rewrite (dict_set_fresh _ _ _ Hs), IH.
    + now rewrite <- app_assoc.
    + unfold keys in *. rewrite map_app. simpl. now rewrite <- app_assoc.
Qed.

Lemma cmp_refl (l : list Z) : Datetime.cmp l l = Eq.
Proof. induction l as [|x l IH]; simpl; [reflexivity|]. now rewrite Z.compare_refl. Qed.

(** C2, as the code has it.  For [N <= 0] the filter returns its input.
    For [N > 0], when the cutoff [now - N days] exists and no posted date
    makes the parser raise, the filter returns the mapping with the same
    providers in the same order, each with those of its listings, in order,
    that have no posted date, or whose posted date does not parse, or whose
    parsed date is on or after the cutoff; a listing dated exactly at the
    cutoff is retained. *)
Theorem filter_by_days_spec (now : datetime) (results : results_t) (N : Z) :
  (N <= 0 -> filter_by_days now results N = Ok results)
  /\ (forall cutoff : datetime,
         0 < N ->
         NoDup (keys results) ->
         cutoff_of now N = Ok cutoff ->
         Forall (fun entry => Forall (parses now) (snd entry)) results ->
         filter_by_days now results N
         = Ok (map (fun entry =>
                      (fst entry, List.filter (retained_b now cutoff) (snd entry)))
                   results)
         /\ (forall site listings listing,
                In (site, listings) results -> In listing listings ->
                retained_b now cutoff listing = true <-> retained now cutoff listing)
         /\ (forall listing,
                truthy_opt (posted_date listing) = true ->
                parse_date now (posted_date listing) = Ok (Some cutoff) ->
                retained_b now cutoff listing = true)).
Proof.
  split.
  - intros H. unfold filter_by_days. apply Z.leb_le in H. now rewrite H.
  - intros cutoff HN Hnd Hc Hp. split; [|split].
    + unfold filter_by_days. apply Z.leb_gt in HN. rewrite HN.
      unfold cutoff_of in Hc.
      destruct (Datetime.timedelta_days N) as [delta|e]; [|discriminate].
      rewrite bind_Ok in Hc. rewrite bind_Ok, Hc, bind_Ok.
      now rewrite (filter_entries_spec now cutoff results []).
    + intros site listings listing Hin Hl. apply retained_b_spec.
      rewrite Forall_forall in Hp. apply list_elem_of_In in Hin.
      specialize (Hp _ Hin). simpl in Hp. rewrite Forall_forall in Hp.
      apply Hp. now apply list_elem_of_In.
    + intros listing Ht Hd. unfold retained_b. rewrite Ht, Hd. simpl.
      unfold Datetime.ge. now rewrite cmp_refl.
Qed.

(** ** Date normalisation *)

(** Evaluation of the two normalisers on a literal string, the clock being
    left as it is. *)
Ltac eval_dates :=
  unfold parse_date, normalize_date, ParseDate.parse_date, Utils.normalize_date,
    ParseDate.relative, Utils.relative, Utils.textual;
  generalize Datetime.sub Datetime.midnight Datetime.strftime_ymd Datetime.gt;
  intros; vm_compute;
  first [ reflexivity
        | match goal with
          | |- context [?f ?now ?x] =>
              match type of (f now x) with
              | result _ => destruct (f now x); reflexivity
              end
          end ].

(** C3. The literal cases, for both normalisers.  At any clock: "Idag" is
    today (the date of the clock at midnight, or its text); "2 days ago" is
    the clock minus two days (at midnight, or as text); "2024-10-15" is that
    date; "Oct 26, 2025" is 2025-10-26; "not a date" is not parsed.  At
    given clocks, with the dates written out: on 2025-11-03, "Idag" is
    2025-11-03 and "2 days ago" is 2025-11-01; two days before the first of
    March is 28 February in the leap year 2024 and 27 February in 2025; two
    days before New Year's Day 2025 is 2024-12-30. *)
Theorem normalize_literals (now : datetime) :
  (parse_date now (Some "Idag")
   = Ok (Some (Datetime.mk (Datetime.year now) (Datetime.month now) (Datetime.day now)
                           0 0 0 0))
   /\ normalize_date now (Some "Idag") = Ok (Some (Datetime.strftime_ymd now)))
  /\ (parse_date now (Some "2 days ago")
      = (t ← Datetime.sub now (2 * Datetime.US_PER_DAY);
         Ok (Some (Datetime.midnight t)))
      /\ normalize_date now (Some "2 days ago")
         = (t ← Datetime.sub now (2 * Datetime.US_PER_DAY);
            Ok (Some (Datetime.strftime_ymd t))))
  /\ (parse_date now (Some "2024-10-15") = Ok (Some (Datetime.mk 2024 10 15 0 0 0 0))
      /\ normalize_date now (Some "2024-10-15") = Ok (Some "2024-10-15"))
  /\ (parse_date now (Some "Oct 26, 2025") = Ok (Some (Datetime.mk 2025 10 26 0 0 0 0))
      /\ normalize_date now (Some "Oct 26, 2025") = Ok (Some "2025-10-26"))
  /\ (parse_date now (Some "not a date") = Ok None
      /\ normalize_date now (Some "not a date") = Ok None)
  /\ (parse_date now0 (Some "Idag") = Ok (Some (Datetime.mk 2025 11 3 0 0 0 0))
      /\ normalize_date now0 (Some "Idag") = Ok (Some "2025-11-03")
      /\ parse_date now0 (Some "2 days ago") = Ok (Some (Datetime.mk 2025 11 1 0 0 0 0))
      /\ normalize_date now0 (Some "2 days ago") = Ok (Some "2025-11-01"))
  /\ (parse_date now_march_leap (Some "2 days ago")
      = Ok (Some (Datetime.mk 2024 2 28 0 0 0 0))
      /\ normalize_date now_march_leap (Some "2 days ago") = Ok (Some "2024-02-28")
      /\ parse_date now_march (Some "2 days ago")
         = Ok (Some (Datetime.mk 2025 2 27 0 0 0 0))
      /\ normalize_date now_march (Some "2 days ago") = Ok (Some "2025-02-27"))
  /\ (parse_date now_new_year (Some "Idag") = Ok (Some (Datetime.mk 2025 1 1 0 0 0 0))
      /\ normalize_date now_new_year (Some "Idag") = Ok (Some "2025-01-01")
      /\ parse_date now_new_year (Some "2 days ago")
         = Ok (Some (Datetime.mk 2024 12 30 0 0 0 0))
      /\ normalize_date now_new_year (Some "2 days ago") = Ok (Some "2024-12-30")).
Proof.
  change (Datetime.mk (Datetime.year now) (Datetime.month now) (Datetime.day now)
                      0 0 0 0) with (Datetime.midnight now).
  do 5 (split; [split; eval_dates|]).
  repeat split; vm_compute; reflexivity.
Qed.

(** C4, at the inputs where the code departs from it.  An ISO-shaped date
    with an impossible day is rejected by the ISO branch of [parse_date] and
    then read, from its third character on, as a day-month-year date: a date
    that the text does not contain.  [normalize_date] formats a month 13 and
    a day 32 as they stand.  A month 13 written with slashes is not parsed by
    [parse_date]. *)
Theorem malformed_numeric_dates (now : datetime) :
  parse_date now (Some "2024-10-32") = Ok (Some (Datetime.mk 2032 10 24 0 0 0 0))
  /\ normalize_date now (Some "32/13/2025") = Ok (Some "2025-13-32")
  /\ normalize_date now (Some "2024-13-45") = Ok (Some "2024-13-45")
  /\ parse_date now (Some "13/13/2025") = Ok None
  /\ parse_date now (Some "2024-13-45") = Ok None.
Proof.
  repeat split; eval_dates.
Qed.

(** C5, at the inputs where the code departs from it.  [normalize_date]
    reads "26 okt 2025", the example of its own day-first branch, in its
    month-first branch, as day 20 of October of the year 25, and reads the
    year after "22 sep." as absent; [parse_date] returns the dates written.
    Without a year both take the current year, or the previous one when the
    date would lie in the future; for 29 February before that day of a leap
    year [parse_date] does not parse. *)
Theorem day_first_dates :
  (forall now : datetime,
      normalize_date now (Some "26 okt 2025") = Ok (Some "0025-10-20")
      /\ parse_date now (Some "26 okt 2025") = Ok (Some (Datetime.mk 2025 10 26 0 0 0 0))
      /\ parse_date now (Some "22 sep. 2024") = Ok (Some (Datetime.mk 2024 9 22 0 0 0 0)))
  /\ normalize_date now0 (Some "22 sep. 2024") = Ok (Some "2025-09-22")
  /\ (parse_date now0 (Some "22 sep.") = Ok (Some (Datetime.mk 2025 9 22 0 0 0 0))
      /\ normalize_date now0 (Some "22 sep.") = Ok (Some "2025-09-22"))
  /\ (parse_date now0 (Some "22 dec") = Ok (Some (Datetime.mk 2024 12 22 0 0 0 0))
      /\ normalize_date now0 (Some "22 dec") = Ok (Some "2024-12-22"))
  /\ (parse_date now_leap (Some "29 feb") = Ok None
      /\ normalize_date now_leap (Some "29 feb") = Ok (Some "2023-02-29")).
Proof.
  split; [intros now; repeat split; eval_dates|].
  repeat split; vm_compute; reflexivity.
Qed.

(** ** The statements at sample inputs *)


Lemma search_all_empty_query_witness :
  all_space "   " = true
  /\ search_all true sample_scrapers "   " = ([EmptyQueryWarning], Ok []).
Proof.
  split; [reflexivity|].
  apply (search_all_empty_query true sample_scrapers "   "). reflexivity.
Defined.

Lemma filter_by_days_witness :
  filter_by_days now0 sample_results 7
  = Ok [("Blocket", [rega_undated; hegel_today]); ("HiFiShark", [hegel_copy])]
  /\ filter_by_days now0 sample_results 0 = Ok sample_results.
Proof.
  destruct (filter_by_days_spec now0 sample_results 7) as [_ H].
  destruct (H sample_cutoff) as (Heq & _ & _).
  - lia.
  - apply (bool_decide_unpack _). vm_compute. exact I.
  - vm_compute. reflexivity.
  - repeat constructor; intros _; eexists; vm_compute; reflexivity.
  - split.
    + rewrite Heq. vm_compute. reflexivity.
    + apply (filter_by_days_spec now0 sample_results 0). lia.
Defined.

(** C2 as stated fails where the filter raises instead of returning a
    mapping: for a window reaching before year 1, and for a posted date
    whose relative offset does. *)
Lemma filter_by_days_counterexample :
  truthy_opt (posted_date rega_undated) = false
  /\ filter_by_days now0 [("Blocket", [rega_undated])] 1000000
     = Raise (OverflowError "date value out of range")
  /\ filter_by_days now0 [("Blocket", [rega_undated; quad_ancient])] 7
     = Raise (OverflowError "date value out of range").
Proof.
  repeat split; vm_compute; reflexivity.
Qed.


Lemma dedup_idempotent_witness :
  signature hegel_copy ∈ seen_signatures (aggregate [sample_results])
  /\ aggregated_results (add_listing "Tradera" (aggregate [sample_results]) hegel_copy)
     = aggregated_results (aggregate [sample_results]).
Proof.
  assert (H : signature hegel_copy ∈ seen_signatures (aggregate [sample_results]))
    by (apply (bool_decide_unpack _); vm_compute; exact I).
  split; [exact H|].
  apply (dedup_idempotent sample_results sample_results). exact H.
Defined.

Lemma dedup_across_providers_witness :
  In ("Blocket", hegel_today) (all_listings (aggregated_results (aggregate [sample_results])))
  /\ signature hegel_copy = signature hegel_today
  /\ add_listing "HiFiShark" (aggregate [sample_results]) hegel_copy
     = aggregate [sample_results].
Proof.
  assert (H1 : In ("Blocket", hegel_today)
                  (all_listings (aggregated_results (aggregate [sample_results])))).
  { vm_compute. right. left. reflexivity. }
  assert (H2 : signature hegel_copy = signature hegel_today) by reflexivity.
  split; [exact H1 | split; [exact H2 |]].
  apply (proj2 (dedup_across_providers [sample_results]) "Blocket" hegel_today
               "HiFiShark" hegel_copy H1 H2).
Defined.

(** * Further properties of the code *)

(** ** The choice of providers *)

Lemma find_filter {A} (f : A -> bool) (l : list A) :
  find f l = head (List.filter f l).
Proof.
  induction l as [|x l IH]; simpl; [reflexivity|]. now destruct (f x).
Qed.

Lemma find_none_existsb {A} (f : A -> bool) (l : list A) :
  find f l = None <-> existsb f l = false.
Proof.
  induction l as [|x l IH]; simpl; [tauto|].
  destruct (f x); simpl; [split; discriminate | exact IH].
Qed.

Lemma sublist_List_filter {A} (f : A -> bool) (l : list A) :
  List.filter f l `sublist_of` l.
Proof.
  induction l as [|x l IH]; simpl; [constructor|].
  destruct (f x); [now apply sublist_skip | now apply sublist_cons].
Qed.

Lemma include_loop_spec (roster sites acc sel : list string) (warns : list init_warning) :
  include_loop roster sites acc = (sel, warns) ->
  NoDup acc ->
  NoDup sel
  /\ (forall k, In k sel ->
        In k acc
        \/ (In k roster /\ exists site, In site sites /\ match_site_name site k = true))
  /\ (length sel + length warns = length acc + length sites)%nat
  /\ (forall site, In (UnrecognizedSite site) warns -> In site sites).
Proof.
  revert acc sel warns. induction sites as [|site rest IH]; intros acc sel warns; simpl.
  - intros [= <- <-] Hnd. repeat split; auto; simpl; try lia; try tauto.
  - destruct (find _ roster) as [name|] eqn:Hf.
    + apply find_some in Hf as [Hin Hm]. apply andb_true_iff in Hm as [Hm Hnew].
      intros Hl Hnd.
      assert (Hnd' : NoDup (acc ++ [name])).
      { apply NoDup_app. split; [exact Hnd|]. split; [|apply NoDup_singleton].
        intros x Hx Hx'. apply list_elem_of_singleton in Hx'. subst x.
        apply negb_true_iff in Hnew.
        assert (str_in name acc = true) by (apply str_in_In; now apply list_elem_of_In).
        congruence. }
      destruct (IH _ _ _ Hl Hnd') as (H1 & H2 & H3 & H4).
      split; [exact H1|]. split; [|split].
      * intros k Hk. destruct (H2 k Hk) as [Ha | (Hr & s & Hs & Hms)].
        -- apply in_app_or in Ha as [Ha | [<- | []]]; [now left|].
           right. split; [exact Hin|]. exists site. split; [now left | exact Hm].
        -- right. split; [exact Hr|]. exists s. split; [now right | exact Hms].
      * rewrite length_app in H3. simpl in H3. lia.
      * intros s Hs. right. now apply H4.
    + destruct (include_loop roster rest acc) as [sel' warns'] eqn:Hl.
      intros [= <- <-] Hnd.
      destruct (IH _ _ _ Hl Hnd) as (H1 & H2 & H3 & H4).
      split; [exact H1|]. split; [|split].
      * intros k Hk. destruct (H2 k Hk) as [Ha | (Hr & s & Hs & Hms)]; [now left|].
        right. split; [exact Hr|]. exists s. split; [now right | exact Hms].
      * simpl. lia.
      * intros s [[= <-] | Hs]; [now left | right; now apply H4].
Qed.

(** X1. With [--include], every requested site adds one scraper or one
    warning: the scrapers chosen are distinct keys of the roster, each
    matched by a requested site, and their number and that of the warnings
    add up to the number of requested sites. *)
Theorem include_accounting (roster : list string) (site : string) (sites : list string)
        (exclude_sites : option (list string)) :
  let '(scrapers, warnings) :=
    select_scrapers roster (Some (site :: sites)) exclude_sites in
  NoDup scrapers
  /\ (forall k, In k scrapers ->
        In k roster /\ exists s, In s (site :: sites) /\ match_site_name s k = true)
  /\ (length scrapers + length warnings = length (site :: sites))%nat
  /\ (forall s, In (UnrecognizedSite s) warnings -> In s (site :: sites)).
Proof.
  unfold select_scrapers. cbn [truthy_list default from_option id].
  destruct (include_loop roster (site :: sites) []) as [sel warns] eqn:Hl.
  destruct (include_loop_spec _ _ _ _ _ Hl (NoDup_nil_2)) as (H1 & H2 & H3 & H4).
  split; [exact H1|]. split; [|split; [exact H3 | exact H4]].
  intros k Hk. destruct (H2 k Hk) as [[] | H]. exact H.
Qed.

Lemma exclude_loop_spec (roster sites : list string) (acc : gset string) :
  exclude_loop roster sites acc
  = (acc ∪ list_to_set (omap (fun site => find (match_site_name site) roster) sites),
     map UnrecognizedSite (unmatched roster sites)).
Proof.
  revert acc. induction sites as [|site rest IH]; intros acc; simpl.
  - f_equal. now rewrite (right_id_L ∅ (∪)).
  - unfold unmatched. simpl.
    destruct (find (match_site_name site) roster) as [name|] eqn:Hf.
    + rewrite IH. unfold unmatched.
      assert (He : existsb (match_site_name site) roster = true).
      { destruct (existsb (match_site_name site) roster) eqn:He; [reflexivity|].
        apply find_none_existsb in He. congruence. }
      rewrite He. simpl. f_equal.
      now rewrite (comm_L (∪) {[name]} acc), <- (assoc_L (∪)).
    + rewrite IH. apply find_none_existsb in Hf. rewrite Hf. simpl. reflexivity.
Qed.

(** X2. With [--exclude], the scrapers kept are those of the roster, in
    its order, that are not the first match of any excluded site; the
    warnings are for the sites that match no scraper, in the order given. *)
Theorem exclude_spec (roster : list string) (site : string) (sites : list string)
        (include_sites : option (list string)) :
  truthy_list include_sites = false ->
  let '(scrapers, warnings) :=
    select_scrapers roster include_sites (Some (site :: sites)) in
  scrapers `sublist_of` roster
  /\ (forall k, In k scrapers <->
        In k roster
        /\ forall s, In s (site :: sites) -> find (match_site_name s) roster <> Some k)
  /\ warnings = map UnrecognizedSite (unmatched roster (site :: sites)).
Proof.
  intros Hi. unfold select_scrapers. rewrite Hi. cbn [truthy_list default from_option id].
  rewrite exclude_loop_spec. split; [|split; [|reflexivity]].
  - apply sublist_List_filter.
  - intros k. rewrite filter_In, negb_true_iff, bool_decide_eq_false.
    rewrite elem_of_union, elem_of_list_to_set, list_elem_of_omap.
    split.
    + intros [Hr Hn]. split; [exact Hr|]. intros s Hs Hf. apply Hn. right.
      exists s. split; [now apply list_elem_of_In | exact Hf].
    + intros [Hr Hn]. split; [exact Hr|]. intros [He | (s & Hs & Hf)].
      * now apply not_elem_of_empty in He.
      * apply (Hn s); [now apply list_elem_of_In | exact Hf].
Qed.

Lemma find_ext {A} (f g : A -> bool) (l : list A) :
  (forall x, f x = g x) -> find f l = find g l.
Proof.
  intros H. induction l as [|x l IH]; simpl; [reflexivity|].
  rewrite H, IH. reflexivity.
Qed.

Lemma include_single (roster : list string) (site : string) :
  include_loop roster [site] []
  = match find (match_site_name site) roster with
    | Some k => ([k], [])
    | None => ([], [UnrecognizedSite site])
    end.
Proof.
  simpl. rewrite (find_ext _ (match_site_name site));
    [|intros x; simpl; apply andb_true_r].
  now destruct (find (match_site_name site) roster).
Qed.

Lemma remove_one_perm (roster : list string) (k : string) :
  NoDup roster -> In k roster ->
  k :: List.filter (fun n => negb (String.eqb n k)) roster ≡ₚ roster.
Proof.
  induction roster as [|x l IH]; simpl; [tauto|].
  intros [Hx Hnd]%NoDup_cons [-> | Hin].
  - rewrite String.eqb_refl. simpl. f_equal.
    rewrite forallb_filter_id; [reflexivity|].
    apply forallb_forall. intros y Hy. apply negb_true_iff, String.eqb_neq.
    intros ->. apply Hx. now apply list_elem_of_In.
  - destruct (String.eqb_spec x k) as [->|Hne]; simpl.
    + exfalso. apply Hx. now apply list_elem_of_In.
    + rewrite Permutation_swap. apply Permutation_skip. now apply IH.
Qed.

(** X3. For a site that matches a scraper, [--include] of that site and
    [--exclude] of that site divide the roster between them: the one keeps
    the first scraper the site matches, the other all the rest in order, and
    neither warns. *)
Theorem include_exclude_partition (roster : list string) (site k : string) :
  NoDup roster ->
  find (match_site_name site) roster = Some k ->
  select_scrapers roster (Some [site]) None = ([k], [])
  /\ select_scrapers roster None (Some [site])
     = (List.filter (fun n => negb (String.eqb n k)) roster, [])
  /\ k :: List.filter (fun n => negb (String.eqb n k)) roster ≡ₚ roster.
Proof.
  intros Hnd Hf. split; [|split].
  - unfold select_scrapers. cbn [truthy_list default from_option id].
    now rewrite include_single, Hf.
  - unfold select_scrapers. cbn [truthy_list default from_option id].
    rewrite exclude_loop_spec. unfold unmatched. simpl. rewrite Hf. simpl.
    assert (He : existsb (match_site_name site) roster = true).
    { destruct (existsb (match_site_name site) roster) eqn:He; [reflexivity|].
      apply find_none_existsb in He. congruence. }
    rewrite He. simpl. f_equal. apply List.filter_ext. intros n. f_equal.
    destruct (String.eqb_spec n k) as [->|Hne].
    + apply bool_decide_eq_true. apply elem_of_union_r, elem_of_union_l.
      now apply elem_of_singleton.
    + apply bool_decide_eq_false. rewrite !elem_of_union, elem_of_singleton.
      intros [He' | [He' | He']]; [|congruence|]; now apply not_elem_of_empty in He'.
  - apply remove_one_perm; [exact Hnd|]. now apply find_some in Hf.
Qed.

(** X4. Asking twice for a site that matches one scraper only includes the
    scraper once and reports the second request as an unrecognized site. *)
Theorem include_twice_warns (roster : list string) (site k : string)
        (exclude_sites : option (list string)) :
  List.filter (match_site_name site) roster = [k] ->
  select_scrapers roster (Some [site; site]) exclude_sites
  = ([k], [UnrecognizedSite site]).
Proof.
  intros Hf. unfold select_scrapers. cbn [truthy_list default from_option id].
  assert (Hm : forall n, In n roster -> match_site_name site n = true -> n = k).
  { intros n Hn Hmn.
    assert (Hin : In n (List.filter (match_site_name site) roster))
      by (apply filter_In; now split).
    rewrite Hf in Hin. now destruct Hin as [<- | []]. }
  cbn [include_loop].
  rewrite (find_ext _ (match_site_name site)); [|intros x; simpl; apply andb_true_r].
  rewrite find_filter, Hf. cbn [head app].
  assert (Hn : find (fun name => match_site_name site name && negb (str_in name [k]))
                    roster = None).
  { apply find_none_existsb. apply not_true_iff_false. intros He.
    apply existsb_exists in He as (n & Hn & Hb).
    apply andb_true_iff in Hb as [Hb1 Hb2]. rewrite (Hm n Hn Hb1) in Hb2.
    simpl in Hb2. now rewrite String.eqb_refl in Hb2. }
  now rewrite Hn.
Qed.

(** X5. Every site name of the help text, typed in any letter case, is
    recognized: alone after [--include] it chooses the scraper it stands
    for and nothing else, without a warning. *)
Theorem documented_sites_recognized (shown key site : string) :
  In (shown, key) documented_sites ->
  PyStr.lower site = PyStr.lower shown ->
  AudioSearch_init (Some [site]) None = ([key], []).
Proof.
  intros Hin Hl. unfold AudioSearch_init, select_scrapers.
  cbn [truthy_list default from_option id]. rewrite include_single.
  assert (Hf : find (match_site_name site) all_scrapers = Some key).
  { unfold match_site_name. rewrite Hl. clear Hl.
    unfold documented_sites in Hin. simpl in Hin.
    repeat (destruct Hin as [[= <- <-] | Hin]; [vm_compute; reflexivity|]).
    contradiction. }
  now rewrite Hf.
Qed.

(** ** Sorting by site and by price *)

Lemma key_compare_trans (a b c : sort_key) :
  key_compare a b <> Gt -> key_compare b c <> Gt ->
  key_compare a c = then_cmp (key_compare a b) (key_compare b c).
Proof.
  destruct a as [d1 s1|s1|p1], b as [d2 s2|s2|p2], c as [d3 s3|s3|p3];
    simpl; cbv [Z.compare Pos.compare Pos.compare_cont]; try congruence;
    try (intros H1 H2;
         repeat match goal with
                | H : context [xfloat_compare ?x ?y] |- _ => destruct (xfloat_compare x y)
                | H : context [str_compare ?x ?y] |- _ => destruct (str_compare x y)
                end; simpl in *; congruence).
  - intros H1 H2.
    assert (Hd1 : xfloat_compare d1 d2 <> Gt)
      by (destruct (xfloat_compare d1 d2); congruence).
    assert (Hd2 : xfloat_compare d2 d3 <> Gt)
      by (destruct (xfloat_compare d2 d3); congruence).
    rewrite (xfloat_compare_trans d1 d2 d3 Hd1 Hd2).
    destruct (xfloat_compare d1 d2), (xfloat_compare d2 d3); simpl; try congruence;
      try (now destruct (str_compare s2 s3)); try (now destruct (str_compare s1 s2)).
    apply (str_compare_trans s1 s2 s3 H1 H2).
  - apply str_compare_trans.
  - apply xfloat_compare_trans.
Qed.

Lemma key_compare_Eq_trans (a b k : sort_key) :
  key_compare a k = Eq -> key_compare b k = Eq -> key_compare a b = Eq.
Proof.
  intros Ha Hb.
  assert (Hkb : key_compare k b = Eq) by (rewrite key_compare_antisym, Hb; reflexivity).
  rewrite (key_compare_trans a k b); rewrite ?Ha, ?Hkb; [reflexivity | | ]; discriminate.
Qed.

Lemma insert_keyed_stable {A} (k0 : sort_key) (x : sort_key * A) (l : list (sort_key * A)) :
  List.filter (same_key k0) (insert_keyed x l) = List.filter (same_key k0) (x :: l).
Proof.
  induction l as [|y l IH]; [reflexivity|].
  cbn [insert_keyed]. destruct (key_lt (fst y) (fst x)) eqn:Hlt; [|reflexivity].
  cbn [List.filter] in *. rewrite IH.
  destruct (same_key k0 y) eqn:Hy, (same_key k0 x) eqn:Hx; try reflexivity.
  exfalso. unfold same_key in Hx, Hy. unfold key_lt in Hlt.
  destruct (key_compare (fst y) k0) eqn:Hyk; try discriminate.
  destruct (key_compare (fst x) k0) eqn:Hxk; try discriminate.
  rewrite (key_compare_Eq_trans _ _ _ Hyk Hxk) in Hlt. discriminate.
Qed.

(** The sort is stable: the items with a given key keep their order. *)
Lemma sort_keyed_stable {A} (k0 : sort_key) (l : list (sort_key * A)) :
  List.filter (same_key k0) (sort_keyed l) = List.filter (same_key k0) l.
Proof.
  induction l as [|x l IH]; [reflexivity|].
  cbn [sort_keyed fold_right]. fold (sort_keyed l).
  rewrite insert_keyed_stable. cbn [List.filter]. now rewrite IH.
Qed.



Lemma keys_of_total {A} (key : A -> result sort_key) (f : A -> sort_key) (l : list A) :
  (forall x, key x = Ok (f x)) -> keys_of key l = Ok (map (fun x => (f x, x)) l).
Proof.
  intros H. induction l as [|x l IH]; simpl; [reflexivity|]. now rewrite H, IH.
Qed.


Lemma filter_map_snd {A B} (f : B -> bool) (l : list (A * B)) :
  List.filter f (map snd l) = map snd (List.filter (fun x => f (snd x)) l).
Proof.
  induction l as [|x l IH]; simpl; [reflexivity|].
  destruct (f (snd x)); simpl; now rewrite IH.
Qed.

Lemma str_compare_Eq (a b : string) : str_compare a b = Eq <-> a = b.
Proof.
  unfold str_compare. destruct (String_as_OT.compare_spec a b) as [H|H|H].
  - tauto.
  - split; [discriminate|]. intros ->. now apply (StrictOrder_Irreflexive b) in H.
  - split; [discriminate|]. intros ->. now apply (StrictOrder_Irreflexive b) in H.
Qed.

Lemma sorted_output {A} (key : A -> result sort_key) (items : list A)
      (keyed : list (sort_key * A)) :
  keys_of key items = Ok keyed ->
  map snd (sort_keyed keyed) ≡ₚ items
  /\ Forall (fun kx => key (snd kx) = Ok (fst kx)) (sort_keyed keyed).
Proof.
  intros Hk. destruct (keys_of_spec _ _ _ Hk) as [Hm Hf]. split.
  - now rewrite sort_keyed_perm, Hm.
  - now rewrite sort_keyed_perm.
Qed.

(** X6. Sorting by site never fails.  The output is a permutation of the
    input in which the lower-cased provider names do not decrease, and the
    listings of one provider keep the order they had: the sort is stable. *)
Theorem sort_by_site_spec (timestamp : datetime -> option Q) (now : datetime)
        (items : list (string * ListingResult)) :
  exists out : list (string * ListingResult),
    sort_listings timestamp now BySite items = Ok out
    /\ out ≡ₚ items
    /\ (forall (i j : nat) (a b : string * ListingResult),
           (i < j)%nat -> out !! i = Some a -> out !! j = Some b ->
           str_compare (PyStr.lower (fst a)) (PyStr.lower (fst b)) <> Gt)
    /\ (forall site : string,
           List.filter (of_site site) out = List.filter (of_site site) items).
Proof.
  set (f := fun x : string * ListingResult => KeySite (PyStr.lower (fst x))).
  assert (Hk : keys_of (get_sort_key timestamp now BySite) items
               = Ok (map (fun x => (f x, x)) items)).
  { apply keys_of_total. now intros [n l]. }
  unfold sort_listings. rewrite Hk. cbn [mbind result_bind].
  destruct (sorted_output _ _ _ Hk) as [Hp Hf].
  eexists. split; [reflexivity|]. split; [exact Hp|]. split.
  - intros i j a b Hij Hi Hj.
    apply list_lookup_fmap_Some_1 in Hi as ([ka a'] & Ha & Hi).
    apply list_lookup_fmap_Some_1 in Hj as ([kb b'] & Hb & Hj).
    simpl in Ha, Hb. subst a' b'.
    pose proof (StronglySorted_lookup _ _ i j _ _ (sort_keyed_sorted _) Hij Hi Hj) as Hle.
    rewrite Forall_forall in Hf.
    pose proof (Hf _ (list_elem_of_lookup_2 _ _ _ Hi)) as Hka.
    pose proof (Hf _ (list_elem_of_lookup_2 _ _ _ Hj)) as Hkb.
    destruct a as [na la], b as [nb lb]. simpl in Hka, Hkb, Hle.
    injection Hka as <-. injection Hkb as <-. exact Hle.
  - intros site. rewrite filter_map_snd.
    rewrite (List.filter_ext_in _ (same_key (KeySite (PyStr.lower site)))).
    + rewrite sort_keyed_stable. rewrite List.filter_map_swap.
      rewrite map_map. simpl. rewrite map_id.
      apply List.filter_ext. intros [n l]. unfold same_key, of_site. simpl.
      destruct (String.eqb_spec (PyStr.lower n) (PyStr.lower site)) as [He|Hne].
      * rewrite He, str_compare_refl. reflexivity.
      * destruct (str_compare (PyStr.lower n) (PyStr.lower site)) eqn:Hc;
          [apply str_compare_Eq in Hc; contradiction | reflexivity | reflexivity].
    + intros [k [n l]] Hin. rewrite Forall_forall in Hf.
      apply list_elem_of_In in Hin. specialize (Hf _ Hin). simpl in Hf.
      injection Hf as <-. unfold same_key, of_site. simpl.
      destruct (String.eqb_spec (PyStr.lower n) (PyStr.lower site)) as [He|Hne].
      * rewrite He, str_compare_refl. reflexivity.
      * destruct (str_compare (PyStr.lower n) (PyStr.lower site)) eqn:Hc;
          [apply str_compare_Eq in Hc; contradiction | reflexivity | reflexivity].
Qed.



(** ** What the aggregation loop computes *)

Lemma dict_get_set_same {V} (k : string) (v : V) (d : dict V) :
  dict_get k (dict_set k v d) = Some v.
Proof.
  induction d as [|[k' v'] d IH]; simpl.
  - now rewrite String.eqb_refl.
  - destruct (String.eqb_spec k k') as [->|Hne]; simpl.
    + now rewrite String.eqb_refl.
    + apply String.eqb_neq in Hne. now rewrite Hne.
Qed.

Lemma dict_get_set_other {V} (k k' : string) (v : V) (d : dict V) :
  k' <> k -> dict_get k' (dict_set k v d) = dict_get k' d.
Proof.
  intros Hne. induction d as [|[k0 v0] d IH]; simpl.
  - apply String.eqb_neq in Hne. now rewrite Hne.
  - destruct (String.eqb_spec k k0) as [->|Hk]; simpl.
    + apply String.eqb_neq in Hne. now rewrite Hne.
    + now rewrite IH.
Qed.

Lemma bucket_setdefault (site site' : string) (agg : results_t) :
  bucket site' (setdefault_bucket site agg) = bucket site' agg.
Proof.
  unfold bucket, setdefault_bucket. destruct (dict_get site agg) eqn:H; [reflexivity|].
  destruct (String.eqb_spec site' site) as [->|Hne].
  - now rewrite dict_get_set_same, H.
  - now rewrite dict_get_set_other.
Qed.

Lemma bucket_bucket_append (site site' : string) (x : ListingResult) (agg : results_t) :
  bucket site' (bucket_append site x agg)
  = bucket site' agg ++ (if String.eqb site site' then [x] else []).
Proof.
  unfold bucket, bucket_append. destruct (String.eqb_spec site site') as [->|Hne].
  - now rewrite dict_get_set_same.
  - rewrite dict_get_set_other by congruence. now rewrite app_nil_r.
Qed.

Lemma listings_of_cons (site : string) (item : string * ListingResult)
      (items : list (string * ListingResult)) :
  listings_of site (item :: items)
  = (if String.eqb (fst item) site then [snd item] else []) ++ listings_of site items.
Proof. unfold listings_of. simpl. now destruct (String.eqb (fst item) site). Qed.

Lemma dedup_from_app (seen : gset string) (a b : list (string * ListingResult)) :
  dedup_from seen (a ++ b)
  = dedup_from seen a ++ dedup_from (signatures_of a ∪ seen) b.
Proof.
  revert seen. induction a as [|x a IH]; intros seen; simpl.
  - f_equal. unfold signatures_of. simpl. now rewrite (left_id_L ∅ (∪)).
  - unfold signatures_of in *. simpl.
    destruct (decide (signature (snd x) ∈ seen)) as [Hin|Hout].
    + rewrite IH. do 2 f_equal. apply set_eq. intros y.
      rewrite !elem_of_union, elem_of_singleton. split; [tauto|].
      intros [[-> | H] | H]; tauto.
    + simpl. rewrite IH. do 3 f_equal. apply set_eq. intros y.
      rewrite !elem_of_union, elem_of_singleton. tauto.
Qed.

Lemma listings_of_app (site : string) (a b : list (string * ListingResult)) :
  listings_of site (a ++ b) = listings_of site a ++ listings_of site b.
Proof. unfold listings_of. now rewrite List.filter_app, map_app. Qed.

(** One provider's listings, added to a session. *)
Lemma fold_add_listing_spec (site : string) (ls : list ListingResult) (st : session) :
  let st' := fold_left (add_listing site) ls st in
  (forall site', bucket site' (aggregated_results st')
                 = bucket site' (aggregated_results st)
                   ++ listings_of site' (dedup_from (seen_signatures st)
                                                   (map (pair site) ls)))
  /\ seen_signatures st'
     = signatures_of (map (pair site) ls) ∪ seen_signatures st.
Proof.
  revert st. induction ls as [|x ls IH]; intros st; simpl.
  - split; [intros; now rewrite app_nil_r|].
    unfold signatures_of. simpl. now rewrite (left_id_L ∅ (∪)).
  - destruct (IH (add_listing site st x)) as [Hb Hs]. split.
    + intros site'. rewrite Hb. unfold add_listing.
      destruct (decide (signature x ∈ seen_signatures st)) as [Hin|Hout]; [reflexivity|].
      simpl. rewrite bucket_bucket_append, listings_of_cons, <- app_assoc. reflexivity.
    + rewrite Hs. unfold add_listing, signatures_of. simpl.
      destruct (decide (signature x ∈ seen_signatures st)) as [Hin|Hout]; simpl;
        apply set_eq; intros y; rewrite !elem_of_union, elem_of_singleton;
        [split; [tauto | intros [[-> | H] | H]; tauto] | tauto].
Qed.

Lemma add_results_spec (results : results_t) (st : session) :
  let st' := add_results st results in
  (forall site', bucket site' (aggregated_results st')
                 = bucket site' (aggregated_results st)
                   ++ listings_of site' (dedup_from (seen_signatures st)
                                                   (all_listings results)))
  /\ seen_signatures st' = signatures_of (all_listings results) ∪ seen_signatures st.
Proof.
  unfold add_results. revert st.
  induction results as [|[site ls] r IH]; intros st; cbn [fold_left].
  - split; [intros; simpl; now rewrite app_nil_r|].
    unfold signatures_of. simpl. now rewrite (left_id_L ∅ (∪)).
  - destruct (IH (add_site st (site, ls))) as [Hb Hs].
    unfold add_site in Hb, Hs |- *.
    match type of Hs with
    | context [fold_left (add_listing site) ls ?s0] =>
        destruct (fold_add_listing_spec site ls s0) as [Hb1 Hs1]
    end.
    cbn [aggregated_results seen_signatures] in Hb1, Hs1.
    change (all_listings ((site, ls) :: r)) with (map (pair site) ls ++ all_listings r).
    split.
    + intros site'. rewrite Hb, Hb1, bucket_setdefault, Hs1.
      rewrite dedup_from_app, listings_of_app, <- app_assoc. reflexivity.
    + rewrite Hs, Hs1. unfold signatures_of. rewrite map_app, list_to_set_app_L.
      apply set_eq. intros y. rewrite !elem_of_union. tauto.
Qed.

Lemma aggregate_from_spec (per_variant : list results_t) (st : session) :
  let st' := aggregate_from st per_variant in
  (forall site', bucket site' (aggregated_results st')
                 = bucket site' (aggregated_results st)
                   ++ listings_of site' (dedup_from (seen_signatures st)
                                                   (returned per_variant)))
  /\ seen_signatures st' = signatures_of (returned per_variant) ∪ seen_signatures st.
Proof.
  unfold aggregate_from, returned. revert st.
  induction per_variant as [|r rs IH]; intros st; cbn [fold_left flat_map].
  - split; [intros; simpl; now rewrite app_nil_r|].
    unfold signatures_of. simpl. now rewrite (left_id_L ∅ (∪)).
  - destruct (IH (add_results st r)) as [Hb Hs].
    destruct (add_results_spec r st) as [Hb1 Hs1]. split.
    + intros site'. rewrite Hb, Hb1, Hs1.
      rewrite dedup_from_app, listings_of_app, <- app_assoc. reflexivity.
    + rewrite Hs, Hs1. unfold signatures_of. rewrite map_app, list_to_set_app_L.
      apply set_eq. intros y. rewrite !elem_of_union. tauto.
Qed.

(** X9. What a session retains.  The bucket of every provider holds, in
    the order in which the loops met them, exactly the listings returned
    under that provider that were the first of the whole session with their
    signature; and the signatures seen are those of everything returned. *)
Theorem aggregate_first_seen (per_variant : list results_t) :
  (forall site : string,
      bucket site (aggregated_results (aggregate per_variant))
      = listings_of site (first_seen (returned per_variant)))
  /\ seen_signatures (aggregate per_variant) = signatures_of (returned per_variant).
Proof.
  destruct (aggregate_from_spec per_variant new_session) as [Hb Hs]. split.
  - intros site. apply Hb.
  - unfold aggregate. rewrite Hs. simpl. now rewrite (right_id_L ∅ (∪)).
Qed.

Lemma session_within_add_listing (items : list (string * ListingResult))
      (site : string) (st : session) (x : ListingResult) :
  session_within items st -> In (site, x) items ->
  session_within items (add_listing site st x).
Proof.
  intros [Hin Hseen] Hx. unfold add_listing.
  destruct (decide (signature x ∈ seen_signatures st)) as [Hs|Hs]; [now split|].
  split; simpl.
  - intros item Hi. apply list_elem_of_In in Hi.
    rewrite all_listings_bucket_append in Hi.
    apply elem_of_cons in Hi as [-> | Hi]; [exact Hx|].
    apply Hin. now apply list_elem_of_In.
  - intros sig Hsig. unfold retained_signatures. simpl.
    apply list_elem_of_In. rewrite all_listings_bucket_append. simpl.
    apply elem_of_union in Hsig as [Hsig | Hsig].
    + apply elem_of_singleton in Hsig. subst. apply list_elem_of_here.
    + apply list_elem_of_further. apply list_elem_of_In. now apply Hseen.
Qed.

Lemma session_within_add_results (items : list (string * ListingResult))
      (results : results_t) (st : session) :
  session_within items st ->
  (forall item, In item (all_listings results) -> In item items) ->
  session_within items (add_results st results).
Proof.
  unfold add_results. revert st.
  induction results as [|[site ls] r IH]; intros st Hst Hr; cbn [fold_left];
    [exact Hst|].
  apply IH.
  - unfold add_site.
    assert (H0 : session_within items
                   {| aggregated_results := setdefault_bucket site (aggregated_results st);
                      seen_signatures := seen_signatures st |}).
    { destruct Hst as [H1 H2]. split; simpl.
      - now rewrite all_listings_setdefault.
      - unfold retained_signatures. simpl. now rewrite all_listings_setdefault. }
    assert (Hls : forall x, In x ls -> In (site, x) items).
    { intros x Hx. apply Hr. unfold all_listings. simpl. apply in_or_app. left.
      now apply in_map. }
    clear Hst Hr IH. revert H0 Hls.
    generalize {| aggregated_results := setdefault_bucket site (aggregated_results st);
                  seen_signatures := seen_signatures st |}.
    induction ls as [|x ls IHl]; intros s0 H0 Hls; simpl; [exact H0|].
    apply IHl.
    + apply session_within_add_listing; [exact H0 | apply Hls; now left].
    + intros y Hy. apply Hls. now right.
  - intros item Hi. apply Hr. unfold all_listings. simpl. apply in_or_app. now right.
Qed.

Lemma session_within_aggregate (per_variant : list results_t) :
  session_within (returned per_variant) (aggregate per_variant).
Proof.
  unfold aggregate, aggregate_from.
  assert (H : forall items st,
             session_within items st ->
             (forall item, In item (returned per_variant) -> In item items) ->
             session_within items (fold_left add_results per_variant st)).
  { induction per_variant as [|r rs IH]; intros items st Hst Hi; cbn [fold_left];
      [exact Hst|].
    apply IH.
    - apply session_within_add_results; [exact Hst|].
      intros item Hin. apply Hi. unfold returned. simpl. apply in_or_app. now left.
    - intros item Hin. apply Hi. unfold returned. simpl. apply in_or_app. now right. }
  apply H; [|auto].
  split; [intros item [] | intros sig Hs; now apply not_elem_of_empty in Hs].
Qed.

(** X10. Nothing is lost and nothing is made up.  Every listing retained
    under a provider was returned under that provider, and a signature is
    among the retained ones exactly when some provider returned a listing
    with it. *)
Theorem aggregate_sound_complete (per_variant : list results_t) :
  (forall item : string * ListingResult,
      In item (all_listings (aggregated_results (aggregate per_variant))) ->
      In item (returned per_variant))
  /\ (forall sig : string,
         In sig (retained_signatures (aggregate per_variant))
         <-> exists item, In item (returned per_variant) /\ signature (snd item) = sig).
Proof.
  destruct (session_within_aggregate per_variant) as [Hin Hseen].
  assert (Hs : seen_signatures (aggregate per_variant)
               = signatures_of (returned per_variant)).
  { destruct (aggregate_from_spec per_variant new_session) as [_ Hs].
    unfold aggregate. rewrite Hs. simpl. now rewrite (right_id_L ∅ (∪)). }
  split; [exact Hin|]. intros sig. split.
  - unfold retained_signatures. intros H. apply in_map_iff in H as (item & <- & Hi).
    exists item. split; [now apply Hin | reflexivity].
  - intros (item & Hi & <-). apply Hseen. rewrite Hs. unfold signatures_of.
    apply elem_of_list_to_set. apply list_elem_of_In.
    now apply (in_map (fun it => signature (snd it))).
Qed.

Lemma str_in_keys {V} (k : string) (d : dict V) :
  str_in k (keys d) = match dict_get k d with Some _ => true | None => false end.
Proof.
  induction d as [|[k' v'] d IH]; simpl; [reflexivity|].
  destruct (String.eqb k k'); simpl; [reflexivity | exact IH].
Qed.

Lemma keys_setdefault (site : string) (agg : results_t) :
  keys (setdefault_bucket site agg) = add_key (keys agg) site.
Proof.
  unfold setdefault_bucket, add_key. rewrite str_in_keys.
  destruct (dict_get site agg) eqn:H; [reflexivity|].
  rewrite keys_dict_set. now rewrite H.
Qed.

Lemma keys_add_listing (site : string) (st : session) (x : ListingResult) :
  In site (keys (aggregated_results st)) ->
  keys (aggregated_results (add_listing site st x)) = keys (aggregated_results st).
Proof.
  intros Hin. unfold add_listing. destruct (decide _); [reflexivity|]. simpl.
  unfold bucket_append. rewrite keys_dict_set.
  apply dict_get_is_Some in Hin as [b ->]. reflexivity.
Qed.

Lemma keys_fold_add_listing (site : string) (ls : list ListingResult) (st : session) :
  In site (keys (aggregated_results st)) ->
  keys (aggregated_results (fold_left (add_listing site) ls st))
  = keys (aggregated_results st).
Proof.
  revert st. induction ls as [|x ls IH]; intros st Hin; simpl; [reflexivity|].
  rewrite IH; [now apply keys_add_listing|]. now rewrite keys_add_listing.
Qed.

Lemma keys_add_site (st : session) (site : string) (ls : list ListingResult) :
  keys (aggregated_results (add_site st (site, ls)))
  = add_key (keys (aggregated_results st)) site.
Proof.
  unfold add_site. rewrite keys_fold_add_listing; simpl.
  - apply keys_setdefault.
  - unfold setdefault_bucket. destruct (dict_get site (aggregated_results st)) eqn:H.
    + apply dict_get_Some_In in H. now apply (in_map fst) in H.
    + apply keys_dict_set_self.
Qed.

Lemma add_key_NoDup (ks : list string) (k : string) : NoDup ks -> NoDup (add_key ks k).
Proof.
  intros H. unfold add_key. destruct (str_in k ks) eqn:Hk; [exact H|].
  apply NoDup_app. split; [exact H|]. split; [|apply NoDup_singleton].
  intros x Hx Hx'. apply list_elem_of_singleton in Hx'. subst x.
  apply list_elem_of_In, str_in_In in Hx. congruence.
Qed.

Lemma aggregate_from_keys (per_variant : list results_t) (st : session) :
  keys (aggregated_results (aggregate_from st per_variant))
  = fold_left add_key (flat_map keys per_variant) (keys (aggregated_results st)).
Proof.
  unfold aggregate_from. revert st.
  induction per_variant as [|r rs IH]; intros st; cbn [fold_left flat_map];
    [reflexivity|].
  rewrite IH, fold_left_app. f_equal. clear IH. unfold add_results. revert st.
  induction r as [|[site ls] r IHr]; intros st; cbn [fold_left]; [reflexivity|].
  rewrite IHr, keys_add_site. reflexivity.
Qed.

(** X11. The providers of the aggregate are those of the results, each
    once, in the order in which the session first met them. *)
Theorem aggregate_keys (per_variant : list results_t) :
  keys (aggregated_results (aggregate per_variant))
  = first_keys (flat_map keys per_variant)
  /\ NoDup (keys (aggregated_results (aggregate per_variant))).
Proof.
  split.
  - apply (aggregate_from_keys per_variant new_session).
  - unfold aggregate. rewrite aggregate_from_keys. simpl.
    assert (Hnd : forall l acc, NoDup acc -> NoDup (fold_left add_key l acc)).
    { induction l as [|k l IHl]; intros acc Ha; simpl; [exact Ha|].
      apply IHl. now apply add_key_NoDup. }
    apply Hnd. apply NoDup_nil_2.
Qed.

(** ** From the search term to the aggregate *)

Lemma expand_search_term_eq (term : string) :
  expand_search_term term
  = term :: default [] (SYNONYMS !! PyStr.lower (PyStr.strip term)).
Proof.
  unfold expand_search_term.
  destruct (PyStr.truthy (PyStr.lower (PyStr.strip term))) eqn:Ht; simpl.
  - destruct (SYNONYMS !! PyStr.lower (PyStr.strip term)) as [syns|] eqn:Hs; simpl.
    + apply (append_new_fresh syns [term]). now apply SYNONYMS_fresh.
    + reflexivity.
  - apply truthy_false in Ht. rewrite Ht. reflexivity.
Qed.

(** No synonym of the table is blank. *)
Lemma SYNONYMS_not_blank (k s : string) (syns : list string) :
  SYNONYMS !! k = Some syns -> In s syns -> PyStr.strip s <> "".
Proof.
  intros H%SYNONYMS_lookup Hs. unfold SYNONYMS_items in H. simpl in H.
  repeat (destruct H as [H | H]; [injection H as <- <-|]); try contradiction;
    simpl in Hs;
    repeat (destruct Hs as [<- | Hs]; [vm_compute; discriminate|]);
    contradiction.
Qed.

(** X12. A blank search term is not expanded and reaches no provider: the
    whole run for it is one warning and an empty aggregate. *)
Theorem aggregate_term_blank (debug : bool) (scrapers : list Scraper) (term : string) :
  all_space term = true ->
  expand_search_term term = [term]
  /\ aggregate_term debug scrapers term = ([EmptyQueryWarning], Ok []).
Proof.
  intros H.
  assert (He : expand_search_term term = [term]).
  { unfold expand_search_term. now rewrite (strip_all_space term H). }
  split; [exact He|].
  unfold aggregate_term. rewrite He. cbn [length Nat.ltb Nat.leb aggregate_variants].
  unfold search_all. rewrite (strip_all_space term H), orb_true_r. reflexivity.
Qed.

Lemma search_all_dispatched (debug : bool) (scrapers : list Scraper) (query : string) :
  PyStr.strip query <> "" ->
  NoDup (map name scrapers) ->
  Forall (fun s => ordinary (search s (PyStr.strip query))) scrapers ->
  snd (search_all debug scrapers query) = Ok (dispatched scrapers query).
Proof.
  intros Hq Hnd Hord. unfold search_all. rewrite (not_stripped_empty _ Hq).
  rewrite (await_all_ordinary debug query scrapers [] Hq Hord).
  rewrite (fold_dict_set_fresh _ scrapers []) by exact Hnd. reflexivity.
Qed.

Lemma aggregate_variants_dispatched (debug : bool) (scrapers : list Scraper)
      (variants : list string) (st : session) :
  NoDup (map name scrapers) ->
  (forall v, In v variants ->
             PyStr.strip v <> ""
             /\ Forall (fun s => ordinary (search s (PyStr.strip v))) scrapers) ->
  snd (aggregate_variants debug scrapers variants st)
  = Ok (aggregate_from st (map (dispatched scrapers) variants)).
Proof.
  intros Hnd. revert st. induction variants as [|v vs IH]; intros st Hv; simpl.
  - reflexivity.
  - destruct (Hv v (or_introl eq_refl)) as [Hq Hord].
    pose proof (search_all_dispatched debug scrapers v Hq Hnd Hord) as Hs.
    destruct (search_all debug scrapers v) as [evs r]. simpl in Hs. subst r.
    specialize (IH (add_results st (dispatched scrapers v))
                   (fun v' Hin => Hv v' (or_intror Hin))).
    destruct (aggregate_variants debug scrapers vs
                (add_results st (dispatched scrapers v))) as [evs' r'].
    exact IH.
Qed.

Lemma fold_add_key_fresh (l acc : list string) :
  NoDup (acc ++ l) -> fold_left add_key l acc = acc ++ l.
Proof.
  revert acc. induction l as [|k l IH]; intros acc Hnd; simpl.
  - now rewrite app_nil_r.
  - assert (Hk : str_in k acc = false).
    { apply not_true_iff_false. intros Hin%str_in_In.
      apply NoDup_app in Hnd as (_ & Hd & _).
      apply (Hd k); [now apply list_elem_of_In | left]. }
    unfold add_key at 2. rewrite Hk, IH; rewrite <- app_assoc; [reflexivity | exact Hnd].
Qed.

Lemma fold_add_key_present (l acc : list string) :
  (forall k, In k l -> In k acc) -> fold_left add_key l acc = acc.
Proof.
  induction l as [|k l IH]; intros H; simpl; [reflexivity|].
  unfold add_key at 2.
  assert (Hk : str_in k acc = true) by (apply str_in_In, H; now left).
  rewrite Hk. apply IH. intros k' Hk'. apply H. now right.
Qed.

(** X13. A search term that is not blank, with providers of distinct names
    none of which aborts the dispatch of any variant: the run returns the
    aggregate of what the dispatches of the variants leave, and its
    providers are the enabled ones, in their order. *)
Theorem aggregate_term_dispatched (debug : bool) (scrapers : list Scraper) (term : string) :
  PyStr.strip term <> "" ->
  NoDup (map name scrapers) ->
  (forall v, In v (expand_search_term term) ->
             Forall (fun s => ordinary (search s (PyStr.strip v))) scrapers) ->
  snd (aggregate_term debug scrapers term)
  = Ok (aggregated_results
          (aggregate (map (dispatched scrapers) (expand_search_term term))))
  /\ keys (aggregated_results
             (aggregate (map (dispatched scrapers) (expand_search_term term))))
     = map name scrapers.
Proof.
  intros Hq Hnd Hord.
  assert (Hv : forall v, In v (expand_search_term term) ->
               PyStr.strip v <> ""
               /\ Forall (fun s => ordinary (search s (PyStr.strip v))) scrapers).
  { intros v Hin. split; [|now apply Hord].
    rewrite expand_search_term_eq in Hin. destruct Hin as [<- | Hin]; [exact Hq|].
    destruct (SYNONYMS !! PyStr.lower (PyStr.strip term)) as [syns|] eqn:Hs;
      [|destruct Hin].
    now apply (SYNONYMS_not_blank _ v syns Hs). }
  split.
  - unfold aggregate_term.
    pose proof (aggregate_variants_dispatched debug scrapers
                  (expand_search_term term) new_session Hnd Hv) as Ha.
    destruct (aggregate_variants debug scrapers (expand_search_term term) new_session)
      as [evs r]. simpl in Ha. subst r. reflexivity.
  - pose proof (aggregate_from_keys (map (dispatched scrapers) (expand_search_term term))
                                    new_session) as Hk.
    fold (aggregate (map (dispatched scrapers) (expand_search_term term))) in Hk.
    rewrite Hk. change (keys (aggregated_results new_session)) with (@nil string).
    fold (first_keys (flat_map keys (map (dispatched scrapers) (expand_search_term term)))).
    rewrite expand_search_term_eq. cbn [map flat_map].
    unfold first_keys. rewrite fold_left_app.
    assert (Hkeys : forall v, keys (dispatched scrapers v) = map name scrapers).
    { intros v. unfold keys, dispatched. now rewrite map_map. }
    rewrite Hkeys, (fold_add_key_fresh (map name scrapers) []) by exact Hnd.
    apply fold_add_key_present. intros k Hin.
    apply in_flat_map in Hin as (r & Hr & Hin).
    apply in_map_iff in Hr as (v & <- & _). now rewrite Hkeys in Hin.
Qed.

(** ** Debugging output *)

Lemma filter_not_debug_log (debug : bool) (line : debug_line) :
  List.filter (fun ev => negb (is_debug ev)) (log_debug debug line) = [].
Proof. now destruct debug. Qed.

Lemma await_all_debug (tasks : list (string * (list event * awaited)))
      (results : results_t) :
  Forall (fun t => Forall (fun ev => is_debug ev = false) (fst (snd t))) tasks ->
  snd (await_all true tasks results) = snd (await_all false tasks results)
  /\ List.filter (fun ev => negb (is_debug ev)) (fst (await_all true tasks results))
     = fst (await_all false tasks results)
  /\ Forall (fun ev => is_debug ev = false) (fst (await_all false tasks results)).
Proof.
  intros Ht. revert results.
  induction Ht as [|[n [tev state]] tasks Hx Hl IH]; intros results.
  - simpl. repeat split; constructor.
  - simpl in Hx.
    assert (Hid : List.filter (fun ev => negb (is_debug ev)) tev = tev).
    { apply forallb_filter_id. apply forallb_forall. intros ev Hev.
      rewrite Forall_forall in Hx. apply list_elem_of_In in Hev.
      now rewrite (Hx ev Hev). }
    assert (Hstep : forall (d1 d0 evs : list event) (r : results_t),
               List.filter (fun ev => negb (is_debug ev)) d1 = [] ->
               Forall (fun ev => is_debug ev = false) evs ->
               snd (let '(evs', x) := await_all true tasks r in
                    (([Debug (DWaiting n)] ++ tev) ++ (d1 ++ evs) ++ evs', x))
               = snd (let '(evs', x) := await_all false tasks r in
                      (([] ++ tev) ++ evs ++ evs', x))
               /\ List.filter (fun ev => negb (is_debug ev))
                    (fst (let '(evs', x) := await_all true tasks r in
                          (([Debug (DWaiting n)] ++ tev) ++ (d1 ++ evs) ++ evs', x)))
                  = fst (let '(evs', x) := await_all false tasks r in
                         (([] ++ tev) ++ evs ++ evs', x))
               /\ Forall (fun ev => is_debug ev = false)
                         (fst (let '(evs', x) := await_all false tasks r in
                               (([] ++ tev) ++ evs ++ evs', x)))).
    { intros d1 d0 evs r Hd1 Hevs. destruct (IH r) as (H1 & H2 & H3).
      destruct (await_all true tasks r) as [e1 r1].
      destruct (await_all false tasks r) as [e0 r0].
      simpl in H1, H2, H3 |- *. subst r1. split; [reflexivity|]. split.
      - rewrite !List.filter_app, Hid, Hd1, H2. simpl.
        f_equal. f_equal. apply forallb_filter_id. apply forallb_forall.
        intros ev Hev. rewrite Forall_forall in Hevs.
        apply list_elem_of_In in Hev. now rewrite (Hevs ev Hev).
      - rewrite !Forall_app. repeat split; assumption. }
    cbn [await_all log_debug].
    destruct state as [l|e|].
    + apply (Hstep [Debug (DReturned n (length l))] [] []); [reflexivity | constructor].
    + destruct (String.eqb (exn_type e) "TimeoutError").
      * apply (Hstep [] [] [TimeoutWarning n]); [reflexivity | repeat constructor].
      * destruct (is_Exception e).
        -- apply (Hstep [] [] [TaskError n (exn_type e) (exn_message e); Traceback e]);
             [reflexivity | repeat constructor].
        -- simpl. split; [reflexivity|]. split; [exact Hid | exact Hx].
    + apply (Hstep [] [] [TimeoutWarning n]); [reflexivity | repeat constructor].
Qed.

(** X14. Debugging changes nothing but the debug lines: with it on or off
    a dispatch returns the same mapping (or raises the same exception) and
    prints the same warnings and errors in the same order, and with it off
    no debug line is printed. *)
Theorem debug_only_adds_lines (scrapers : list Scraper) (query : string) :
  snd (search_all true scrapers query) = snd (search_all false scrapers query)
  /\ List.filter (fun ev => negb (is_debug ev)) (fst (search_all true scrapers query))
     = fst (search_all false scrapers query)
  /\ Forall (fun ev => is_debug ev = false) (fst (search_all false scrapers query)).
Proof.
  unfold search_all.
  destruct (negb (PyStr.truthy query) || negb (PyStr.truthy (PyStr.strip query))).
  - simpl. repeat split. repeat constructor.
  - set (tasks := map (fun scraper =>
                         (name scraper, _search_scraper scraper (PyStr.strip query)))
                      scrapers).
    assert (Ht : Forall (fun t => Forall (fun ev => is_debug ev = false) (fst (snd t)))
                        tasks).
    { unfold tasks. apply Forall_forall. intros t Hin.
      apply list_elem_of_In, in_map_iff in Hin as (s & <- & _). simpl.
      unfold _search_scraper.
      destruct (negb (PyStr.truthy (PyStr.strip query))
                || negb (PyStr.truthy (PyStr.strip (PyStr.strip query))));
        [constructor|].
      destruct (search s (PyStr.strip query)) as [l|e|]; try constructor.
      destruct (String.eqb (exn_type e) "KeyboardInterrupt"); [constructor|].
      destruct (is_Exception e); repeat constructor. }
    destruct (await_all_debug tasks [] Ht) as (H1 & H2 & H3).
    destruct (await_all true tasks []) as [e1 r1].
    destruct (await_all false tasks []) as [e0 r0].
    simpl in H1, H2, H3 |- *. subst r1. split; [reflexivity|]. split.
    + rewrite List.filter_app. simpl.
      assert (Hc : List.filter (fun ev => negb (is_debug ev))
                     (flat_map (fun scraper => [Debug (DCreating (name scraper))])
                               scrapers) = []).
      { clear. induction scrapers as [|x l IH]; simpl; [reflexivity | exact IH]. }
      rewrite Hc. simpl. rewrite H2.
      assert (Hn : flat_map (fun scraper : Scraper => @nil event) scrapers = []).
      { clear. induction scrapers as [|x l IH]; simpl; [reflexivity | exact IH]. }
      now rewrite Hn.
    + assert (Hn : flat_map (fun scraper : Scraper => @nil event) scrapers = []).
      { clear. induction scrapers as [|x l IH]; simpl; [reflexivity | exact IH]. }
      rewrite Hn. exact H3.
Qed.

(** ** More on the recency filter *)

Lemma filter_listings_inv (now cutoff : datetime) (l l' : list ListingResult) :
  filter_listings now cutoff l = Ok l' ->
  l' `sublist_of` l /\ filter_listings now cutoff l' = Ok l'.
Proof.
  revert l'. induction l as [|x l IH]; intros l'; simpl.
  - intros [= <-]. split; [constructor | reflexivity].
  - destruct (keep_listing now cutoff x) as [b|e] eqn:Hk; [|discriminate]. simpl.
    destruct (filter_listings now cutoff l) as [f|e]; [|discriminate]. simpl.
    intros [= <-]. destruct (IH f eq_refl) as [Hs Hf]. destruct b.
    + split; [now apply sublist_skip|]. simpl. now rewrite Hk, Hf.
    + split; [now apply sublist_cons | exact Hf].
Qed.

(** What [filter_entries] builds when it returns. *)
Lemma filter_entries_inv (now cutoff : datetime) (entries acc out : results_t) :
  NoDup (keys acc ++ keys entries) ->
  filter_entries now cutoff entries acc = Ok out ->
  exists filtered,
    out = acc ++ filtered
    /\ Forall2 (fun e e' => fst e' = fst e
                            /\ filter_listings now cutoff (snd e) = Ok (snd e'))
               entries filtered.
Proof.
  revert acc out. induction entries as [|[site l] entries IH]; intros acc out Hnd; simpl.
  - intros [= <-]. exists []. split; [now rewrite app_nil_r | constructor].
  - destruct (filter_listings now cutoff l) as [f|e] eqn:Hf; [|discriminate]. simpl.
    assert (Hs : ~ In site (keys acc)).
    { apply NoDup_app in Hnd as (_ & Hdisj & _). intros Hin.
      apply (Hdisj site); [now apply list_elem_of_In | left]. }
    rewrite (dict_set_fresh _ _ _ Hs). intros Ho.
    apply IH in Ho as (filtered & -> & Hf2).
    + exists ((site, f) :: filtered). split; [now rewrite <- app_assoc|].
      constructor; [now split | exact Hf2].
    + unfold keys in *. rewrite map_app. simpl. now rewrite <- app_assoc.
Qed.

Lemma filter_entries_build (now cutoff : datetime) (entries acc filtered : results_t) :
  NoDup (keys acc ++ keys entries) ->
  Forall2 (fun e e' => fst e' = fst e
                       /\ filter_listings now cutoff (snd e) = Ok (snd e'))
          entries filtered ->
  filter_entries now cutoff entries acc = Ok (acc ++ filtered).
Proof.
  intros Hnd Hf. revert acc Hnd.
  induction Hf as [|[site l] [site' l'] entries filtered [Hk Hl] Hf IH];
    intros acc Hnd; simpl.
  - now rewrite app_nil_r.
  - simpl in Hk, Hl. subst site'. rewrite Hl. simpl.
    assert (Hs : ~ In site (keys acc)).
    { apply NoDup_app in Hnd as (_ & Hdisj & _). intros Hin.
      apply (Hdisj site); [now apply list_elem_of_In | left]. }
    rewrite (dict_set_fresh _ _ _ Hs), IH.
    + now rewrite <- app_assoc.
    + unfold keys in *. rewrite map_app. simpl. now rewrite <- app_assoc.
Qed.

Lemma Forall2_keys (P : list ListingResult -> list ListingResult -> Prop)
      (a b : results_t) :
  Forall2 (fun e e' => fst e' = fst e /\ P (snd e) (snd e')) a b -> keys b = keys a.
Proof.
  induction 1 as [|x y a b [Hk _] _ IH]; simpl; [reflexivity|]. now rewrite Hk, IH.
Qed.

(** X15. The recency filter only removes.  Whenever it returns, the
    mapping returned has the providers of its input, in order, and the
    listings of each are listings of its input bucket in their order; so the
    number of results does not grow. *)
Theorem filter_by_days_only_removes (now : datetime) (results out : results_t) (N : Z) :
  NoDup (keys results) ->
  filter_by_days now results N = Ok out ->
  Forall2 (fun e e' => fst e' = fst e /\ snd e' `sublist_of` snd e) results out
  /\ keys out = keys results
  /\ (total_results out <= total_results results)%nat.
Proof.
  intros Hnd Hf.
  assert (H : Forall2 (fun e e' => fst e' = fst e /\ snd e' `sublist_of` snd e)
                      results out).
  { unfold filter_by_days in Hf. destruct (N <=? 0).
    - injection Hf as <-. clear. induction results as [|e r IH]; constructor; auto.
    - destruct (Datetime.timedelta_days N) as [delta|e]; [|discriminate].
      rewrite bind_Ok in Hf.
      destruct (Datetime.sub now delta) as [cutoff|e]; [|discriminate].
      rewrite bind_Ok in Hf.
      apply filter_entries_inv in Hf as (filtered & -> & H2); [|exact Hnd].
      simpl. eapply Forall2_impl; [exact H2|].
      intros e e' [Hk Hl]. split; [exact Hk|].
      now apply filter_listings_inv in Hl. }
  split; [exact H|]. split.
  - now apply (Forall2_keys (fun a b => b `sublist_of` a)) in H.
  - unfold total_results. clear -H.
    induction H as [|x y a b [_ Hs] _ IH]; simpl; [lia|].
    apply sublist_length in Hs. lia.
Qed.

(** X16. The recency filter is idempotent: filtering what it returned, for
    the same window at the same instant, returns it unchanged. *)
Theorem filter_by_days_idempotent (now : datetime) (results out : results_t) (N : Z) :
  NoDup (keys results) ->
  filter_by_days now results N = Ok out ->
  filter_by_days now out N = Ok out.
Proof.
  intros Hnd Hf. unfold filter_by_days in *. destruct (N <=? 0); [reflexivity|].
  destruct (Datetime.timedelta_days N) as [delta|e]; [|discriminate].
  rewrite bind_Ok in Hf |- *.
  destruct (Datetime.sub now delta) as [cutoff|e]; [|discriminate].
  rewrite bind_Ok in Hf |- *.
  apply filter_entries_inv in Hf as (filtered & -> & H2); [|exact Hnd].
  simpl. apply (filter_entries_build now cutoff filtered [] filtered).
  - simpl.
    now rewrite (Forall2_keys (fun a b => filter_listings now cutoff a = Ok b) _ _ H2).
  - clear -H2. induction H2 as [|x y a b [Hk Hl] _ IH]; constructor; [|exact IH].
    split; [reflexivity|]. now apply filter_listings_inv in Hl.
Qed.

(** ** The exceptions of the date functions *)






















Lemma normalize_date_blank (now : datetime) (s : string) :
  all_space s = true -> normalize_date now (Some s) = Ok None.
Proof.
  intros H. unfold normalize_date, Utils.normalize_date, Utils.relative, Utils.textual.
  rewrite (strip_all_space s H). destruct s as [|c r]; [reflexivity|].
  cbn [PyStr.truthy negb].
  generalize Datetime.sub Datetime.strftime_ymd.
  intros; vm_compute; reflexivity.
Qed.

(** X18. A posted date of white space only is no date: both date functions
    return [None] for it, at any instant, as they do for a missing one. *)
Theorem blank_dates (now : datetime) (s : string) :
  all_space s = true ->
  parse_date now (Some s) = Ok None /\ normalize_date now (Some s) = Ok None.
Proof.
  intros H. split.
  - unfold parse_date, ParseDate.parse_date, ParseDate.relative.
    rewrite (strip_all_space s H). destruct s as [|c r]; [reflexivity|].
    cbn [PyStr.truthy negb].
    generalize Datetime.sub Datetime.midnight Datetime.gt.
    intros; vm_compute; reflexivity.
  - now apply normalize_date_blank.
Qed.

(** ** The table *)

Lemma length_slice_to {A} (k : Z) (value : list A) :
  0 <= k -> len (slice_to k value) = Z.min k (len value).
Proof.
  intros Hk. unfold slice_to, len. apply Z.leb_le in Hk. rewrite Hk.
  rewrite length_take. lia.
Qed.

Lemma truncate_fits {A} (ellipsis : A) (value : list A) (max_width : Z) :
  0 <= max_width ->
  len (truncate ellipsis value max_width) <= max_width
  /\ (len value <= max_width -> truncate ellipsis value max_width = value).
Proof.
  intros Hw. unfold truncate.
  destruct (Z.leb_spec (len value) max_width) as [Hfit|Hlong];
    [split; [exact Hfit | reflexivity]|].
  split; [|lia]. destruct (Z.leb_spec max_width 1) as [Hsmall|Hbig].
  - rewrite (length_slice_to max_width value Hw). lia.
  - assert (Hw1 : 0 <= max_width - 1) by lia.
    pose proof (length_slice_to (max_width - 1) value Hw1) as Hl.
    unfold len in *. rewrite length_app. simpl. lia.
Qed.

(** X19. [truncate] for a width that is not negative: the result is never
    longer than the width; a value that fits is returned as it is, and only
    such a value; a longer value, for a width of two or more, is cut to
    exactly the width, its last character being the ellipsis and the others
    the first characters of the value. *)
Theorem truncate_spec {A} (ellipsis : A) (value : list A) (max_width : Z) :
  0 <= max_width ->
  len (truncate ellipsis value max_width) <= max_width
  /\ (len value <= max_width -> truncate ellipsis value max_width = value)
  /\ (max_width < len value ->
      truncate ellipsis value max_width <> value
      /\ (2 <= max_width ->
          truncate ellipsis value max_width
          = take (Z.to_nat (max_width - 1)) value ++ [ellipsis]
          /\ len (truncate ellipsis value max_width) = max_width)).
Proof.
  intros Hw. unfold truncate.
  destruct (Z.leb_spec (len value) max_width) as [Hfit|Hlong].
  - split; [exact Hfit|]. split; [reflexivity | lia].
  - destruct (Z.leb_spec max_width 1) as [Hsmall|Hbig].
    + pose proof (length_slice_to max_width value Hw) as Hl.
      split; [lia|]. split; [lia|]. intros _. split; [|lia].
      intros He. rewrite He in Hl. lia.
    + assert (Hw1 : 0 <= max_width - 1) by lia.
      pose proof (length_slice_to (max_width - 1) value Hw1) as Hl.
      assert (Hlen : len (slice_to (max_width - 1) value ++ [ellipsis]) = max_width).
      { unfold len in *. rewrite length_app. simpl. lia. }
      split; [lia|]. split; [lia|]. intros _. split.
      * intros He. rewrite He in Hlen. lia.
      * intros _. split; [|exact Hlen]. unfold slice_to.
        apply Z.leb_le in Hw1. now rewrite Hw1.
Qed.

Lemma longest_ge {A} (others : list (list A)) (m0 : Z) :
  m0 <= fold_left (fun m value => Z.max m (len value)) others m0
  /\ forall v, In v others ->
               len v <= fold_left (fun m value => Z.max m (len value)) others m0.
Proof.
  revert m0. induction others as [|x l IH]; intros m0; simpl.
  - split; [lia | tauto].
  - destruct (IH (Z.max m0 (len x))) as [H1 H2]. split; [lia|].
    intros v [<- | Hv]; [lia | now apply H2].
Qed.

(** X20. The columns of the table.  The width of a column is at least the
    length of its label and at most the larger of that length and its cap;
    the label always fits; a cell no longer than the cap is shown whole, and
    any cell, once truncated, fits the column. *)
Theorem column_width_spec {A} (ellipsis : A) (label : list A) (cap : Z)
        (cells : list (list A)) :
  let width := column_width label cap cells in
  len label <= width <= Z.max (len label) cap
  /\ truncate ellipsis label width = label
  /\ forall cell, In cell cells ->
       len (truncate ellipsis cell width) <= width
       /\ (len cell <= cap -> truncate ellipsis cell width = cell).
Proof.
  intros width.
  assert (Hb : len label <= width <= Z.max (len label) cap)
    by (unfold width, column_width; lia).
  assert (H0 : 0 <= width) by (unfold len in *; lia).
  split; [exact Hb|]. split.
  - apply (truncate_fits ellipsis label width H0). lia.
  - intros cell Hin. destruct (truncate_fits ellipsis cell width H0) as (H1 & H2).
    split; [exact H1|]. intros Hc. apply H2.
    assert (Hl : len cell <= match cells with
                             | [] => longest label []
                             | first :: others => longest first others
                             end).
    { destruct cells as [|first others]; [destruct Hin|]. unfold longest.
      destruct (longest_ge others (len first)) as [Hf Ho].
      destruct Hin as [<- | Hin]; [exact Hf | now apply Ho]. }
    unfold width, column_width. lia.
Qed.

(** *** Cells *)

Local Open Scope nat_scope.

Lemma truthy_true (w : string) : PyStr.truthy w = true <-> w <> "".
Proof. destruct w; simpl; split; congruence. Qed.

Lemma string_length_append (a b : string) :
  String.length (a +:+ b) = String.length a + String.length b.
Proof. induction a as [|c a IH]; simpl; [reflexivity | now rewrite IH]. Qed.

Lemma split_from_inv (s : string) :
  no_space (fst (split_from s)) = true
  /\ Forall is_word (snd (split_from s))
  /\ String.length (fst (split_from s))
     + list_sum (map (fun w => S (String.length w)) (snd (split_from s)))
     <= String.length s.
Proof.
  induction s as [|c r IH]; simpl.
  - repeat split; [constructor | lia].
  - destruct (split_from r) as [w ws]. simpl in IH. destruct IH as (Hw & Hws & Hl).
    destruct (PyStr.isspace c) eqn:Hc; simpl.
    + destruct (PyStr.truthy w) eqn:Ht; simpl.
      * repeat split; [|lia]. constructor; [|exact Hws].
        split; [now apply truthy_true | exact Hw].
      * repeat split; [exact Hws | lia].
    + rewrite Hc, Hw. repeat split; [exact Hws | lia].
Qed.

Lemma str_split_words (s : string) : Forall is_word (str_split s).
Proof.
  unfold str_split. pose proof (split_from_inv s) as (Hw & Hws & _).
  destruct (split_from s) as [w ws]. simpl in *.
  destruct (PyStr.truthy w) eqn:Ht; [|exact Hws].
  constructor; [|exact Hws]. split; [now apply truthy_true | exact Hw].
Qed.

Lemma split_from_space (r : string) :
  split_from (String " " r) = (EmptyString, str_split r).
Proof. unfold str_split. simpl. now destruct (split_from r). Qed.

Lemma split_from_word_then (w r : string) :
  no_space w = true -> split_from (w +:+ String " " r) = (w, str_split r).
Proof.
  induction w as [|c w IH]; intros Hw.
  - apply split_from_space.
  - simpl in Hw. apply andb_prop in Hw as [Hc Hw]. apply negb_true_iff in Hc.
    change (String c w +:+ String " " r) with (String c (w +:+ String " " r)).
    cbn [split_from]. now rewrite (IH Hw), Hc.
Qed.

Lemma split_from_word (w : string) : no_space w = true -> split_from w = (w, []).
Proof.
  induction w as [|c w IH]; intros Hw; [reflexivity|].
  simpl in Hw. apply andb_prop in Hw as [Hc Hw]. apply negb_true_iff in Hc.
  cbn [split_from]. now rewrite (IH Hw), Hc.
Qed.

Lemma str_split_join (ws : list string) :
  Forall is_word ws -> str_split (str_join " " ws) = ws.
Proof.
  induction 1 as [|w rest [Hne Hw] Hrest IH]; [reflexivity|].
  apply truthy_true in Hne. destruct rest as [|w2 rest].
  - unfold str_split. cbn [str_join]. now rewrite (split_from_word w Hw), Hne.
  - change (str_join " " (w :: w2 :: rest))
      with (w +:+ String " " (str_join " " (w2 :: rest))).
    unfold str_split at 1. rewrite (split_from_word_then _ _ Hw), Hne.
    now rewrite IH.
Qed.

Lemma str_join_length (ws : list string) :
  String.length (str_join " " ws)
  <= list_sum (map (fun w => S (String.length w)) ws)
  /\ forall w, String.length (str_join " " (w :: ws))
               <= String.length w + list_sum (map (fun w => S (String.length w)) ws).
Proof.
  induction ws as [|x ws [IH1 IH2]].
  - split; [simpl; lia | intros w; simpl; lia].
  - assert (H : forall w, String.length (str_join " " (w :: x :: ws))
                          <= String.length w + S (String.length x)
                             + list_sum (map (fun w => S (String.length w)) ws)).
    { intros w. change (str_join " " (w :: x :: ws))
        with (w +:+ String " " (str_join " " (x :: ws))).
      rewrite string_length_append. cbn [String.length]. specialize (IH2 x). lia. }
    split.
    + specialize (IH2 x). unfold list_sum in *. cbn [map fold_right]. lia.
    + intros w. specialize (H w). unfold list_sum in *. cbn [map fold_right]. lia.
Qed.

Lemma split_from_blank (s : string) :
  split_from s = (EmptyString, []) <-> all_space s = true.
Proof.
  induction s as [|c r IH]; simpl; [tauto|].
  destruct (split_from r) as [w ws]. destruct (PyStr.isspace c); simpl.
  - rewrite <- IH. destruct w; simpl; split; congruence.
  - split; congruence.
Qed.

Lemma str_join_empty (ws : list string) :
  Forall is_word ws -> str_join " " ws = "" -> ws = [].
Proof.
  intros H. destruct H as [|w rest [Hne _] _]; [reflexivity|].
  destruct rest; cbn [str_join]; [congruence|].
  destruct w; [congruence | discriminate].
Qed.

Lemma collapse_blank (s : string) : collapse s = "" <-> all_space s = true.
Proof.
  rewrite <- split_from_blank. unfold collapse. split.
  - intros H. apply str_join_empty in H; [|apply str_split_words].
    unfold str_split in H. destruct (split_from s) as [w ws].
    destruct w; simpl in H; congruence.
  - intros H. unfold str_split. now rewrite H.
Qed.

Lemma collapse_length (s : string) : String.length (collapse s) <= String.length s.
Proof.
  unfold collapse, str_split. pose proof (split_from_inv s) as (_ & _ & Hl).
  destruct (split_from s) as [w ws]. simpl in Hl.
  destruct (str_join_length ws) as [H1 H2]. specialize (H2 w).
  destruct (PyStr.truthy w); lia.
Qed.

(** X21. A cell that is not a date.  For a text that is not empty and that
    [normalize_date] does not recognise, [sanitize] returns the words of the
    text separated by single spaces: the result splits into the same words,
    collapsing it again changes nothing, it is never longer than the text,
    and it is empty exactly when the text is white space only. *)
Theorem sanitize_text (now : datetime) (s : string) :
  s <> "" ->
  normalize_date now (Some s) = Ok None ->
  exists r,
    sanitize now (Some s) = Ok r
    /\ r = str_join " " (str_split s)
    /\ str_split r = str_split s
    /\ str_join " " (str_split r) = r
    /\ String.length r <= String.length s
    /\ (r = "" <-> all_space s = true).
Proof.
  intros Hne Hn. exists (collapse s). unfold sanitize.
  apply truthy_true in Hne. cbn [truthy_opt]. rewrite Hne, Hn. cbn [negb].
  rewrite bind_Ok. cbn [truthy_opt default from_option id].
  assert (Hs : str_split (collapse s) = str_split s)
    by (apply str_split_join, str_split_words).
  split; [reflexivity|]. split; [reflexivity|]. split; [exact Hs|].
  split; [now rewrite Hs|]. split; [apply collapse_length | apply collapse_blank].
Qed.

(** X22. A missing cell and an empty one.  [sanitize] shows [None] and the
    empty text as a dash, and it never raises for them.  It returns an
    empty cell exactly for a text that is not empty and consists of white
    space only: such a text is not missing for it. *)
Theorem sanitize_missing (now : datetime) (value : option string) :
  (truthy_opt value = false -> sanitize now value = Ok "-")
  /\ (sanitize now value = Ok ""
      <-> exists s, value = Some s /\ s <> "" /\ all_space s = true).
Proof.
  split.
  - intros H. unfold sanitize. now rewrite H.
  - unfold sanitize. destruct value as [s|]; cbn [truthy_opt negb].
    + destruct (PyStr.truthy s) eqn:Ht; cbn [negb].
      * apply truthy_true in Ht. split.
        -- destruct (normalize_date now (Some s)) as [[d|]|e]; rewrite ?bind_Ok;
             cbn [truthy_opt default from_option id]; try discriminate.
           ++ destruct (PyStr.truthy d) eqn:Hd.
              ** intros [= ->]. discriminate.
              ** intros [= Hc]. exists s. now apply collapse_blank in Hc.
           ++ intros [= Hc]. exists s. now apply collapse_blank in Hc.
        -- intros (s' & [= <-] & _ & Hs). rewrite (normalize_date_blank now s Hs), bind_Ok.
           cbn [truthy_opt default from_option id]. f_equal. now apply collapse_blank.
      * split; [discriminate|]. intros (s' & [= <-] & Hne & _).
        apply truthy_true in Hne. congruence.
    + split; [discriminate|]. intros (s' & Hs & _). discriminate.
Qed.

Local Close Scope nat_scope.

(** ** The scrapers' base class *)

Lemma startswith_append (p a b : string) :
  PyStr.startswith p a = true -> PyStr.startswith p (a +:+ b) = true.
Proof.
  revert a. induction p as [|c p IH]; intros a H; [reflexivity|].
  destruct a as [|c' a]; [discriminate|]. simpl in *.
  apply andb_prop in H as [-> H]. now rewrite (IH a H).
Qed.

(** X23. [_normalize_url] of a scraper whose base URL starts with [http]:
    the result always starts with [http], and normalising it again changes
    nothing. *)
Theorem normalize_url_spec (base_url url : string) :
  PyStr.startswith "http" base_url = true ->
  PyStr.startswith "http" (_normalize_url base_url url) = true
  /\ _normalize_url base_url (_normalize_url base_url url)
     = _normalize_url base_url url.
Proof.
  intros Hb.
  assert (H : PyStr.startswith "http" (_normalize_url base_url url) = true).
  { unfold _normalize_url. destruct (PyStr.startswith "http" url) eqn:Hu; [exact Hu|].
    destruct (PyStr.startswith "/" url); now apply startswith_append. }
  split; [exact H|]. unfold _normalize_url at 1. now rewrite H.
Qed.

(** *** Prices *)

Lemma replace_char (a : ascii) (new : string) (c : ascii) (r : string) :
  PyStr.replace (String a "") new (String c r)
  = if Ascii.eqb a c then new +:+ PyStr.replace (String a "") new r
    else String c (PyStr.replace (String a "") new r).
Proof.
  unfold PyStr.replace. cbn [PyStr.replace_from PyStr.startswith String.length Nat.sub].
  now rewrite andb_true_r.
Qed.

Lemma replace_char_nil (a : ascii) (new : string) :
  PyStr.replace (String a "") new "" = "".
Proof. reflexivity. Qed.

Lemma str_forall_append (p : ascii -> bool) (a b : string) :
  str_forall p (a +:+ b) = str_forall p a && str_forall p b.
Proof. induction a as [|c a IH]; simpl; [reflexivity | now rewrite IH, andb_assoc]. Qed.

Lemma str_filter_append (p : ascii -> bool) (a b : string) :
  str_filter p (a +:+ b) = str_filter p a +:+ str_filter p b.
Proof.
  induction a as [|c a IH]; simpl; [reflexivity|].
  destruct (p c); simpl; now rewrite IH.
Qed.

Lemma replace_char_forall (q : ascii -> bool) (a : ascii) (new s : string) :
  str_forall (fun c => Ascii.eqb a c || q c) s = true ->
  str_forall q new = true ->
  str_forall q (PyStr.replace (String a "") new s) = true.
Proof.
  intros Hs Hn. induction s as [|c r IH]; [reflexivity|].
  simpl in Hs. apply andb_prop in Hs as [Hc Hr]. rewrite replace_char.
  destruct (Ascii.eqb a c); simpl in Hc.
  - rewrite str_forall_append, Hn. now apply IH.
  - simpl. rewrite Hc. now apply IH.
Qed.

Lemma replace_char_filter (p : ascii -> bool) (a : ascii) (new s : string) :
  p a = false -> str_filter p new = "" ->
  str_filter p (PyStr.replace (String a "") new s) = str_filter p s.
Proof.
  intros Ha Hn. induction s as [|c r IH]; [reflexivity|].
  rewrite replace_char. destruct (Ascii.eqb_spec a c) as [<-|Hne].
  - rewrite str_filter_append, Hn, IH. simpl. now rewrite Ha.
  - simpl. now rewrite IH.
Qed.

Lemma replace_char_absent (a : ascii) (new s : string) :
  str_forall (fun c => negb (Ascii.eqb a c)) s = true ->
  PyStr.replace (String a "") new s = s.
Proof.
  induction s as [|c r IH]; intros H; [reflexivity|].
  simpl in H. apply andb_prop in H as [Hc Hr]. rewrite replace_char.
  apply negb_true_iff in Hc. rewrite Hc. now rewrite IH.
Qed.

Lemma str_filter_forall (p : ascii -> bool) (s : string) :
  str_forall p (str_filter p s) = true.
Proof.
  induction s as [|c r IH]; simpl; [reflexivity|].
  destruct (p c) eqn:Hc; simpl; [now rewrite Hc|exact IH].
Qed.

Lemma str_forall_impl (p q : ascii -> bool) (s : string) :
  (forall c, p c = true -> q c = true) ->
  str_forall p s = true -> str_forall q s = true.
Proof.
  intros Hpq. induction s as [|c r IH]; simpl; [reflexivity|].
  intros H. apply andb_prop in H as [Hc Hr]. now rewrite (Hpq c Hc), IH.
Qed.

Lemma str_forall_and (p q : ascii -> bool) (s : string) :
  str_forall p s = true -> str_forall q s = true ->
  str_forall (fun c => p c && q c) s = true.
Proof.
  induction s as [|c r IH]; simpl; [reflexivity|].
  intros Hp Hq. apply andb_prop in Hp as [-> Hp]. apply andb_prop in Hq as [-> Hq].
  now rewrite IH.
Qed.

Lemma str_filter_id (p : ascii -> bool) (s : string) :
  str_forall p s = true -> str_filter p s = s.
Proof.
  induction s as [|c r IH]; simpl; [reflexivity|].
  intros H. apply andb_prop in H as [-> Hr]. now rewrite IH.
Qed.

Lemma str_filter_filter (p q : ascii -> bool) (s : string) :
  (forall c, p c = true -> q c = true) ->
  str_filter p (str_filter q s) = str_filter p s.
Proof.
  intros Hpq. induction s as [|c r IH]; simpl; [reflexivity|].
  destruct (q c) eqn:Hq; simpl.
  - destruct (p c); now rewrite IH.
  - destruct (p c) eqn:Hp; [|exact IH]. apply Hpq in Hp. congruence.
Qed.

Lemma str_filter_ext_on (p q : ascii -> bool) (s : string) :
  str_forall (fun c => Bool.eqb (p c) (q c)) s = true ->
  str_filter p s = str_filter q s.
Proof.
  induction s as [|c r IH]; simpl; [reflexivity|].
  intros H. apply andb_prop in H as [Hc Hr]. apply Bool.eqb_prop in Hc.
  rewrite Hc. now rewrite IH.
Qed.

Lemma contains_char (a : ascii) (s : string) :
  PyStr.contains (String a "") s
  = negb (str_forall (fun c => negb (Ascii.eqb a c)) s).
Proof.
  induction s as [|c r IH]; [reflexivity|].
  cbn [PyStr.contains PyStr.startswith str_forall]. rewrite IH.
  destruct (Ascii.eqb a c); simpl; [reflexivity|].
  now destruct (str_forall _ r).
Qed.

Lemma contains_char_rfind (a : ascii) (s : string) :
  PyStr.contains (String a "") s = true -> exists i, rfind a s = Some i.
Proof.
  rewrite contains_char. induction s as [|c r IH]; [discriminate|].
  simpl. destruct (rfind a r) as [i|]; [eauto|].
  rewrite (Ascii.eqb_sym c a). destruct (Ascii.eqb a c); simpl; [eauto|].
  intros H. destruct (IH H) as [i Hi]. discriminate.
Qed.

Lemma replace_space (s : string) :
  PyStr.replace " " "" s = str_filter (fun c => negb (Ascii.eqb " " c)) s.
Proof.
  induction s as [|c r IH]; [reflexivity|].
  rewrite replace_char, IH. cbn [str_filter].
  now destruct (Ascii.eqb " " c).
Qed.

Lemma price_char_not_space (c : ascii) :
  price_char c = true -> negb (Ascii.eqb " " c) = true.
Proof.
  destruct (Ascii.eqb_spec " " c) as [<-|]; [discriminate | reflexivity].
Qed.

Lemma cleaned_eq (text : string) :
  re_sub_not_price (PyStr.replace " " "" text) = str_filter price_char text.
Proof.
  unfold re_sub_not_price. rewrite replace_space.
  apply str_filter_filter, price_char_not_space.
Qed.

Lemma cleaned_idem (text : string) :
  re_sub_not_price (PyStr.replace " " "" (re_sub_not_price text))
  = re_sub_not_price (PyStr.replace " " "" text).
Proof.
  rewrite !cleaned_eq. unfold re_sub_not_price. now apply str_filter_filter.
Qed.

Lemma isdecimal_price_char (c : ascii) : PyStr.isdecimal c = true -> price_char c = true.
Proof. intros H. unfold price_char. now rewrite H. Qed.

(** The literal, branch by branch, for a text of price characters. *)
Lemma price_literal_cases (text : string) :
  let cleaned := str_filter price_char text in
  price_literal text = Ok (PyStr.replace "," "." (PyStr.replace "." "" cleaned))
  \/ price_literal text = Ok (PyStr.replace "," "" cleaned)
  \/ price_literal text = Ok (PyStr.replace "," "." cleaned)
  \/ (price_literal text = Ok cleaned /\ PyStr.contains "," cleaned = false).
Proof.
  intros cleaned. unfold price_literal. rewrite cleaned_eq. fold cleaned.
  destruct (PyStr.contains "," cleaned) eqn:Hc.
  - destruct (PyStr.contains "." cleaned) eqn:Hd; cbn [andb].
    + destruct (contains_char_rfind _ _ Hc) as [i Hi].
      destruct (contains_char_rfind _ _ Hd) as [j Hj].
      unfold rindex. rewrite Hi, Hj, !bind_Ok. destruct (j <? i)%nat; tauto.
    + match goal with |- context [if ?b then _ else _] => destruct b end; tauto.
  - cbn [andb]. tauto.
Qed.

(** X24. The text that [_extract_price] hands to [float].  The function
    never raises; the text consists of digits and dots only, so that no
    sign, exponent or word ([inf], [nan]) reaches [float] and a price is
    never negative; its digits are those of the input, in the same order;
    and the result depends on the digits, commas and dots of the input
    only. *)
Theorem extract_price_literal {F} (float : string -> option F) (text : string) :
  exists cleaned,
    _extract_price float text = Ok (float cleaned)
    /\ str_forall (fun c => PyStr.isdecimal c || Ascii.eqb c ".") cleaned = true
    /\ digits_of cleaned = digits_of text
    /\ _extract_price float (str_filter price_char text) = Ok (float cleaned).
Proof.
  assert (Hsame : price_literal (str_filter price_char text) = price_literal text).
  { unfold price_literal. fold (re_sub_not_price text). now rewrite cleaned_idem. }
  unfold _extract_price. rewrite Hsame.
  set (q := fun c => PyStr.isdecimal c || Ascii.eqb c ".").
  assert (Hp : str_forall (fun c => Ascii.eqb "," c || q c) (str_filter price_char text) = true).
  { eapply str_forall_impl; [|apply str_filter_forall].
    intros c. unfold price_char, q. rewrite (Ascii.eqb_sym c ",").
    destruct (PyStr.isdecimal c), (Ascii.eqb "," c), (Ascii.eqb c "."); auto. }
  assert (Hd : digits_of (str_filter price_char text) = digits_of text)
    by (apply str_filter_filter, isdecimal_price_char).
  destruct (price_literal_cases text) as [H|[H|[H|[H Hc]]]]; rewrite H, bind_Ok;
    eexists; (split; [reflexivity|]); (split; [|split; [|reflexivity]]).
  - apply replace_char_forall; [|reflexivity].
    apply replace_char_forall; [|reflexivity].
    eapply str_forall_impl; [|apply str_filter_forall].
    intros c. unfold price_char, q. rewrite (Ascii.eqb_sym c ","), (Ascii.eqb_sym c ".").
    destruct (PyStr.isdecimal c), (Ascii.eqb "," c), (Ascii.eqb "." c); auto.
  - unfold digits_of. now rewrite !replace_char_filter.
  - now apply replace_char_forall.
  - unfold digits_of. now rewrite replace_char_filter.
  - now apply replace_char_forall.
  - unfold digits_of. now rewrite replace_char_filter.
  - rewrite contains_char in Hc. apply negb_false_iff in Hc.
    pose proof (str_forall_and _ _ _ Hc Hp) as Hb.
    eapply str_forall_impl; [|exact Hb]. intros c. cbv beta.
    destruct (Ascii.eqb "," c); cbn [negb andb orb]; [discriminate | auto].
  - exact Hd.
Qed.

Lemma str_forall_filter (p q : ascii -> bool) (s : string) :
  str_forall p s = true -> str_forall p (str_filter q s) = true.
Proof.
  induction s as [|c r IH]; simpl; [reflexivity|].
  intros H. apply andb_prop in H as [Hc Hr].
  destruct (q c); simpl; [rewrite Hc|]; now apply IH.
Qed.

(** X25. A price written without comma and dot: [float] is given exactly the
    digits of the text, whatever stands between them; spaces, currency and
    a minus sign are ignored alike. *)
Theorem extract_price_plain {F} (float : string -> option F) (text : string) :
  PyStr.contains "," text = false ->
  PyStr.contains "." text = false ->
  _extract_price float text = Ok (float (digits_of text)).
Proof.
  intros Hc Hd. rewrite contains_char in Hc, Hd.
  apply negb_false_iff in Hc, Hd.
  assert (He : str_filter price_char text = digits_of text).
  { apply str_filter_ext_on. pose proof (str_forall_and _ _ _ Hc Hd) as H.
    eapply str_forall_impl; [|exact H]. intros c. unfold price_char. cbv beta.
    rewrite (Ascii.eqb_sym c ","), (Ascii.eqb_sym c ".").
    destruct (Ascii.eqb "," c), (Ascii.eqb "." c), (PyStr.isdecimal c);
      cbn [negb andb orb Bool.eqb]; auto. }
  unfold _extract_price, price_literal. rewrite cleaned_eq, He.
  assert (Hn : PyStr.contains "," (digits_of text) = false).
  { rewrite contains_char. apply negb_false_iff. now apply str_forall_filter. }
  rewrite Hn. cbn [andb]. now rewrite bind_Ok.
Qed.

(** *** Fetching a page *)

(** The request fails in a way that [_fetch_page] handles. *)
Lemma not_succeeds_cases (a : attempt) :
  succeeds a = false -> crashes a = false ->
  (exists status_code content,
      a = Responded status_code content /\ is_http_error status_code = true)
  \/ (exists message, a = TimedOut message)
  \/ (exists message, a = RequestFailed message).
Proof.
  destruct a as [s c|m|m|e]; simpl; intros Hs Hc; try discriminate; eauto.
  left. exists s, c. split; [reflexivity|]. now apply negb_false_iff in Hs.
Qed.

Ltac project_events :=
  unfold requests_of, sleeps_of, errors_of, debug_print;
  repeat match goal with |- context [if ?b then _ else _] => destruct b end;
  repeat split; reflexivity.

Lemma fetch_loop_success (debug_enabled : bool) (session_get : nat -> attempt)
      (url : string) (retries : Z) (todo a : nat) (status_code : Z) (content : string) :
  session_get a = Responded status_code content ->
  is_http_error status_code = false ->
  exists evs,
    fetch_loop debug_enabled session_get url retries (S todo) a
    = (evs, Ok (Some (BeautifulSoup content)))
    /\ requests_of evs = [url] /\ sleeps_of evs = [] /\ errors_of evs = [].
Proof.
  intros Hg Hs. cbn [fetch_loop]. rewrite Hg, Hs.
  eexists. split; [reflexivity|]. project_events.
Qed.

Lemma fetch_loop_crash (debug_enabled : bool) (session_get : nat -> attempt)
      (url : string) (retries : Z) (todo a : nat) (e : exn) :
  session_get a = Crashed e ->
  exists evs,
    fetch_loop debug_enabled session_get url retries (S todo) a = (evs, Raise e)
    /\ requests_of evs = [url] /\ sleeps_of evs = [] /\ errors_of evs = [].
Proof.
  intros Hg. cbn [fetch_loop]. rewrite Hg.
  eexists. split; [reflexivity|]. project_events.
Qed.

Lemma fetch_loop_last (debug_enabled : bool) (session_get : nat -> attempt)
      (url : string) (retries : Z) (a : nat) :
  succeeds (session_get a) = false -> crashes (session_get a) = false ->
  retries = Z.of_nat (a + 1) ->
  exists evs,
    fetch_loop debug_enabled session_get url retries 1 a = (evs, Ok None)
    /\ requests_of evs = [url] /\ sleeps_of evs = []
    /\ errors_of evs = last_error (session_get a).
Proof.
  intros Hs Hc ->. cbn [fetch_loop].
  assert (Hl : (Z.of_nat a =? Z.of_nat (a + 1) - 1) = true) by (apply Z.eqb_eq; lia).
  rewrite Hl.
  destruct (not_succeeds_cases _ Hs Hc) as [(s & c & -> & He)|[[m ->]|[m ->]]].
  - rewrite He. cbn [last_error]. destruct (s =? 410);
      (eexists; split; [reflexivity|]; project_events).
  - eexists; split; [reflexivity|]; project_events.
  - eexists; split; [reflexivity|]; project_events.
Qed.

Lemma fetch_loop_retry (debug_enabled : bool) (session_get : nat -> attempt)
      (url : string) (retries : Z) (todo a : nat) :
  succeeds (session_get a) = false -> crashes (session_get a) = false ->
  retries = Z.of_nat (a + S (S todo)) ->
  exists evs,
    fetch_loop debug_enabled session_get url retries (S (S todo)) a
    = (evs, snd (fetch_loop debug_enabled session_get url retries (S todo) (S a)))
    /\ requests_of evs
       = url :: requests_of
                  (fst (fetch_loop debug_enabled session_get url retries (S todo) (S a)))
    /\ sleeps_of evs
       = (Z.of_nat a + 1)
           :: sleeps_of
                (fst (fetch_loop debug_enabled session_get url retries (S todo) (S a)))
    /\ errors_of evs
       = errors_of
           (fst (fetch_loop debug_enabled session_get url retries (S todo) (S a))).
Proof.
  intros Hs Hc ->.
  assert (Hl : (Z.of_nat a =? Z.of_nat (a + S (S todo)) - 1) = false)
    by (apply Z.eqb_neq; lia).
  remember (S todo) as t eqn:Ht. cbn [fetch_loop]. rewrite Hl.
  destruct (fetch_loop debug_enabled session_get url (Z.of_nat (a + S t)) t (S a))
    as [evs' r] eqn:Hrec.
  cbn [fst snd].
  destruct (not_succeeds_cases _ Hs Hc) as [(s & c & -> & He)|[[m ->]|[m ->]]];
    rewrite ?He; (eexists; split; [reflexivity|]);
    unfold requests_of, sleeps_of, errors_of, debug_print;
    destruct debug_enabled; rewrite !omap_app; cbn [omap app];
    rewrite ?Z.mul_1_l; repeat split; reflexivity.
Qed.

Lemma backoff_shift (a k : nat) :
  map (fun i => Z.of_nat (a + i) + 1) (seq 0 (S k))
  = (Z.of_nat a + 1) :: map (fun i => Z.of_nat (S a + i) + 1) (seq 0 k).
Proof.
  cbn [seq map]. rewrite Nat.add_0_r. f_equal.
  rewrite <- seq_shift, map_map. apply map_ext. intros i. f_equal. lia.
Qed.

Lemma fetch_loop_spec (debug_enabled : bool) (session_get : nat -> attempt)
      (url : string) (todo : nat) :
  forall (a : nat) (retries : Z),
    retries = Z.of_nat (a + todo) ->
    let run := fetch_loop debug_enabled session_get url retries todo a in
    (forall k,
        (k < todo)%nat ->
        (forall j, (j < k)%nat ->
                   succeeds (session_get (a + j)%nat) = false
                   /\ crashes (session_get (a + j)%nat) = false) ->
        (succeeds (session_get (a + k)%nat) = true ->
         exists status_code content,
           session_get (a + k)%nat = Responded status_code content
           /\ snd run = Ok (Some (BeautifulSoup content))
           /\ requests_of (fst run) = repeat url (S k)
           /\ sleeps_of (fst run) = map (fun i => Z.of_nat (a + i) + 1) (seq 0 k)
           /\ errors_of (fst run) = [])
        /\ (forall e, session_get (a + k)%nat = Crashed e ->
              snd run = Raise e
              /\ requests_of (fst run) = repeat url (S k)
              /\ sleeps_of (fst run) = map (fun i => Z.of_nat (a + i) + 1) (seq 0 k)
              /\ errors_of (fst run) = []))
    /\ ((forall j, (j < todo)%nat ->
                   succeeds (session_get (a + j)%nat) = false
                   /\ crashes (session_get (a + j)%nat) = false) ->
        snd run = Ok None
        /\ requests_of (fst run) = repeat url todo
        /\ sleeps_of (fst run)
           = map (fun i => Z.of_nat (a + i) + 1) (seq 0 (todo - 1))
        /\ errors_of (fst run)
           = match todo with
             | O => []
             | S m => last_error (session_get (a + m)%nat)
             end).
Proof.
  induction todo as [|todo IH]; intros a retries Hr run.
  - split; [intros k Hk; lia|]. intros _. subst run. simpl. repeat split; reflexivity.
  - split.
    + intros k Hk Hbefore. destruct k as [|k].
      * rewrite Nat.add_0_r. split.
        -- intros Hs. destruct (session_get a) as [s c| | |] eqn:Hg; try discriminate.
           simpl in Hs. apply negb_true_iff in Hs.
           destruct (fetch_loop_success debug_enabled session_get url retries todo a
                       s c Hg Hs) as (evs & Hrun & H1 & H2 & H3).
           exists s, c. subst run. rewrite Hrun. cbn [fst snd]. auto.
        -- intros e Hg.
           destruct (fetch_loop_crash debug_enabled session_get url retries todo a
                       e Hg) as (evs & Hrun & H1 & H2 & H3).
           subst run. rewrite Hrun. cbn [fst snd]. auto.
      * destruct todo as [|todo']; [lia|].
        destruct (Hbefore O ltac:(lia)) as [Hs0 Hc0]. rewrite Nat.add_0_r in Hs0, Hc0.
        destruct (fetch_loop_retry debug_enabled session_get url retries todo' a
                    Hs0 Hc0 Hr) as (evs & Hrun & H1 & H2 & H3).
        assert (Hr' : retries = Z.of_nat (S a + S todo')) by lia.
        destruct (IH (S a) retries Hr') as [IHk _].
        assert (Hbefore' : forall j, (j < k)%nat ->
                   succeeds (session_get (S a + j)%nat) = false
                   /\ crashes (session_get (S a + j)%nat) = false).
        { intros j Hj. replace (S a + j)%nat with (a + S j)%nat by lia.
          apply Hbefore. lia. }
        destruct (IHk k ltac:(lia) Hbefore') as [IHs IHc].
        replace (S a + k)%nat with (a + S k)%nat in IHs, IHc by lia.
        subst run. rewrite Hrun. cbn [fst snd]. rewrite H1, H2, H3, backoff_shift.
        split.
        -- intros Hs. destruct (IHs Hs) as (s & c & Hg & E1 & E2 & E3 & E4).
           exists s, c. rewrite E2, E3, E4. auto.
        -- intros e Hg. destruct (IHc e Hg) as (E1 & E2 & E3 & E4).
           rewrite E2, E3, E4. auto.
    + intros Hall. destruct (Hall O ltac:(lia)) as [Hs0 Hc0].
      rewrite Nat.add_0_r in Hs0, Hc0. destruct todo as [|todo'].
      * destruct (fetch_loop_last debug_enabled session_get url retries a Hs0 Hc0 Hr)
          as (evs & Hrun & H1 & H2 & H3).
        subst run. rewrite Hrun. cbn [fst snd]. rewrite Nat.add_0_r. auto.
      * destruct (fetch_loop_retry debug_enabled session_get url retries todo' a
                    Hs0 Hc0 Hr) as (evs & Hrun & H1 & H2 & H3).
        assert (Hr' : retries = Z.of_nat (S a + S todo')) by lia.
        destruct (IH (S a) retries Hr') as [_ IHall].
        assert (Hall' : forall j, (j < S todo')%nat ->
                   succeeds (session_get (S a + j)%nat) = false
                   /\ crashes (session_get (S a + j)%nat) = false).
        { intros j Hj. replace (S a + j)%nat with (a + S j)%nat by lia.
          apply Hall. lia. }
        destruct (IHall Hall') as (E1 & E2 & E3 & E4).
        subst run. rewrite Hrun. cbn [fst snd]. rewrite H1, H2, H3, E1, E2, E3, E4.
        replace (S a + todo')%nat with (a + S todo')%nat by lia.
        replace (S (S todo') - 1)%nat with (S todo') by lia.
        replace (S todo' - 1)%nat with todo' by lia.
        rewrite backoff_shift. auto.
Qed.

(** X26. [_fetch_page] with [retries] attempts allowed (three when not
    given).  Requests are sent one after the other until one succeeds, one
    raises an exception that is no [requests.RequestException], or the
    attempts are used up.  If the [k]-th request (counting from 0) is the
    first not to fail and it succeeds, its page is returned after exactly
    [k + 1] requests with pauses of 1, 2, ..., [k] seconds between them and
    no error line; if it raises a foreign exception, that exception
    propagates after the same requests.  If all [retries] requests fail,
    the result is [None] after exactly [retries] requests and pauses of
    1, ..., [retries - 1] seconds, with one error line for the last
    failure, unless that was HTTP 410, which leaves none.  With no attempt
    allowed nothing is requested. *)
Theorem fetch_page_spec (debug_enabled : bool) (session_get : nat -> attempt)
        (url : string) (retries : option Z) :
  let allowed := Z.to_nat (default 3 retries) in
  let run := _fetch_page debug_enabled session_get url retries in
  let failed (j : nat) :=
    succeeds (session_get j) = false /\ crashes (session_get j) = false in
  (forall k,
      (k < allowed)%nat -> (forall j, (j < k)%nat -> failed j) ->
      (succeeds (session_get k) = true ->
       exists status_code content,
         session_get k = Responded status_code content
         /\ snd run = Ok (Some (BeautifulSoup content))
         /\ requests_of (fst run) = repeat url (S k)
         /\ sleeps_of (fst run) = backoff k
         /\ errors_of (fst run) = [])
      /\ (forall e, session_get k = Crashed e ->
            snd run = Raise e
            /\ requests_of (fst run) = repeat url (S k)
            /\ sleeps_of (fst run) = backoff k
            /\ errors_of (fst run) = []))
  /\ ((forall j, (j < allowed)%nat -> failed j) ->
      snd run = Ok None
      /\ requests_of (fst run) = repeat url allowed
      /\ sleeps_of (fst run) = backoff (allowed - 1)
      /\ errors_of (fst run)
         = match allowed with
           | O => []
           | S m => last_error (session_get m)
           end).
Proof.
  intros allowed run failed.
  assert (Hrun : run = fetch_loop debug_enabled session_get url
                                  (Z.of_nat (0 + allowed)) allowed 0).
  { subst run allowed. unfold _fetch_page.
    destruct retries as [n|]; cbn [default from_option id]; [|reflexivity].
    destruct (Z.leb_spec 0 n) as [Hn|Hn].
    - now rewrite Nat.add_0_l, Z2Nat.id.
    - replace (Z.to_nat n) with O by lia. reflexivity. }
  rewrite Hrun.
  exact (fetch_loop_spec debug_enabled session_get url allowed O
                         (Z.of_nat (0 + allowed)) eq_refl).
Qed.

(** ** One search term, end to end *)

Lemma keep_listing_parses (now cutoff : datetime) (listing : ListingResult) (keep : bool) :
  keep_listing now cutoff listing = Ok keep -> parses now listing.
Proof.
  unfold keep_listing, parses. intros H Ht. rewrite Ht in H. cbn [negb] in H.
  destruct (parse_date now (posted_date listing)) as [r|e]; [eauto | discriminate].
Qed.

Lemma filter_listings_parses (now cutoff : datetime) (l l' : list ListingResult) :
  filter_listings now cutoff l = Ok l' -> Forall (parses now) l.
Proof.
  revert l'. induction l as [|x l IH]; intros l' H; [constructor|].
  cbn [filter_listings] in H.
  destruct (keep_listing now cutoff x) as [keep|e] eqn:Hk; [|discriminate].
  rewrite bind_Ok in H.
  destruct (filter_listings now cutoff l) as [f|e] eqn:Hf; [|discriminate].
  constructor; [now apply keep_listing_parses in Hk | now apply (IH f)].
Qed.

Lemma filter_by_days_window (now : datetime) (results out : results_t) (n : Z) :
  NoDup (keys results) ->
  0 < n ->
  filter_by_days now results n = Ok out ->
  exists cutoff,
    cutoff_of now n = Ok cutoff
    /\ Forall (fun entry => Forall (parses now) (snd entry)) results
    /\ out = map (fun entry =>
                    (fst entry, List.filter (retained_b now cutoff) (snd entry)))
                 results.
Proof.
  intros Hnd Hn H. unfold filter_by_days in H. unfold cutoff_of.
  destruct (Z.leb_spec n 0) as [|_]; [lia|].
  destruct (Datetime.timedelta_days n) as [delta|e]; [|discriminate].
  rewrite bind_Ok in H. rewrite bind_Ok.
  destruct (Datetime.sub now delta) as [cutoff|e]; [|discriminate].
  rewrite bind_Ok in H. exists cutoff. split; [reflexivity|].
  assert (Hp : Forall (fun entry => Forall (parses now) (snd entry)) results).
  { destruct (filter_entries_inv now cutoff results [] out Hnd H) as (f & _ & HF).
    clear -HF. induction HF as [|e e' l l' [_ He] _ IH]; constructor; [|exact IH].
    now apply filter_listings_parses in He. }
  split; [exact Hp|].
  rewrite (filter_entries_spec now cutoff results [] Hnd Hp) in H.
  now injection H as <-.
Qed.

Lemma all_listings_filter (f : ListingResult -> bool) (results : results_t) :
  all_listings (map (fun entry => (fst entry, List.filter f (snd entry))) results)
  = List.filter (fun item => f (snd item)) (all_listings results).
Proof.
  unfold all_listings. induction results as [|[site l] r IH]; [reflexivity|].
  cbn [map flat_map fst snd]. rewrite List.filter_app, IH. f_equal.
  clear IH. induction l as [|x l IHl]; [reflexivity|].
  cbn [List.filter map snd]. destruct (f x); cbn [map]; now rewrite IHl.
Qed.

Lemma NoDup_map_filter {A B} (g : A -> B) (p : A -> bool) (l : list A) :
  NoDup (map g l) -> NoDup (map g (List.filter p l)).
Proof.
  induction l as [|x l IH]; cbn [map List.filter]; [trivial|].
  intros H. apply NoDup_cons in H as [Hx Hl]. destruct (p x); [|now apply IH].
  cbn [map]. apply NoDup_cons. split; [|now apply IH].
  intros Hin. apply Hx. apply list_elem_of_In in Hin. apply list_elem_of_In.
  apply in_map_iff in Hin as (y & Hy & Hin). apply filter_In in Hin as [Hin _].
  apply in_map_iff. eauto.
Qed.

Lemma total_results_length (results : results_t) :
  total_results results = length (all_listings results).
Proof.
  unfold total_results, all_listings.
  induction results as [|[site l] r IH]; [reflexivity|].
  cbn [map flat_map list_sum fold_right fst snd]. rewrite length_app, length_map.
  unfold list_sum in IH. now rewrite IH.
Qed.

Lemma build_rows_spec (now : datetime) (items : list (string * ListingResult)) :
  forall (first : Z) (rows : list row),
    build_rows now first items = Ok rows ->
    length rows = length items
    /\ forall (k : nat) (r : row),
         rows !! k = Some r ->
         row_idx r = first + Z.of_nat k
         /\ exists item, items !! k = Some item
                         /\ row_title_url r = url (snd item)
                         /\ row_price r = price (snd item).
Proof.
  induction items as [|item items IH]; intros first rows H; cbn [build_rows] in H.
  - injection H as <-. split; [reflexivity|]. intros k r Hk. discriminate.
  - destruct (build_row now first item) as [r0|e] eqn:Hr; [|discriminate].
    rewrite bind_Ok in H.
    destruct (build_rows now (first + 1) items) as [rs|e] eqn:Hrs; [|discriminate].
    rewrite bind_Ok in H. injection H as <-.
    destruct (IH _ _ Hrs) as [Hlen Hk]. split; [simpl; now rewrite Hlen|].
    intros [|k] r Hl; cbn in Hl.
    + injection Hl as <-. unfold build_row in Hr. destruct item as [site listing].
      destruct (sanitize now (posted_date listing)); [|discriminate].
      rewrite bind_Ok in Hr.
      destruct (sanitize now (location listing)); [|discriminate].
      rewrite bind_Ok in Hr.
      destruct (sanitize now (Some (source_cell site listing))); [|discriminate].
      rewrite bind_Ok in Hr. injection Hr as <-. cbn [row_idx row_title_url row_price].
      split; [lia|]. exists (site, listing). split; [reflexivity | split; reflexivity].
    + destruct (Hk k r Hl) as [Hi (it & Hit & Hu)]. split; [lia|].
      exists it. split; [exact Hit | exact Hu].
Qed.

Lemma sort_listings_perm (timestamp : datetime -> option Q) (now : datetime)
      (sort_by : sort_field) (items out : list (string * ListingResult)) :
  sort_listings timestamp now sort_by items = Ok out -> out ≡ₚ items.
Proof.
  unfold sort_listings. intros H.
  destruct (keys_of (get_sort_key timestamp now sort_by) items) as [keyed|e] eqn:Hk;
    [|discriminate].
  rewrite bind_Ok in H. injection H as <-.
  now destruct (sorted_output _ _ _ Hk) as [Hp _].
Qed.

Lemma format_results_table (timestamp : datetime -> option Q) (now : datetime)
      (results : results_t) (sort_by : sort_field)
      (listings : list (string * ListingResult)) (rows : list row) (total : nat) :
  format_results timestamp now results sort_by = Ok (Table listings rows total) ->
  listings ≡ₚ all_listings results
  /\ total = length listings
  /\ (0 < total)%nat
  /\ build_rows now 1 listings = Ok rows.
Proof.
  unfold format_results. intros H.
  destruct (Nat.eqb_spec (total_results results) 0) as [|Hne]; [discriminate|].
  destruct (sort_listings timestamp now sort_by (all_listings results))
    as [all|e] eqn:Hs; [|discriminate].
  rewrite bind_Ok in H.
  destruct (build_rows now 1 all) as [rs|e] eqn:Hr; [|discriminate].
  rewrite bind_Ok in H. injection H as <- <- <-.
  apply sort_listings_perm in Hs.
  split; [exact Hs|]. rewrite total_results_length in *.
  rewrite (Permutation_length Hs). split; [reflexivity|]. split; [lia | exact Hr].
Qed.

(** X27. One search term, end to end.  For a term that is not blank, with
    providers of distinct names none of which aborts a dispatch: whenever
    the run for the term ends with a table, the listings of the table are
    exactly the listings that some provider returned for some variant of
    the term, first of their signature, and that lie within the window
    asked for, if one is; no two rows have the same signature; the total
    printed is the number of rows and is not zero; and the rows are numbered
    from 1 in the order of the sorted listings, each carrying the url and
    the price of its listing. *)
Theorem process_term_spec (timestamp : datetime -> option Q) (now : datetime)
        (debug : bool) (scrapers : list Scraper) (days_back : option Z)
        (sort_by : sort_field) (term : string)
        (listings : list (string * ListingResult)) (rows : list row) (total : nat) :
  PyStr.strip term <> "" ->
  NoDup (map name scrapers) ->
  (forall v, In v (expand_search_term term) ->
             Forall (fun s => ordinary (search s (PyStr.strip v))) scrapers) ->
  snd (process_term timestamp now debug scrapers days_back sort_by term)
  = Ok (Reported (Table listings rows total)) ->
  let per_variant := map (dispatched scrapers) (expand_search_term term) in
  (forall item,
      In item listings
      <-> In item (all_listings (aggregated_results (aggregate per_variant)))
          /\ in_window now days_back (snd item))
  /\ (forall item, In item listings -> In item (returned per_variant))
  /\ NoDup (map (fun item => signature (snd item)) listings)
  /\ total = length listings /\ (0 < total)%nat /\ length rows = total
  /\ (forall (k : nat) (r : row),
         rows !! k = Some r ->
         row_idx r = 1 + Z.of_nat k
         /\ exists item, listings !! k = Some item
                         /\ row_title_url r = url (snd item)
                         /\ row_price r = price (snd item)).
Proof.
  intros Hq Hnd Hord H per_variant.
  set (agg := aggregated_results (aggregate per_variant)).
  assert (Hv : forall v, In v (expand_search_term term) ->
               PyStr.strip v <> ""
               /\ Forall (fun s => ordinary (search s (PyStr.strip v))) scrapers).
  { intros v Hin. split; [|now apply Hord].
    rewrite expand_search_term_eq in Hin. destruct Hin as [<- | Hin]; [exact Hq|].
    destruct (SYNONYMS !! PyStr.lower (PyStr.strip term)) as [syns|] eqn:Hs;
      [|destruct Hin].
    now apply (SYNONYMS_not_blank _ v syns Hs). }
  assert (Hagg : snd (aggregate_term debug scrapers term) = Ok agg).
  { unfold aggregate_term.
    pose proof (aggregate_variants_dispatched debug scrapers
                  (expand_search_term term) new_session Hnd Hv) as Ha.
    destruct (aggregate_variants debug scrapers (expand_search_term term) new_session)
      as [evs r]. simpl in Ha. subst r. reflexivity. }
  assert (Hkeys : NoDup (keys agg)).
  { subst agg. unfold aggregate. rewrite aggregate_from_keys. simpl.
    assert (Hf : forall l acc, NoDup acc -> NoDup (fold_left add_key l acc)).
    { induction l as [|k l IHl]; intros acc Ha; simpl; [exact Ha|].
      apply IHl. now apply add_key_NoDup. }
    apply Hf. apply NoDup_nil_2. }
  assert (Hsig : NoDup (map (fun item => signature (snd item)) (all_listings agg))).
  { pose proof (session_ok_aggregate_from per_variant new_session session_ok_new)
      as [Hn _]. exact Hn. }
  destruct (session_within_aggregate per_variant) as [Hret _]. fold agg in Hret.
  (* the results that reach format_results *)
  assert (Hshown : exists shown : results_t,
             format_results timestamp now shown sort_by = Ok (Table listings rows total)
             /\ (forall item, In item (all_listings shown)
                              <-> In item (all_listings agg)
                                  /\ in_window now days_back (snd item))
             /\ NoDup (map (fun item => signature (snd item)) (all_listings shown))).
  { unfold process_term in H.
    destruct (aggregate_term debug scrapers term) as [evs r]. simpl in Hagg. subst r.
    rewrite bind_Ok in H.
    assert (Hsame : forall body,
               snd (match body with
                    | Ok r => (evs, Ok (Reported r))
                    | Raise e => if is_Exception e then (evs, Ok (TermError e))
                                 else (evs, Raise e)
                    end) = Ok (Reported (Table listings rows total)) ->
               body = Ok (Table listings rows total)).
    { intros [r|e]; [now intros [= ->]|]. destruct (is_Exception e); discriminate. }
    apply Hsame in H. clear Hsame.
    assert (Hall : forall n, ~ 0 < n -> days_back = Some n ->
               forall item, In item (all_listings agg)
                            <-> In item (all_listings agg)
                                /\ in_window now days_back (snd item)).
    { intros n Hn -> item. cbn [in_window]. split; [|tauto].
      intros Hi. split; [exact Hi | intros; lia]. }
    destruct days_back as [n|].
    - destruct (Z.eqb_spec n 0) as [->|Hn0]; cbn [negb] in H.
      + rewrite bind_Ok in H. exists agg. split; [exact H|].
        split; [apply (Hall 0); [lia | reflexivity] | exact Hsig].
      + destruct (filter_by_days now agg n) as [out|e] eqn:Hf; [|discriminate].
        rewrite bind_Ok in H. exists out. split; [exact H|].
        destruct (Z.lt_ge_cases 0 n) as [Hpos|Hneg].
        * destruct (filter_by_days_window now agg out n Hkeys Hpos Hf)
            as (cutoff & Hc & Hp & ->).
          rewrite all_listings_filter. split; [|now apply NoDup_map_filter].
          intros item. rewrite filter_In. cbn [in_window].
          assert (Hparses : In item (all_listings agg) -> parses now (snd item)).
          { intros Hi. unfold all_listings in Hi.
            apply in_flat_map in Hi as (entry & He & Hi).
            apply in_map_iff in Hi as (x & <- & Hx).
            rewrite Forall_forall in Hp. apply list_elem_of_In in He.
            specialize (Hp entry He). rewrite Forall_forall in Hp.
            apply Hp. now apply list_elem_of_In. }
          split.
          -- intros [Hi Hr]. split; [exact Hi|]. intros _. exists cutoff.
             split; [exact Hc|]. now apply retained_b_spec; [apply Hparses|].
          -- intros [Hi Hw]. split; [exact Hi|].
             destruct (Hw Hpos) as (c & Hc' & Hr). rewrite Hc in Hc'.
             injection Hc' as <-. now apply retained_b_spec; [apply Hparses|].
        * unfold filter_by_days in Hf.
          destruct (Z.leb_spec n 0) as [_|]; [|lia]. injection Hf as <-.
          split; [apply (Hall n); [lia | reflexivity] | exact Hsig].
    - rewrite bind_Ok in H. exists agg. split; [exact H|]. split; [|exact Hsig].
      intros item. cbn [in_window]. tauto. }
  destruct Hshown as (shown & Hfmt & Hin & Hnds).
  destruct (format_results_table _ _ _ _ _ _ _ Hfmt) as (Hperm & Htot & Hpos & Hrows).
  destruct (build_rows_spec now listings 1 rows Hrows) as [Hlen Hk].
  assert (Hmem : forall item, In item listings <-> In item (all_listings shown)).
  { intros item. rewrite <- !list_elem_of_In. now rewrite Hperm. }
  split; [intros item; rewrite Hmem; apply Hin|].
  split; [intros item Hi; apply Hret; now apply Hin, Hmem|].
  split; [now rewrite Hperm|].
  split; [exact Htot|]. split; [exact Hpos|]. split; [congruence | exact Hk].
Qed.

(** ** Storefront scrapers *)

Lemma extract_price_returns {F} (float : string -> option F) (text : string) :
  exists p, _extract_price float text = Ok p.
Proof.
  unfold _extract_price.
  destruct (price_literal_cases text) as [H|[H|[H|[H _]]]]; rewrite H, bind_Ok; eauto.
Qed.

Section Starweb_search.

Variable float : string -> option pyfloat.
Variables base_url query_lower : string.
Variables min_price max_price : option pyfloat.

Lemma parse_listing_returns (li : gallery_item) :
  exists r, Starweb._parse_listing float base_url li = Ok r.
Proof.
  unfold Starweb._parse_listing. destruct (item_link li) as [link|]; [|eauto].
  destruct (truthy_opt (item_price li)).
  - destruct (extract_price_returns float (default "" (item_price li))) as [p ->].
    rewrite bind_Ok. eauto.
  - rewrite bind_Ok. eauto.
Qed.

Lemma consider_spec (st : list ListingResult * gset string) (li : gallery_item) :
  (Starweb.consider float base_url query_lower min_price max_price) st li
  = Ok (match (Starweb.accepted float base_url query_lower min_price max_price) li with
        | Some listing =>
            if bool_decide (url listing ∈ snd st) then st
            else (fst st ++ [listing], {[ url listing ]} ∪ snd st)
        | None => st
        end).
Proof.
  unfold Starweb.consider, Starweb.accepted.
  destruct (parse_listing_returns li) as [[listing|] ->]; rewrite bind_Ok;
    [|reflexivity].
  destruct (Starweb.skipped query_lower min_price max_price listing); [reflexivity|].
  now destruct (bool_decide (url listing ∈ snd st)).
Qed.

Lemma consider_all_spec (items : list gallery_item) :
  forall (results : list ListingResult) (seen : gset string),
    (Starweb.consider_all float base_url query_lower min_price max_price) items (results, seen)
    = Ok (results ++ first_by_url seen (omap (Starweb.accepted float base_url query_lower min_price max_price) items),
          seen_by_url seen (omap (Starweb.accepted float base_url query_lower min_price max_price) items)).
Proof.
  induction items as [|li items IH]; intros results seen.
  - cbn. now rewrite app_nil_r.
  - cbn [Starweb.consider_all omap list_omap]. rewrite consider_spec, bind_Ok.
    destruct ((Starweb.accepted float base_url query_lower min_price max_price) li) as [listing|]; [|apply IH].
    cbn [fst snd first_by_url seen_by_url].
    destruct (bool_decide (url listing ∈ seen)); [apply IH|].
    rewrite IH. now rewrite <- app_assoc.
Qed.

End Starweb_search.

Lemma first_by_url_app (a b : list ListingResult) :
  forall seen,
    first_by_url seen (a ++ b)
    = first_by_url seen a ++ first_by_url (seen_by_url seen a) b.
Proof.
  induction a as [|x a IH]; intros seen; [reflexivity|].
  cbn [app first_by_url seen_by_url].
  destruct (bool_decide (url x ∈ seen)); [apply IH|].
  cbn [app]. now rewrite IH.
Qed.

Lemma first_by_url_fresh (l : list ListingResult) :
  forall seen,
    NoDup (map url (first_by_url seen l))
    /\ forall x, In x (first_by_url seen l) -> In x l /\ url x ∉ seen.
Proof.
  induction l as [|x l IH]; intros seen.
  - split; [apply NoDup_nil_2 | intros y []].
  - cbn [first_by_url]. destruct (bool_decide_reflect (url x ∈ seen)) as [Hin|Hnew].
    + destruct (IH seen) as [Hnd Hfresh]. split; [exact Hnd|].
      intros y Hy. destruct (Hfresh y Hy). split; [now right | assumption].
    + destruct (IH ({[ url x ]} ∪ seen)) as [Hnd Hfresh]. split.
      * cbn [map]. apply NoDup_cons. split; [|exact Hnd].
        intros Hx. apply list_elem_of_In, in_map_iff in Hx as (y & Hu & Hy).
        destruct (Hfresh y Hy) as [_ Hn]. apply Hn. rewrite Hu.
        apply elem_of_union. left. now apply elem_of_singleton.
      * intros y [<- | Hy]; [split; [now left | exact Hnew]|].
        destruct (Hfresh y Hy) as [Hl Hn]. split; [now right|].
        intros Hs. apply Hn. apply elem_of_union. now right.
Qed.

Lemma first_by_url_complete (l : list ListingResult) :
  forall seen x,
    In x l -> url x ∉ seen ->
    exists y, In y (first_by_url seen l) /\ url y = url x.
Proof.
  induction l as [|z l IH]; intros seen x Hin Hx; [destruct Hin|].
  cbn [first_by_url]. destruct (bool_decide_reflect (url z ∈ seen)) as [Hz|Hz].
  - destruct Hin as [-> | Hin]; [contradiction|]. now apply IH.
  - destruct (String.string_dec (url z) (url x)) as [He|Hne].
    + exists z. split; [now left | exact He].
    + destruct Hin as [-> | Hin]; [congruence|].
      destruct (IH ({[ url z ]} ∪ seen) x Hin) as (y & Hy & Hu).
      * intros Hs. apply elem_of_union in Hs as [Hs|Hs]; [|contradiction].
        apply elem_of_singleton in Hs. congruence.
      * exists y. split; [now right | exact Hu].
Qed.

Lemma pages_from_S (first : Z) (k : nat) :
  pages_from first (S k) = first :: pages_from (first + 1) k.
Proof.
  unfold pages_from. cbn [seq map]. f_equal; [lia|].
  rewrite <- seq_shift, map_map. apply map_ext. intros j. lia.
Qed.

Lemma items_of_pages_S (fetch : Z -> page_outcome) (first : Z) (k : nat) :
  items_of_pages fetch first (S k)
  = page_items fetch first ++ items_of_pages fetch (first + 1) k.
Proof. unfold items_of_pages. now rewrite pages_from_S. Qed.

Lemma search_pages_spec (float : string -> option pyfloat) (base_url : string)
      (fetch : Z -> page_outcome) (query_lower : string)
      (min_price max_price : option pyfloat) (k : nat) :
  forall (rounds : nat) (page : Z) (results : list ListingResult) (seen : gset string),
    1 <= page <= 5 ->
    Z.of_nat rounds = 6 - page ->
    page + Z.of_nat k <= 6 ->
    (forall j, (j < k)%nat ->
               exists items, fetch (page + Z.of_nat j) = PageItems items /\ items <> []) ->
    let found :=
      results
        ++ first_by_url seen
             (omap (Starweb.accepted float base_url query_lower min_price max_price)
                   (items_of_pages fetch page k)) in
    let run :=
      Starweb.search_pages float base_url fetch query_lower min_price max_price
                   rounds page (results, seen) in
    (page + Z.of_nat k = 6 -> run = (pages_from page k, Some (Ok found)))
    /\ (page + Z.of_nat k <= 5 -> fetch (page + Z.of_nat k) = PageItems [] ->
        run = (pages_from page (S k), Some (Ok found)))
    /\ (forall e, page + Z.of_nat k <= 5 -> fetch (page + Z.of_nat k) = PageRaises e ->
                  run = (pages_from page (S k), Some (Raise e))).
Proof.
  induction k as [|k IH]; intros rounds page results seen Hp Hr Hk Hpages found run.
  - destruct rounds as [|rounds]; [lia|]. subst run found.
    rewrite Z.add_0_r. cbn [items_of_pages pages_from seq map flat_map omap list_omap first_by_url].
    rewrite app_nil_r, Z.add_0_r. cbn [Starweb.search_pages]. split; [lia|]. split.
    + intros _ ->. reflexivity.
    + intros e _ ->. reflexivity.
  - destruct rounds as [|rounds]; [lia|].
    destruct (Hpages O ltac:(lia)) as (items & Hf & Hne).
    rewrite Z.add_0_r in Hf.
    assert (Hitems : page_items fetch page = items)
      by (unfold page_items; now rewrite Hf).
    subst run found. rewrite items_of_pages_S, Hitems, omap_app, first_by_url_app.
    cbn [Starweb.search_pages]. rewrite Hf.
    destruct items as [|li items']; [congruence|].
    rewrite consider_all_spec.
    set (acc := omap (Starweb.accepted float base_url query_lower min_price max_price)
                     (li :: items')).
    destruct (Z.ltb_spec 5 (page + 1)) as [Hlast|Hmore].
    + assert (k = O) by lia. subst k.
      cbn [items_of_pages pages_from seq map flat_map omap list_omap first_by_url fst].
      rewrite !app_nil_r, Z.add_0_r. split; [reflexivity|].
      split; [intros; lia | intros; lia].
    + assert (Hp' : 1 <= page + 1 <= 5) by lia.
      assert (Hr' : Z.of_nat rounds = 6 - (page + 1)) by lia.
      assert (Hk' : page + 1 + Z.of_nat k <= 6) by lia.
      assert (Hpages' : forall j, (j < k)%nat ->
                 exists items, fetch (page + 1 + Z.of_nat j) = PageItems items
                               /\ items <> []).
      { intros j Hj. destruct (Hpages (S j) ltac:(lia)) as (it & Hit & Hn).
        exists it. split; [|exact Hn]. rewrite <- Hit. f_equal. lia. }
      destruct (IH rounds (page + 1) (results ++ first_by_url seen acc)
                   (seen_by_url seen acc) Hp' Hr' Hk' Hpages') as (H6 & H0 & He).
      replace (page + Z.of_nat (S k)) with (page + 1 + Z.of_nat k) by lia.
      rewrite <- app_assoc in H6, H0. cbn [fst snd].
      split; [|split].
      * intros Hend. rewrite (H6 Hend), pages_from_S. reflexivity.
      * intros Hle Hend. rewrite (H0 Hle Hend), (pages_from_S page (S k)). reflexivity.
      * intros e Hle Hend. rewrite (He e Hle Hend), (pages_from_S page (S k)).
        reflexivity.
Qed.

(** X28. The search of a Starweb storefront.  Pages are requested from
    page 1 on, one after the other, until a page is empty, a request raises,
    or page 5 has been read; the loop always ends.  If the first [k] pages
    have items, then: when page [k + 1] is empty or [k] is 5, the result is
    the listings of the items of these pages that carry the link, have the
    lower-cased query in their lower-cased title and a price within the
    bounds, each url once, in page order, the first item of a url winning;
    when the request of page [k + 1] raises, the exception propagates and
    what was collected is lost.  No two results share a url. *)
Theorem starweb_search_spec (float : string -> option pyfloat) (base_url : string)
        (site : string -> Z -> page_outcome) (query : string)
        (min_price max_price : option pyfloat) (k : nat) :
  (k <= 5)%nat ->
  (forall j, (j < k)%nat ->
             exists items, site query (1 + Z.of_nat j) = PageItems items /\ items <> []) ->
  let taken :=
    omap (Starweb.accepted float base_url (PyStr.lower query) min_price max_price)
         (items_of_pages (site query) 1 k) in
  let found := first_by_url ∅ taken in
  let run := Starweb._search_sync float base_url site query min_price max_price in
  (k = 5%nat -> run = (pages_from 1 5, Some (Ok found)))
  /\ ((k < 5)%nat -> site query (1 + Z.of_nat k) = PageItems [] ->
      run = (pages_from 1 (S k), Some (Ok found)))
  /\ (forall e, (k < 5)%nat -> site query (1 + Z.of_nat k) = PageRaises e ->
                run = (pages_from 1 (S k), Some (Raise e)))
  /\ NoDup (map url found)
  /\ (forall x, In x found -> In x taken)
  /\ (forall x, In x taken -> exists y, In y found /\ url y = url x)
  /\ (forall x, In x taken ->
        PyStr.contains (PyStr.lower query) (PyStr.lower (title x)) = true).
Proof.
  intros Hk Hpages taken found run.
  destruct (search_pages_spec float base_url (site query) (PyStr.lower query)
              min_price max_price k 5 1 [] ∅ ltac:(lia) ltac:(lia) ltac:(lia) Hpages)
    as (H6 & H0 & He).
  cbn [app] in H6, H0.
  split; [intros ->; apply H6; lia|].
  split; [intros Hlt; apply H0; lia|]. split; [intros e Hlt; apply He; lia|].
  destruct (first_by_url_fresh taken ∅) as [Hnd Hfresh].
  split; [exact Hnd|]. split; [intros x Hx; now apply Hfresh|].
  split.
  - intros x Hx. apply first_by_url_complete; [exact Hx|]. apply not_elem_of_empty.
  - intros x Hx. subst taken. apply list_elem_of_In, list_elem_of_omap in Hx
      as (li & _ & Hacc).
    unfold Starweb.accepted in Hacc.
    destruct (Starweb._parse_listing float base_url li) as [[l|]|]; try discriminate.
    unfold Starweb.skipped in Hacc.
    destruct (PyStr.contains (PyStr.lower query) (PyStr.lower (title l))) eqn:Hc;
      [|discriminate].
    cbn [negb orb] in Hacc.
    match type of Hacc with (if ?b then _ else _) = _ => destruct b end;
      [discriminate|]. now injection Hacc as <-.
Qed.

(** ** Shutdown *)








(** ** The statements above at sample inputs *)

Lemma exclude_spec_witness :
  truthy_list (@None (list string)) = false
  /\ let '(scrapers, warnings) :=
       select_scrapers all_scrapers None (Some ["facebook"; "ebay"]) in
     scrapers `sublist_of` all_scrapers
     /\ (forall k, In k scrapers <->
           In k all_scrapers
           /\ forall s, In s ["facebook"; "ebay"] ->
                        find (match_site_name s) all_scrapers <> Some k)
     /\ warnings = map UnrecognizedSite (unmatched all_scrapers ["facebook"; "ebay"]).
Proof.
  split; [reflexivity|].
  apply (exclude_spec all_scrapers "facebook" ["ebay"] None). reflexivity.
Defined.

Lemma include_exclude_partition_witness :
  NoDup all_scrapers
  /\ find (match_site_name "facebook") all_scrapers = Some "Facebook Marketplace"
  /\ select_scrapers all_scrapers (Some ["facebook"]) None
     = (["Facebook Marketplace"], [])
  /\ select_scrapers all_scrapers None (Some ["facebook"])
     = (List.filter (fun n => negb (String.eqb n "Facebook Marketplace")) all_scrapers, [])
  /\ "Facebook Marketplace"
       :: List.filter (fun n => negb (String.eqb n "Facebook Marketplace")) all_scrapers
     ≡ₚ all_scrapers.
Proof.
  assert (H1 : NoDup all_scrapers)
    by (apply (bool_decide_unpack _); vm_compute; exact I).
  assert (H2 : find (match_site_name "facebook") all_scrapers
               = Some "Facebook Marketplace") by (vm_compute; reflexivity).
  split; [exact H1 | split; [exact H2 |]].
  apply (include_exclude_partition all_scrapers "facebook" "Facebook Marketplace" H1 H2).
Defined.

Lemma include_twice_warns_witness :
  List.filter (match_site_name "blocket") all_scrapers = ["Blocket"]
  /\ select_scrapers all_scrapers (Some ["blocket"; "blocket"]) None
     = (["Blocket"], [UnrecognizedSite "blocket"]).
Proof.
  assert (H : List.filter (match_site_name "blocket") all_scrapers = ["Blocket"])
    by (vm_compute; reflexivity).
  split; [exact H|].
  apply (include_twice_warns all_scrapers "blocket" "Blocket" None H).
Defined.

Lemma documented_sites_recognized_witness :
  In ("Facebook", "Facebook Marketplace") documented_sites
  /\ PyStr.lower "FACEBOOK" = PyStr.lower "Facebook"
  /\ AudioSearch_init (Some ["FACEBOOK"]) None = (["Facebook Marketplace"], []).
Proof.
  assert (H1 : In ("Facebook", "Facebook Marketplace") documented_sites)
    by (right; right; left; reflexivity).
  assert (H2 : PyStr.lower "FACEBOOK" = PyStr.lower "Facebook") by reflexivity.
  split; [exact H1 | split; [exact H2 |]].
  apply (documented_sites_recognized "Facebook" "Facebook Marketplace" "FACEBOOK" H1 H2).
Defined.


Lemma aggregate_term_blank_witness :
  all_space "   " = true
  /\ expand_search_term "   " = ["   "]
  /\ aggregate_term true sample_scrapers "   " = ([EmptyQueryWarning], Ok []).
Proof.
  split; [reflexivity|].
  apply (aggregate_term_blank true sample_scrapers "   "). reflexivity.
Defined.

Lemma aggregate_term_dispatched_witness :
  PyStr.strip " amp " <> ""
  /\ NoDup (map name sample_scrapers)
  /\ snd (aggregate_term true sample_scrapers " amp ")
     = Ok (aggregated_results
             (aggregate (map (dispatched sample_scrapers) (expand_search_term " amp "))))
  /\ keys (aggregated_results
             (aggregate (map (dispatched sample_scrapers) (expand_search_term " amp "))))
     = map name sample_scrapers.
Proof.
  assert (H1 : PyStr.strip " amp " <> "") by (vm_compute; discriminate).
  assert (H2 : NoDup (map name sample_scrapers))
    by (apply (bool_decide_unpack _); vm_compute; exact I).
  split; [exact H1 | split; [exact H2 |]].
  apply (aggregate_term_dispatched true sample_scrapers " amp " H1 H2).
  intros v _. repeat constructor; simpl; discriminate.
Defined.

Lemma filter_by_days_only_removes_witness :
  let out := [("Blocket", [rega_undated; hegel_today]); ("HiFiShark", [hegel_copy])] in
  filter_by_days now0 sample_results 7 = Ok out
  /\ Forall2 (fun e e' => fst e' = fst e /\ snd e' `sublist_of` snd e) sample_results out
  /\ keys out = keys sample_results
  /\ (total_results out <= total_results sample_results)%nat.
Proof.
  assert (H1 : NoDup (keys sample_results))
    by (apply (bool_decide_unpack _); vm_compute; exact I).
  assert (H2 : filter_by_days now0 sample_results 7
               = Ok [("Blocket", [rega_undated; hegel_today]); ("HiFiShark", [hegel_copy])])
    by (vm_compute; reflexivity).
  split; [exact H2|].
  apply (filter_by_days_only_removes now0 sample_results _ 7 H1 H2).
Defined.

Lemma filter_by_days_idempotent_witness :
  let out := [("Blocket", [rega_undated; hegel_today]); ("HiFiShark", [hegel_copy])] in
  filter_by_days now0 sample_results 7 = Ok out
  /\ filter_by_days now0 out 7 = Ok out.
Proof.
  assert (H1 : NoDup (keys sample_results))
    by (apply (bool_decide_unpack _); vm_compute; exact I).
  assert (H2 : filter_by_days now0 sample_results 7
               = Ok [("Blocket", [rega_undated; hegel_today]); ("HiFiShark", [hegel_copy])])
    by (vm_compute; reflexivity).
  split; [exact H2|].
  apply (filter_by_days_idempotent now0 sample_results _ 7 H1 H2).
Defined.


Lemma blank_dates_witness :
  all_space "  " = true
  /\ parse_date now0 (Some "  ") = Ok None
  /\ normalize_date now0 (Some "  ") = Ok None.
Proof.
  split; [reflexivity|]. apply (blank_dates now0 "  "). reflexivity.
Defined.

Lemma truncate_spec_witness :
  0 <= 4
  /\ 4 < len [1; 2; 3; 4; 5; 6]%nat
  /\ truncate 0%nat [1; 2; 3; 4; 5; 6]%nat 4 = [1; 2; 3; 0]%nat.
Proof.
  assert (H0 : 0 <= 4) by lia.
  assert (H1 : 4 < len [1; 2; 3; 4; 5; 6]%nat) by (vm_compute; reflexivity).
  split; [exact H0 | split; [exact H1 |]].
  destruct (truncate_spec 0%nat [1; 2; 3; 4; 5; 6]%nat 4 H0) as (_ & _ & H).
  destruct (H H1) as [_ H2]. destruct H2 as [H2 _]; [lia|]. exact H2.
Defined.

Lemma column_width_spec_witness :
  In [1; 2; 3]%nat [[1; 2; 3]; [1; 2; 3; 4; 5; 6; 7]]%nat
  /\ len [1; 2; 3]%nat <= 5
  /\ truncate 0%nat [1; 2; 3]%nat
              (column_width [8; 9]%nat 5 [[1; 2; 3]; [1; 2; 3; 4; 5; 6; 7]]%nat)
     = [1; 2; 3]%nat.
Proof.
  assert (H1 : In [1; 2; 3]%nat [[1; 2; 3]; [1; 2; 3; 4; 5; 6; 7]]%nat)
    by (left; reflexivity).
  assert (H2 : len [1; 2; 3]%nat <= 5) by (vm_compute; discriminate).
  split; [exact H1 | split; [exact H2 |]].
  destruct (column_width_spec 0%nat [8; 9]%nat 5 [[1; 2; 3]; [1; 2; 3; 4; 5; 6; 7]]%nat)
    as (_ & _ & H).
  exact (proj2 (H _ H1) H2).
Defined.

Lemma sanitize_text_witness :
  "  Gamla   Stan " <> ""
  /\ normalize_date now0 (Some "  Gamla   Stan ") = Ok None
  /\ sanitize now0 (Some "  Gamla   Stan ") = Ok "Gamla Stan".
Proof.
  assert (H1 : "  Gamla   Stan " <> "") by discriminate.
  assert (H2 : normalize_date now0 (Some "  Gamla   Stan ") = Ok None)
    by (vm_compute; reflexivity).
  split; [exact H1 | split; [exact H2 |]].
  destruct (sanitize_text now0 "  Gamla   Stan " H1 H2) as (r & Hr & Hj & _).
  rewrite Hr, Hj. reflexivity.
Defined.

Lemma sanitize_missing_witness :
  sanitize now0 None = Ok "-"
  /\ sanitize now0 (Some "") = Ok "-"
  /\ sanitize now0 (Some "  ") = Ok "".
Proof.
  split; [|split].
  - apply (proj1 (sanitize_missing now0 None)). reflexivity.
  - apply (proj1 (sanitize_missing now0 (Some ""))). reflexivity.
  - apply (proj2 (sanitize_missing now0 (Some "  "))). exists "  ".
    split; [reflexivity | split; [discriminate | reflexivity]].
Defined.

Lemma normalize_url_spec_witness :
  PyStr.startswith "http" "https://www.hifitorget.se" = true
  /\ PyStr.startswith
       "http" (_normalize_url "https://www.hifitorget.se" "annons/1") = true
  /\ _normalize_url "https://www.hifitorget.se"
                    (_normalize_url "https://www.hifitorget.se" "annons/1")
     = _normalize_url "https://www.hifitorget.se" "annons/1".
Proof.
  split; [reflexivity|].
  apply (normalize_url_spec "https://www.hifitorget.se" "annons/1"). reflexivity.
Defined.

Lemma extract_price_plain_witness :
  PyStr.contains "," "-1 500 kr" = false
  /\ PyStr.contains "." "-1 500 kr" = false
  /\ _extract_price (fun s : string => Some s) "-1 500 kr" = Ok (Some "1500").
Proof.
  split; [reflexivity | split; [reflexivity |]].
  apply (extract_price_plain (fun s : string => Some s) "-1 500 kr"); reflexivity.
Defined.

Lemma fetch_page_spec_witness :
  (snd (_fetch_page false sample_get "https://www.hifitorget.se" None)
   = Ok (Some (BeautifulSoup "<html></html>"))
   /\ requests_of (fst (_fetch_page false sample_get "https://www.hifitorget.se" None))
      = repeat "https://www.hifitorget.se" 3
   /\ sleeps_of (fst (_fetch_page false sample_get "https://www.hifitorget.se" None))
      = [1; 2])
  /\ (snd (_fetch_page false gone_get "https://www.hifitorget.se" (Some 2)) = Ok None
      /\ errors_of (fst (_fetch_page false gone_get "https://www.hifitorget.se" (Some 2)))
         = []).
Proof.
  split.
  - destruct (fetch_page_spec false sample_get "https://www.hifitorget.se" None)
      as [H _].
    destruct (H 2%nat) as [Hs _].
    + simpl. lia.
    + intros j Hj. destruct j as [|[|j]]; [split; reflexivity | split; reflexivity | lia].
    + destruct (Hs eq_refl) as (s & c & Hg & Hr & Hq & Hz & _).
      injection Hg as <- <-. rewrite Hr, Hq, Hz. repeat split; reflexivity.
  - destruct (fetch_page_spec false gone_get "https://www.hifitorget.se" (Some 2))
      as [_ H].
    destruct H as (Hr & _ & _ & He).
    + intros j _. split; reflexivity.
    + rewrite Hr, He. split; reflexivity.
Defined.

Lemma process_term_spec_witness :
  exists rows : list row,
    snd (process_term utc_timestamp now0 true sample_scrapers (Some 7) ByDate " amp ")
    = Ok (Reported (Table [("Blocket", hegel_today); ("Blocket", rega_undated)] rows 2))
    /\ NoDup (map (fun item => signature (snd item))
                  [("Blocket", hegel_today); ("Blocket", rega_undated)])
    /\ length rows = 2%nat
    /\ in_window now0 (Some 7) hegel_today.
Proof.
  exists (match snd (process_term utc_timestamp now0 true sample_scrapers (Some 7)
                                  ByDate " amp ") with
          | Ok (Reported (Table _ rows _)) => rows
          | _ => []
          end).
  assert (H1 : PyStr.strip " amp " <> "") by (vm_compute; discriminate).
  assert (H2 : NoDup (map name sample_scrapers))
    by (apply (bool_decide_unpack _); vm_compute; exact I).
  assert (H3 : forall v, In v (expand_search_term " amp ") ->
               Forall (fun s => ordinary (search s (PyStr.strip v))) sample_scrapers).
  { intros v _. repeat constructor; simpl; discriminate. }
  assert (H4 : snd (process_term utc_timestamp now0 true sample_scrapers (Some 7)
                                 ByDate " amp ")
               = Ok (Reported
                       (Table [("Blocket", hegel_today); ("Blocket", rega_undated)]
                              (match snd (process_term utc_timestamp now0 true
                                                       sample_scrapers (Some 7)
                                                       ByDate " amp ") with
                               | Ok (Reported (Table _ rows _)) => rows
                               | _ => []
                               end) 2)))
    by (vm_compute; reflexivity).
  split; [exact H4|].
  destruct (process_term_spec utc_timestamp now0 true sample_scrapers (Some 7) ByDate
                              " amp " _ _ _ H1 H2 H3 H4)
    as (Hin & _ & Hnd & _ & _ & Hlen & _).
  split; [exact Hnd | split; [exact Hlen |]].
  apply (proj1 (Hin ("Blocket", hegel_today))). left. reflexivity.
Defined.

Lemma starweb_search_spec_witness :
  fst (Starweb._search_sync float_of_digits "https://www.audioperformance.se"
                            sample_site "nad" None None) = [1; 2]
  /\ exists listing,
       snd (Starweb._search_sync float_of_digits "https://www.audioperformance.se"
                                 sample_site "nad" None None) = Some (Ok [listing])
       /\ title listing = "NAD 3020"
       /\ url listing = "https://www.audioperformance.se/product/nad-3020"
       /\ price listing = float_of_digits "1500".
Proof.
  destruct (starweb_search_spec float_of_digits "https://www.audioperformance.se"
                                sample_site "nad" None None 1)
    as (_ & H & _).
  - lia.
  - intros j Hj. assert (j = O) by lia. subst j. eexists. split; [reflexivity|].
    discriminate.
  - rewrite H; [|lia | reflexivity]. split; [reflexivity|].
    eexists. split; [vm_compute; reflexivity|]. repeat split; vm_compute; reflexivity.
Defined.

